(** * AskMate: classes, join codes, membership, votes and accepted answers

    A shallow embedding of the server side of AskMate (Express handlers over
    Mongoose models) and the properties of its class-code allocator, access
    predicates, vote ledger and answer-acceptance flow.

    Conventions of the embedding.
    - An [ObjectId] is represented by its hexadecimal string, so the source's
      [a.toString() === b.toString()] is string equality.
    - JavaScript strings are modelled as sequences of 8-bit characters;
      [trim] and [toUpperCase] act on the ASCII range, where they agree with
      the JavaScript functions.
    - [Math.random()] is an external source of numbers: a stream
      [rnd : nat -> Q] read at a position that the state carries.
    - A collection is the sequence (classes) or finite map (questions,
      answers) of its documents; [doc.save()] writes the in-memory document
      back under its [_id] (Mongoose's change tracking is not modelled), and
      inserting a new document under an [_id] already present is refused by
      the store.
    - Users' [createdClasses]/[joinedClasses] lists, uploaded files,
      timestamps and [populate] calls play no part in the properties below
      and are left out. *)

From Stdlib Require Import Ascii QArith Qround.
From stdpp Require Import base option list strings gmap.

Local Open Scope string_scope.
Local Open Scope list_scope.

Definition ObjectId := string.

(** ** JavaScript string helpers *)

Module JS.

Definition is_space (a : ascii) : bool :=
  let n := nat_of_ascii a in
  (n =? 32)%nat || ((9 <=? n)%nat && (n <=? 13)%nat).

Definition is_lower (a : ascii) : bool :=
  let n := nat_of_ascii a in (97 <=? n)%nat && (n <=? 122)%nat.

Definition upper_char (a : ascii) : ascii :=
  if is_lower a then ascii_of_nat (nat_of_ascii a - 32) else a.

Fixpoint toUpperCase (s : string) : string :=
  match s with
  | EmptyString => EmptyString
  | String a s' => String (upper_char a) (toUpperCase s')
  end.

Fixpoint ltrim (s : string) : string :=
  match s with
  | EmptyString => EmptyString
  | String a s' => if is_space a then ltrim s' else s
  end.

Fixpoint rtrim (s : string) : string :=
  match s with
  | EmptyString => EmptyString
  | String a s' =>
      match rtrim s' with
      | EmptyString => if is_space a then EmptyString else String a EmptyString
      | r => String a r
      end
  end.

Definition trim (s : string) : string := rtrim (ltrim s).

(** [s.charAt(k)]: the one-character string at index [k], or the empty
    string when [k] is out of range. *)
Definition charAt (s : string) (k : Z) : string :=
  if (k <? 0)%Z then EmptyString
  else match String.get (Z.to_nat k) s with
       | Some a => String a EmptyString
       | None => EmptyString
       end.

(** [a.split(sep)] for a one-character separator. *)
Fixpoint split_go (sep : ascii) (cur : string) (s : string) : list string :=
  match s with
  | EmptyString => [cur]
  | String a s' =>
      if Ascii.eqb a sep then cur :: split_go sep EmptyString s'
      else split_go sep (String.append cur (String a EmptyString)) s'
  end.

Definition split (sep : ascii) (s : string) : list string :=
  split_go sep EmptyString s.

(** Truthiness of an optional string: [undefined] and [''] are falsy. *)
Definition truthy (o : option string) : bool :=
  match o with
  | Some (String _ _) => true
  | _ => false
  end.

(** [Math.floor(r * n)] for a sample [r] of [Math.random()]. *)
Definition floor_scaled (r : Q) (n : nat) : Z :=
  Qfloor (r * inject_Z (Z.of_nat n)).

End JS.

(** ** HTTP responses *)

Record Response := { status : nat; message : string }.

Definition respond (code : nat) (msg : string) : Response :=
  {| status := code; message := msg |}.

(** ** The authenticated user ([req.user]) *)

Module UserModel.

Record t := { _id : ObjectId; role : string }.

End UserModel.

(** ** models/Class.js *)

Module ClassModel.

Inductive Role := student | teacher.

Definition role_eqb (a b : Role) : bool :=
  match a, b with
  | student, student | teacher, teacher => true
  | _, _ => false
  end.

Record Member := { user : ObjectId; role : Role }.

Record Settings := {
  allowStudentQuestions : bool;
  allowFileUploads : bool;
  maxFileSize : N;
  allowedFileTypes : list string
}.

Definition defaultSettings : Settings :=
  {| allowStudentQuestions := true;
     allowFileUploads := true;
     maxFileSize := (10 * 1024 * 1024)%N;
     allowedFileTypes :=
       ["image/jpeg"; "image/png"; "image/gif"; "application/pdf"; "text/plain"] |}.

Record t := {
  _id : ObjectId;
  name : string;
  description : option string;
  classCode : option string;
  createdBy : ObjectId;
  members : list Member;
  settings : Settings;
  isActive : bool
}.

Definition set_classCode (c : t) (code : option string) : t :=
  {| _id := _id c; name := name c; description := description c;
     classCode := code; createdBy := createdBy c; members := members c;
     settings := settings c; isActive := isActive c |}.

Definition set_members (c : t) (ms : list Member) : t :=
  {| _id := _id c; name := name c; description := description c;
     classCode := classCode c; createdBy := createdBy c; members := ms;
     settings := settings c; isActive := isActive c |}.

Definition set_name (c : t) (n : string) : t :=
  {| _id := _id c; name := n; description := description c;
     classCode := classCode c; createdBy := createdBy c; members := members c;
     settings := settings c; isActive := isActive c |}.

Definition set_description (c : t) (d : option string) : t :=
  {| _id := _id c; name := name c; description := d;
     classCode := classCode c; createdBy := createdBy c; members := members c;
     settings := settings c; isActive := isActive c |}.

Definition set_settings (c : t) (s : Settings) : t :=
  {| _id := _id c; name := name c; description := description c;
     classCode := classCode c; createdBy := createdBy c; members := members c;
     settings := s; isActive := isActive c |}.

(** [new Class({ name, description, createdBy })] with the schema defaults. *)
Definition new (id : ObjectId) (n : string) (d : option string)
    (creator : ObjectId) : t :=
  {| _id := id; name := n; description := d; classCode := None;
     createdBy := creator; members := []; settings := defaultSettings;
     isActive := true |}.

(** *** Queries on the collection *)

Definition has_code (code : string) (c : t) : bool :=
  match classCode c with
  | Some k => String.eqb k code
  | None => false
  end.

(** [Class.findOne({ classCode })] *)
Definition findOne (store : list t) (code : string) : option t :=
  List.find (has_code code) store.

(** [Class.findById(id)] *)
Definition findById (store : list t) (id : ObjectId) : option t :=
  List.find (fun c => String.eqb (_id c) id) store.

(** [doc.save()] of a new document: an insert, refused when the [_id] is
    already taken. *)
Definition insert (store : list t) (c : t) : option (list t) :=
  match findById store (_id c) with
  | Some _ => None
  | None => Some (store ++ [c])%list
  end.

(** [doc.save()] of a loaded document, and [findByIdAndUpdate]: the stored
    document with that [_id] is replaced. *)
Definition save (store : list t) (c : t) : list t :=
  List.map (fun d => if String.eqb (_id d) (_id c) then c else d) store.

(** [Class.findByIdAndDelete(id)] *)
Definition remove (store : list t) (id : ObjectId) : list t :=
  List.filter (fun d => negb (String.eqb (_id d) id)) store.

(** *** The code generator of the first pre-save hook *)

Definition chars : string := "ABCDEFGHIJKLMNOPQRSTUVWXYZ0123456789".

(** The [for] loop of [generateClassCode], [n] iterations left; [pos] is the
    number of [Math.random()] samples consumed so far. *)
Fixpoint generateClassCode_loop (n : nat) (rnd : nat -> Q) (result : string)
    (pos : nat) : string * nat :=
  match n with
  | O => (result, pos)
  | S n' =>
      generateClassCode_loop n' rnd
        (String.append result
           (JS.charAt chars (JS.floor_scaled (rnd pos) (String.length chars))))
        (S pos)
  end.

Definition generateClassCode (rnd : nat -> Q) (pos : nat) : string * nat :=
  generateClassCode_loop 6 rnd EmptyString pos.

(** *** The retry loop of the first pre-save hook *)

Definition maxAttempts : nat := 10.

(** The loop's variables, and the position in the random stream. *)
Record Alloc := {
  candidate : option string;   (* [classCode] *)
  isUnique : bool;
  attempts : nat;
  next : nat
}.

Definition alloc_init (pos : nat) : Alloc :=
  {| candidate := None; isUnique := false; attempts := 0; next := pos |}.

(** One pass through the loop body. *)
Definition alloc_step (rnd : nat -> Q) (store : list t) (st : Alloc) : Alloc :=
  let '(code, pos') := generateClassCode rnd (next st) in
  let existingClass := findOne store code in
  {| candidate := Some code;
     isUnique := match existingClass with None => true | Some _ => isUnique st end;
     attempts := S (attempts st);
     next := pos' |}.

(** [while (!isUnique && attempts < maxAttempts) { ... }]; [None] when the
    fuel runs out before the guard turns false. *)
Fixpoint alloc_loop (fuel : nat) (rnd : nat -> Q) (store : list t)
    (st : Alloc) : option Alloc :=
  if negb (isUnique st) && (attempts st <? maxAttempts)%nat then
    match fuel with
    | O => None
    | S fuel' => alloc_loop fuel' rnd store (alloc_step rnd store st)
    end
  else Some st.

Definition allocation_error : string :=
  "Failed to generate unique class code after multiple attempts".

(** The first [pre('save')] hook: [inl msg] is [next(new Error(msg))],
    [inr doc] is [next()] with the document as the hook leaves it. *)
Definition preSave_classCode (fuel : nat) (rnd : nat -> Q) (store : list t)
    (isNew : bool) (doc : t) (pos : nat) : option ((string + t) * nat) :=
  if negb isNew || JS.truthy (classCode doc) then Some (inr doc, pos)
  else
    match alloc_loop fuel rnd store (alloc_init pos) with
    | None => None
    | Some st =>
        if negb (isUnique st) then Some (inl allocation_error, next st)
        else Some (inr (set_classCode doc (candidate st)), next st)
    end.

(** The second [pre('save')] hook: the creator becomes a teacher member. *)
Definition preSave_creator (isNew : bool) (doc : t) : t :=
  if isNew then
    set_members doc (members doc ++ [{| user := createdBy doc; role := teacher |}])%list
  else doc.

(** The retry loop as the repository's other copy of the model has it:
    [while (!isUnique) { ... }], with no attempt counter. *)
Fixpoint alloc_loop_unbounded (fuel : nat) (rnd : nat -> Q) (store : list t)
    (st : Alloc) : option Alloc :=
  if negb (isUnique st) then
    match fuel with
    | O => None
    | S fuel' => alloc_loop_unbounded fuel' rnd store (alloc_step rnd store st)
    end
  else Some st.

End ClassModel.

(** ** models/Question.js *)

Module QuestionModel.

Record t := {
  title : string;
  description : string;
  tags : list string;
  classId : ObjectId;
  author : ObjectId;
  answers : list ObjectId;
  upvotes : list ObjectId;
  downvotes : list ObjectId;
  isResolved : bool;
  isPinned : bool;
  isActive : bool;
  views : nat
}.

(** [new Question({ title, description, tags, classId, author })] *)
Definition new (ti de : string) (ta : list string) (cl au : ObjectId) : t :=
  {| title := ti; description := de; tags := ta; classId := cl; author := au;
     answers := []; upvotes := []; downvotes := []; isResolved := false;
     isPinned := false; isActive := true; views := 0 |}.

Definition set_text (q : t) (ti de : string) (ta : list string) : t :=
  {| title := ti; description := de; tags := ta; classId := classId q;
     author := author q; answers := answers q; upvotes := upvotes q;
     downvotes := downvotes q; isResolved := isResolved q;
     isPinned := isPinned q; isActive := isActive q; views := views q |}.

Definition set_answers (q : t) (l : list ObjectId) : t :=
  {| title := title q; description := description q; tags := tags q;
     classId := classId q; author := author q; answers := l;
     upvotes := upvotes q; downvotes := downvotes q;
     isResolved := isResolved q; isPinned := isPinned q;
     isActive := isActive q; views := views q |}.

Definition set_votes (q : t) (v : list ObjectId * list ObjectId) : t :=
  {| title := title q; description := description q; tags := tags q;
     classId := classId q; author := author q; answers := answers q;
     upvotes := fst v; downvotes := snd v;
     isResolved := isResolved q; isPinned := isPinned q;
     isActive := isActive q; views := views q |}.

Definition set_isResolved (q : t) (b : bool) : t :=
  {| title := title q; description := description q; tags := tags q;
     classId := classId q; author := author q; answers := answers q;
     upvotes := upvotes q; downvotes := downvotes q;
     isResolved := b; isPinned := isPinned q;
     isActive := isActive q; views := views q |}.

Definition set_isActive (q : t) (b : bool) : t :=
  {| title := title q; description := description q; tags := tags q;
     classId := classId q; author := author q; answers := answers q;
     upvotes := upvotes q; downvotes := downvotes q;
     isResolved := isResolved q; isPinned := isPinned q;
     isActive := b; views := views q |}.

Definition set_views (q : t) (n : nat) : t :=
  {| title := title q; description := description q; tags := tags q;
     classId := classId q; author := author q; answers := answers q;
     upvotes := upvotes q; downvotes := downvotes q;
     isResolved := isResolved q; isPinned := isPinned q;
     isActive := isActive q; views := n |}.

(** The virtual [voteCount]. *)
Definition voteCount (q : t) : Z :=
  (Z.of_nat (length (upvotes q)) - Z.of_nat (length (downvotes q)))%Z.

End QuestionModel.

(** ** models/Answer.js *)

Module AnswerModel.

Record t := {
  text : string;
  questionId : ObjectId;
  author : ObjectId;
  upvotes : list ObjectId;
  downvotes : list ObjectId;
  isAccepted : bool;
  isActive : bool
}.

(** [new Answer({ text, questionId, author })] *)
Definition new (tx : string) (q au : ObjectId) : t :=
  {| text := tx; questionId := q; author := au; upvotes := [];
     downvotes := []; isAccepted := false; isActive := true |}.

Definition set_text (a : t) (tx : string) : t :=
  {| text := tx; questionId := questionId a; author := author a;
     upvotes := upvotes a; downvotes := downvotes a;
     isAccepted := isAccepted a; isActive := isActive a |}.

Definition set_votes (a : t) (v : list ObjectId * list ObjectId) : t :=
  {| text := text a; questionId := questionId a; author := author a;
     upvotes := fst v; downvotes := snd v;
     isAccepted := isAccepted a; isActive := isActive a |}.

Definition set_isAccepted (a : t) (b : bool) : t :=
  {| text := text a; questionId := questionId a; author := author a;
     upvotes := upvotes a; downvotes := downvotes a;
     isAccepted := b; isActive := isActive a |}.

Definition set_isActive (a : t) (b : bool) : t :=
  {| text := text a; questionId := questionId a; author := author a;
     upvotes := upvotes a; downvotes := downvotes a;
     isAccepted := isAccepted a; isActive := b |}.

Definition voteCount (a : t) : Z :=
  (Z.of_nat (length (upvotes a)) - Z.of_nat (length (downvotes a)))%Z.

End AnswerModel.

(** ** The store, and the position in the random stream *)

Record World := {
  classes : list ClassModel.t;
  questions : gmap ObjectId QuestionModel.t;
  answers : gmap ObjectId AnswerModel.t;
  random : nat
}.

Definition emptyWorld : World :=
  {| classes := []; questions := ∅; answers := ∅; random := 0 |}.

Definition with_classes (w : World) (cs : list ClassModel.t) : World :=
  {| classes := cs; questions := questions w; answers := answers w;
     random := random w |}.

Definition with_questions (w : World) (qs : gmap ObjectId QuestionModel.t) : World :=
  {| classes := classes w; questions := qs; answers := answers w;
     random := random w |}.

Definition with_answers (w : World) (az : gmap ObjectId AnswerModel.t) : World :=
  {| classes := classes w; questions := questions w; answers := az;
     random := random w |}.

Definition with_random (w : World) (n : nat) : World :=
  {| classes := classes w; questions := questions w; answers := answers w;
     random := n |}.

(** ** The vote ledger

    The vote handlers of routes/questions.js and routes/answers.js carry the
    same statements on [upvotes]/[downvotes]: both arrays are filtered, then
    the user id is pushed onto one of them. *)

Module Votes.

(** [ids.filter(id => id.toString() !== userId.toString())] *)
Definition without (userId : ObjectId) (ids : list ObjectId) : list ObjectId :=
  List.filter (fun id => negb (String.eqb id userId)) ids.

Definition applyVote (upvotes downvotes : list ObjectId) (userId : ObjectId)
    (type : string) : list ObjectId * list ObjectId :=
  let upvotes := without userId upvotes in
  let downvotes := without userId downvotes in
  if String.eqb type "upvote" then ((upvotes ++ [userId])%list, downvotes)
  else if String.eqb type "downvote" then (upvotes, (downvotes ++ [userId])%list)
  else (upvotes, downvotes).

(** [body('type').isIn(['upvote', 'downvote', 'remove'])] *)
Definition validType (type : string) : bool :=
  existsb (String.eqb type) ["upvote"; "downvote"; "remove"].

End Votes.

(** ** middleware/auth.js *)

Module Auth.

Import ClassModel.

Definition isMember (classDoc : ClassModel.t) (userId : ObjectId) : bool :=
  existsb (fun member => String.eqb (user member) userId) (members classDoc).

Definition isTeacher (classDoc : ClassModel.t) (userId : ObjectId) : bool :=
  existsb (fun member =>
             String.eqb (user member) userId && role_eqb (role member) teacher)
          (members classDoc).

(** [requireRole(roles)]: [None] lets the request through. *)
Definition requireRole (roles : list string) (u : UserModel.t) : option Response :=
  if existsb (String.eqb (UserModel.role u)) roles then None
  else Some (respond 403 "Insufficient permissions").

(** [requireClassMember]: a rejection, or [req.class]. *)
Definition requireClassMember (store : list ClassModel.t) (u : UserModel.t)
    (id : ObjectId) : Response + ClassModel.t :=
  match findById store id with
  | None => inl (respond 404 "Class not found")
  | Some classDoc =>
      if negb (isMember classDoc (UserModel._id u))
      then inl (respond 403 "You are not a member of this class")
      else inr classDoc
  end.

Definition requireClassTeacher (store : list ClassModel.t) (u : UserModel.t)
    (id : ObjectId) : Response + ClassModel.t :=
  match findById store id with
  | None => inl (respond 404 "Class not found")
  | Some classDoc =>
      if negb (isTeacher classDoc (UserModel._id u))
      then inl (respond 403 "Teacher access required")
      else inr classDoc
  end.

End Auth.

(** ** express-validator chains *)

Module Validate.

(** [isLength({ min, max })] *)
Definition isLength (lo hi : nat) (s : string) : bool :=
  (lo <=? String.length s)%nat && (String.length s <=? hi)%nat.

(** [body(f).optional().trim().isLength(...)] on a field that may be absent *)
Definition optLength (lo hi : nat) (o : option string) : bool :=
  match o with
  | None => true
  | Some s => isLength lo hi (JS.trim s)
  end.

End Validate.

(** ** routes/classes.js *)

Module ClassRoutes.

Import ClassModel.

(** The [settings] object of an update request: any subset of the fields. *)
Record SettingsPatch := {
  p_allowStudentQuestions : option bool;
  p_allowFileUploads : option bool;
  p_maxFileSize : option N;
  p_allowedFileTypes : option (list string)
}.

(** [{ ...req.class.settings, ...settings }] *)
Definition mergeSettings (s : Settings) (p : SettingsPatch) : Settings :=
  {| allowStudentQuestions := default (allowStudentQuestions s) (p_allowStudentQuestions p);
     allowFileUploads := default (allowFileUploads s) (p_allowFileUploads p);
     maxFileSize := default (maxFileSize s) (p_maxFileSize p);
     allowedFileTypes := default (allowedFileTypes s) (p_allowedFileTypes p) |}.

(** [POST /api/classes/create]; [newId] is the [_id] that [new Class] draws.
    [None] stands for a request whose save hook does not return. *)
Definition create (rnd : nat -> Q) (w : World) (u : UserModel.t)
    (name : string) (description : option string) (newId : ObjectId)
    : option (Response * World) :=
  match Auth.requireRole ["teacher"; "admin"] u with
  | Some r => Some (r, w)
  | None =>
      if negb (Validate.isLength 3 100 (JS.trim name)
               && Validate.optLength 0 500 description)
      then Some (respond 400 "Validation failed", w)
      else
        let newClass :=
          ClassModel.new newId (JS.trim name) (JS.trim <$> description)
                         (UserModel._id u) in
        match preSave_classCode maxAttempts rnd (classes w) true newClass (random w) with
        | None => None
        | Some (inl _, pos) =>
            Some (respond 500 "Server error creating class", with_random w pos)
        | Some (inr doc, pos) =>
            match insert (classes w) (preSave_creator true doc) with
            | None =>
                Some (respond 500 "Server error creating class", with_random w pos)
            | Some store =>
                Some (respond 201 "Class created successfully",
                      with_random (with_classes w store) pos)
            end
        end
  end.

(** [POST /api/classes/join] *)
Definition join (w : World) (u : UserModel.t) (classCode : string)
    : Response * World :=
  let classCode := JS.trim classCode in
  if negb (Validate.isLength 6 6 classCode)
  then (respond 400 "Validation failed", w)
  else
    match findOne (classes w) (JS.toUpperCase classCode) with
    | None => (respond 404 "Class not found with this code", w)
    | Some classDoc =>
        if negb (isActive classDoc)
        then (respond 400 "This class is no longer active", w)
        else
          let isAlreadyMember := Auth.isMember classDoc (UserModel._id u) in
          if isAlreadyMember
          then (respond 400 "You are already a member of this class", w)
          else
            let classDoc :=
              set_members classDoc
                (members classDoc ++ [{| user := UserModel._id u; role := student |}])%list in
            (respond 200 "Successfully joined class",
             with_classes w (save (classes w) classDoc))
    end.

(** [PUT /api/classes/:id] *)
Definition update (w : World) (u : UserModel.t) (id : ObjectId)
    (name description : option string) (settings : option SettingsPatch)
    : Response * World :=
  match Auth.requireClassTeacher (classes w) u id with
  | inl r => (r, w)
  | inr reqClass =>
      if negb (Validate.optLength 3 100 name && Validate.optLength 0 500 description)
      then (respond 400 "Validation failed", w)
      else
        let name := JS.trim <$> name in
        let description := JS.trim <$> description in
        let c1 := if JS.truthy name then set_name reqClass (default "" name) else reqClass in
        let c2 := match description with
                  | Some d => set_description c1 (Some d)
                  | None => c1
                  end in
        let c3 := match settings with
                  | Some p => set_settings c2 (mergeSettings (ClassModel.settings reqClass) p)
                  | None => c2
                  end in
        (respond 200 "Class updated successfully",
         with_classes w (save (classes w) c3))
  end.

(** [DELETE /api/classes/:id/members/:userId] *)
Definition removeMember (w : World) (u : UserModel.t) (id : ObjectId)
    (userId : string) : Response * World :=
  match Auth.requireClassTeacher (classes w) u id with
  | inl r => (r, w)
  | inr reqClass =>
      if String.eqb (createdBy reqClass) userId
      then (respond 400 "Cannot remove class creator", w)
      else
        let reqClass :=
          set_members reqClass
            (List.filter (fun member => negb (String.eqb (user member) userId))
                         (members reqClass)) in
        (respond 200 "Member removed successfully",
         with_classes w (save (classes w) reqClass))
  end.

(** [DELETE /api/classes/:id] *)
Definition delete (w : World) (u : UserModel.t) (id : ObjectId)
    : Response * World :=
  match findById (classes w) id with
  | None => (respond 404 "Class not found", w)
  | Some classDoc =>
      if negb (String.eqb (createdBy classDoc) (UserModel._id u))
      then (respond 403 "Only class creator can delete the class", w)
      else (respond 200 "Class deleted successfully",
            with_classes w (remove (classes w) id))
  end.

End ClassRoutes.

(** ** routes/questions.js *)

Module QuestionRoutes.

Import QuestionModel.

(** The [tags] field of a request body: an array or a comma-separated
    string. *)
Inductive TagsInput :=
  | TagsArray (l : list string)
  | TagsString (s : string).

Definition nonblank (tag : string) : bool :=
  (0 <? String.length (JS.trim tag))%nat.

Definition processTags (tags : option TagsInput) : list string :=
  match tags with
  | None => []
  | Some (TagsArray l) => List.filter nonblank l
  | Some (TagsString s) =>
      List.filter (fun tag => (0 <? String.length tag)%nat)
                  (List.map JS.trim (JS.split "," s))
  end.

(** The schema's [trim] setter and [maxlength: 20] validator on tags. *)
Definition castTags (l : list string) : option (list string) :=
  let l := List.map JS.trim l in
  if forallb (fun tag => (String.length tag <=? 20)%nat) l then Some l else None.

(** [POST /api/questions/class/:classId] *)
Definition create (w : World) (u : UserModel.t) (classId : ObjectId)
    (title description : string) (tags : option TagsInput) (newId : ObjectId)
    : Response * World :=
  if negb (Validate.isLength 5 200 (JS.trim title)
           && Validate.isLength 10 2000 (JS.trim description))
  then (respond 400 "Validation failed", w)
  else
    match ClassModel.findById (classes w) classId with
    | None => (respond 404 "Class not found", w)
    | Some classDoc =>
        if negb (Auth.isMember classDoc (UserModel._id u))
        then (respond 403 "You are not a member of this class", w)
        else
          match castTags (processTags tags) with
          | None => (respond 400 "Validation failed", w)
          | Some tags =>
              let question :=
                QuestionModel.new (JS.trim title) (JS.trim description) tags
                                  classId (UserModel._id u) in
              match questions w !! newId with
              | Some _ => (respond 500 "Server error creating question", w)
              | None =>
                  (respond 201 "Question created successfully",
                   with_questions w (<[newId := question]> (questions w)))
              end
          end
    end.

(** [GET /api/questions/:id]: the read that counts a view. *)
Definition get (w : World) (u : UserModel.t) (id : ObjectId) : Response * World :=
  match questions w !! id with
  | None => (respond 404 "Question not found", w)
  | Some question =>
      match ClassModel.findById (classes w) (classId question) with
      | None => (respond 500 "Server error fetching question", w)
      | Some classDoc =>
          if negb (Auth.isMember classDoc (UserModel._id u))
          then (respond 403 "Access denied", w)
          else
            let question := set_views question (views question + 1) in
            (respond 200 "", with_questions w (<[id := question]> (questions w)))
      end
  end.

(** [PUT /api/questions/:id] *)
Definition update (w : World) (u : UserModel.t) (id : ObjectId)
    (title description : option string) (tags : option TagsInput)
    : Response * World :=
  if negb (Validate.optLength 5 200 title
           && Validate.optLength 10 2000 description
           && match tags with Some (TagsString _) => false | _ => true end)
  then (respond 400 "Validation failed", w)
  else
    match questions w !! id with
    | None => (respond 404 "Question not found", w)
    | Some question =>
        let isAuthor := String.eqb (author question) (UserModel._id u) in
        match ClassModel.findById (classes w) (classId question) with
        | None => (respond 500 "Server error updating question", w)
        | Some classDoc =>
            let isTeacher := Auth.isTeacher classDoc (UserModel._id u) in
            if negb isAuthor && negb isTeacher
            then (respond 403 "Not authorized to edit this question", w)
            else
              let title := JS.trim <$> title in
              let description := JS.trim <$> description in
              let ti := if JS.truthy title then default "" title
                        else QuestionModel.title question in
              let de := if JS.truthy description then default "" description
                        else QuestionModel.description question in
              let ta := match tags with
                        | Some (TagsArray l) => castTags (List.filter nonblank l)
                        | _ => Some (QuestionModel.tags question)
                        end in
              match ta with
              | None => (respond 500 "Server error updating question", w)
              | Some ta =>
                  (respond 200 "Question updated successfully",
                   with_questions w
                     (<[id := set_text question ti de ta]> (questions w)))
              end
        end
    end.

(** [POST /api/questions/:id/vote] *)
Definition vote (w : World) (u : UserModel.t) (id : ObjectId) (type : string)
    : Response * World :=
  if negb (Votes.validType type)
  then (respond 400 "Validation failed", w)
  else
    match questions w !! id with
    | None => (respond 404 "Question not found", w)
    | Some question =>
        match ClassModel.findById (classes w) (classId question) with
        | None => (respond 500 "Server error voting on question", w)
        | Some classDoc =>
            if negb (Auth.isMember classDoc (UserModel._id u))
            then (respond 403 "Access denied", w)
            else
              let userId := UserModel._id u in
              let question :=
                set_votes question
                  (Votes.applyVote (upvotes question) (downvotes question) userId type) in
              (respond 200 "Vote updated successfully",
               with_questions w (<[id := question]> (questions w)))
        end
    end.

(** [DELETE /api/questions/:id]: a soft delete. *)
Definition delete (w : World) (u : UserModel.t) (id : ObjectId) : Response * World :=
  match questions w !! id with
  | None => (respond 404 "Question not found", w)
  | Some question =>
      let isAuthor := String.eqb (author question) (UserModel._id u) in
      match ClassModel.findById (classes w) (classId question) with
      | None => (respond 500 "Server error deleting question", w)
      | Some classDoc =>
          let isTeacher := Auth.isTeacher classDoc (UserModel._id u) in
          if negb isAuthor && negb isTeacher
          then (respond 403 "Not authorized to delete this question", w)
          else
            (respond 200 "Question deleted successfully",
             with_questions w (<[id := set_isActive question false]> (questions w)))
      end
  end.

End QuestionRoutes.

(** ** routes/answers.js *)

Module AnswerRoutes.

Import AnswerModel.

(** The class document behind an answer: [Question.findById(answer.questionId)]
    then [Class.findById(question.classId)]. A missing question or class makes
    the handler throw, which its [catch] turns into a 500. *)
Definition classOf (w : World) (answer : AnswerModel.t)
    : option (QuestionModel.t * ClassModel.t) :=
  match questions w !! questionId answer with
  | None => None
  | Some question =>
      match ClassModel.findById (classes w) (QuestionModel.classId question) with
      | None => None
      | Some classDoc => Some (question, classDoc)
      end
  end.

(** [POST /api/answers/question/:questionId] *)
Definition create (w : World) (u : UserModel.t) (questionId : ObjectId)
    (text : string) (newId : ObjectId) : Response * World :=
  if negb (Validate.isLength 5 2000 (JS.trim text))
  then (respond 400 "Validation failed", w)
  else
    match questions w !! questionId with
    | None => (respond 404 "Question not found", w)
    | Some question =>
        match ClassModel.findById (classes w) (QuestionModel.classId question) with
        | None => (respond 500 "Server error creating answer", w)
        | Some classDoc =>
            if negb (Auth.isMember classDoc (UserModel._id u))
            then (respond 403 "Access denied", w)
            else
              let answer := AnswerModel.new (JS.trim text) questionId (UserModel._id u) in
              match answers w !! newId with
              | Some _ => (respond 500 "Server error creating answer", w)
              | None =>
                  let question :=
                    QuestionModel.set_answers question
                      (QuestionModel.answers question ++ [newId])%list in
                  (respond 201 "Answer created successfully",
                   with_questions
                     (with_answers w (<[newId := answer]> (answers w)))
                     (<[questionId := question]> (questions w)))
              end
        end
    end.

(** [PUT /api/answers/:id] *)
Definition update (w : World) (u : UserModel.t) (id : ObjectId) (text : string)
    : Response * World :=
  if negb (Validate.isLength 5 2000 (JS.trim text))
  then (respond 400 "Validation failed", w)
  else
    match answers w !! id with
    | None => (respond 404 "Answer not found", w)
    | Some answer =>
        let isAuthor := String.eqb (author answer) (UserModel._id u) in
        match classOf w answer with
        | None => (respond 500 "Server error updating answer", w)
        | Some (_, classDoc) =>
            let isTeacher := Auth.isTeacher classDoc (UserModel._id u) in
            if negb isAuthor && negb isTeacher
            then (respond 403 "Not authorized to edit this answer", w)
            else
              (respond 200 "Answer updated successfully",
               with_answers w (<[id := set_text answer (JS.trim text)]> (answers w)))
        end
    end.

(** [POST /api/answers/:id/vote] *)
Definition vote (w : World) (u : UserModel.t) (id : ObjectId) (type : string)
    : Response * World :=
  if negb (Votes.validType type)
  then (respond 400 "Validation failed", w)
  else
    match answers w !! id with
    | None => (respond 404 "Answer not found", w)
    | Some answer =>
        match classOf w answer with
        | None => (respond 500 "Server error voting on answer", w)
        | Some (_, classDoc) =>
            if negb (Auth.isMember classDoc (UserModel._id u))
            then (respond 403 "Access denied", w)
            else
              let userId := UserModel._id u in
              let answer :=
                set_votes answer
                  (Votes.applyVote (upvotes answer) (downvotes answer) userId type) in
              (respond 200 "Vote updated successfully",
               with_answers w (<[id := answer]> (answers w)))
        end
    end.

(** [Answer.updateMany({ questionId }, { isAccepted: false })] *)
Definition unacceptAll (qid : ObjectId) (store : gmap ObjectId AnswerModel.t)
    : gmap ObjectId AnswerModel.t :=
  (fun a => if String.eqb (questionId a) qid then set_isAccepted a false else a)
    <$> store.

(** [POST /api/answers/:id/accept] *)
Definition accept (w : World) (u : UserModel.t) (id : ObjectId) : Response * World :=
  match answers w !! id with
  | None => (respond 404 "Answer not found", w)
  | Some answer =>
      match questions w !! questionId answer with
      | None => (respond 404 "Question not found", w)
      | Some question =>
          let isQuestionAuthor :=
            String.eqb (QuestionModel.author question) (UserModel._id u) in
          match ClassModel.findById (classes w) (QuestionModel.classId question) with
          | None => (respond 500 "Server error accepting answer", w)
          | Some classDoc =>
              let isTeacher := Auth.isTeacher classDoc (UserModel._id u) in
              if negb isQuestionAuthor && negb isTeacher
              then (respond 403 "Not authorized to accept this answer", w)
              else
                let store := unacceptAll (questionId answer) (answers w) in
                let answer := set_isAccepted answer true in
                let store := <[id := answer]> store in
                let question := QuestionModel.set_isResolved question true in
                (respond 200 "Answer accepted successfully",
                 with_questions (with_answers w store)
                   (<[questionId answer := question]> (questions w)))
          end
      end
  end.

(** [{ $pull: { answers: id } }] on a stored question, when there is one. *)
Definition pullAnswer (id : ObjectId) (q : QuestionModel.t) : QuestionModel.t :=
  QuestionModel.set_answers q
    (List.filter (fun a => negb (String.eqb a id)) (QuestionModel.answers q)).

(** [DELETE /api/answers/:id]: a soft delete. *)
Definition delete (w : World) (u : UserModel.t) (id : ObjectId) : Response * World :=
  match answers w !! id with
  | None => (respond 404 "Answer not found", w)
  | Some answer =>
      let isAuthor := String.eqb (author answer) (UserModel._id u) in
      match classOf w answer with
      | None => (respond 500 "Server error deleting answer", w)
      | Some (_, classDoc) =>
          let isTeacher := Auth.isTeacher classDoc (UserModel._id u) in
          if negb isAuthor && negb isTeacher
          then (respond 403 "Not authorized to delete this answer", w)
          else
            let answer := set_isActive answer false in
            (respond 200 "Answer deleted successfully",
             with_questions
               (with_answers w (<[id := answer]> (answers w)))
               (alter (pullAnswer id) (questionId answer) (questions w)))
      end
  end.

End AnswerRoutes.

(** ** The server as a state machine *)

Inductive Request :=
  | ClassCreate (u : UserModel.t) (name : string) (description : option string)
                (newId : ObjectId)
  | ClassJoin (u : UserModel.t) (classCode : string)
  | ClassUpdate (u : UserModel.t) (id : ObjectId) (name description : option string)
                (settings : option ClassRoutes.SettingsPatch)
  | ClassRemoveMember (u : UserModel.t) (id : ObjectId) (userId : string)
  | ClassDelete (u : UserModel.t) (id : ObjectId)
  | QuestionCreate (u : UserModel.t) (classId : ObjectId) (title description : string)
                   (tags : option QuestionRoutes.TagsInput) (newId : ObjectId)
  | QuestionGet (u : UserModel.t) (id : ObjectId)
  | QuestionUpdate (u : UserModel.t) (id : ObjectId) (title description : option string)
                   (tags : option QuestionRoutes.TagsInput)
  | QuestionVote (u : UserModel.t) (id : ObjectId) (type : string)
  | QuestionDelete (u : UserModel.t) (id : ObjectId)
  | AnswerCreate (u : UserModel.t) (questionId : ObjectId) (text : string)
                 (newId : ObjectId)
  | AnswerUpdate (u : UserModel.t) (id : ObjectId) (text : string)
  | AnswerVote (u : UserModel.t) (id : ObjectId) (type : string)
  | AnswerAccept (u : UserModel.t) (id : ObjectId)
  | AnswerDelete (u : UserModel.t) (id : ObjectId).

(** One request against the store; [None] when the handler does not return. *)
Definition handle (rnd : nat -> Q) (w : World) (req : Request)
    : option (Response * World) :=
  match req with
  | ClassCreate u n d i => ClassRoutes.create rnd w u n d i
  | ClassJoin u c => Some (ClassRoutes.join w u c)
  | ClassUpdate u i n d s => Some (ClassRoutes.update w u i n d s)
  | ClassRemoveMember u i x => Some (ClassRoutes.removeMember w u i x)
  | ClassDelete u i => Some (ClassRoutes.delete w u i)
  | QuestionCreate u c t d g i => Some (QuestionRoutes.create w u c t d g i)
  | QuestionGet u i => Some (QuestionRoutes.get w u i)
  | QuestionUpdate u i t d g => Some (QuestionRoutes.update w u i t d g)
  | QuestionVote u i t => Some (QuestionRoutes.vote w u i t)
  | QuestionDelete u i => Some (QuestionRoutes.delete w u i)
  | AnswerCreate u q t i => Some (AnswerRoutes.create w u q t i)
  | AnswerUpdate u i t => Some (AnswerRoutes.update w u i t)
  | AnswerVote u i t => Some (AnswerRoutes.vote w u i t)
  | AnswerAccept u i => Some (AnswerRoutes.accept w u i)
  | AnswerDelete u i => Some (AnswerRoutes.delete w u i)
  end.

(** The states the server reaches from the empty store. *)
Inductive reachable (rnd : nat -> Q) : World -> Prop :=
  | reachable_empty : reachable rnd emptyWorld
  | reachable_step w req r w' :
      reachable rnd w -> handle rnd w req = Some (r, w') -> reachable rnd w'.

(** A run of requests, each on the state the previous one left. *)
Fixpoint run (rnd : nat -> Q) (w : World) (reqs : list Request) : option World :=
  match reqs with
  | [] => Some w
  | req :: reqs' =>
      match handle rnd w req with
      | None => None
      | Some (_, w') => run rnd w' reqs'
      end
  end.

(** ** Read-only routes *)

Module ReadRoutes.

(** [GET /api/classes/:id]: behind [requireClassMember], the stored class. *)
Definition getClass (w : World) (u : UserModel.t) (id : ObjectId)
    : Response * option ClassModel.t :=
  match Auth.requireClassMember (classes w) u id with
  | inl r => (r, None)
  | inr _ => (respond 200 "", ClassModel.findById (classes w) id)
  end.

(** [GET /api/questions/user/stats]:
    [Question.countDocuments({ author, isActive: true })] *)
Definition questionStats (w : World) (u : UserModel.t) : nat :=
  size (filter (fun p => QuestionModel.author p.2 = UserModel._id u
                         ∧ QuestionModel.isActive p.2 = true)
               (questions w)).

(** [GET /api/answers/user/stats]:
    [Answer.countDocuments({ author, isActive: true })] *)
Definition answerStats (w : World) (u : UserModel.t) : nat :=
  size (filter (fun p => AnswerModel.author p.2 = UserModel._id u
                         ∧ AnswerModel.isActive p.2 = true)
               (answers w)).

End ReadRoutes.

(** ** setup.js *)

Module Setup.

Definition chars : string :=
  "ABCDEFGHIJKLMNOPQRSTUVWXYZabcdefghijklmnopqrstuvwxyz0123456789".



End Setup.

(** ** Vocabulary of the properties *)

Module Spec.

(** The user is in at most one of the two voter arrays. *)
Definition exclusive (userId : ObjectId) (v : list ObjectId * list ObjectId) : Prop :=
  ¬ (userId ∈ v.1 ∧ userId ∈ v.2).

(** How many votes the two arrays hold for the user. *)
Definition votesHeld (userId : ObjectId) (v : list ObjectId * list ObjectId) : nat :=
  length (List.filter (String.eqb userId) v.1)
  + length (List.filter (String.eqb userId) v.2).

(** A sequence of vote calls [(userId, type)] on one pair of voter arrays. *)
Definition applyVotes (calls : list (ObjectId * string))
    (v : list ObjectId * list ObjectId) : list ObjectId * list ObjectId :=
  foldl (fun v call => Votes.applyVote v.1 v.2 call.1 call.2) v calls.




(** The creator is a member with the per-class role teacher. *)
Definition creatorIsTeacher (c : ClassModel.t) : Prop :=
  ∃ m, m ∈ ClassModel.members c
       ∧ ClassModel.user m = ClassModel.createdBy c
       ∧ ClassModel.role m = ClassModel.teacher.

(** The invariant of the class collection; [good] is what is known of a
    generated code. *)
Definition classInv (good : string → bool) (w : World) : Prop :=
  Forall creatorIsTeacher (classes w)
  ∧ NoDup (ClassModel._id <$> classes w)
  ∧ NoDup (ClassModel.classCode <$> classes w)
  ∧ Forall (fun c => ∃ k, ClassModel.classCode c = Some k ∧ good k = true)
           (classes w).

(** What the acceptance flow reads of the answers: question and flag. *)
Definition accepted (w : World) : gmap ObjectId (ObjectId * bool) :=
  (fun a => (AnswerModel.questionId a, AnswerModel.isAccepted a)) <$> answers w.

(** What it reads of the questions: the resolved flag. *)
Definition resolved (w : World) : gmap ObjectId bool :=
  QuestionModel.isResolved <$> questions w.

(** On the answers of one question, [Answer.updateMany] as [accepted] sees it. *)
Definition cleared (qid : ObjectId) (p : ObjectId * bool) : ObjectId * bool :=
  if String.eqb p.1 qid then (p.1, false) else p.

(** An accepted answer belongs to a question that is stored and resolved, and
    a question has at most one accepted answer. *)
Definition answerInv (w : World) : Prop :=
  (∀ id q, accepted w !! id = Some (q, true) → resolved w !! q = Some true)
  ∧ (∀ id id' q, accepted w !! id = Some (q, true) →
                 accepted w !! id' = Some (q, true) → id = id').

(** How one request can change what [accepted] and [resolved] show. *)
Inductive viewStep (w w' : World) : Prop :=
  | view_same :
      accepted w' = accepted w → resolved w' = resolved w → viewStep w w'
  | view_new_question id :
      questions w !! id = None →
      accepted w' = accepted w → resolved w' = <[id := false]> (resolved w) →
      viewStep w w'
  | view_new_answer id q :
      answers w !! id = None →
      accepted w' = <[id := (q, false)]> (accepted w) → resolved w' = resolved w →
      viewStep w w'
  | view_accept id q :
      is_Some (resolved w !! q) →
      accepted w' = <[id := (q, true)]> (cleared q <$> accepted w) →
      resolved w' = <[q := true]> (resolved w) →
      viewStep w w'.

End Spec.

(** ** Further vocabulary: rosters, candidates, threads *)

Module Inv.

(** A class roster as the handlers keep it: the class is active, no user is
    listed twice, and a member with the role teacher is the creator. *)
Definition rosterOk (c : ClassModel.t) : Prop :=
  ClassModel.isActive c = true
  ∧ NoDup (ClassModel.user <$> ClassModel.members c)
  ∧ ∀ m, m ∈ ClassModel.members c →
         ClassModel.role m = ClassModel.teacher →
         ClassModel.user m = ClassModel.createdBy c.

Definition rosterInv (w : World) : Prop := Forall rosterOk (classes w).

(** What identifies a class: its [_id], its code and its creator. *)
Definition identity (c : ClassModel.t) : ObjectId * option string * ObjectId :=
  (ClassModel._id c, ClassModel.classCode c, ClassModel.createdBy c).

(** The [k]-th candidate code of a hook that starts reading at [pos]. *)
Definition candidate (rnd : nat → Q) (pos k : nat) : string :=
  (ClassModel.generateClassCode rnd (pos + 6 * k)).1.

(** The class document that the create handler stores. *)
Definition created (newId : ObjectId) (name : string) (description : option string)
    (creator : ObjectId) (code : string) : ClassModel.t :=
  {| ClassModel._id := newId;
     ClassModel.name := JS.trim name;
     ClassModel.description := JS.trim <$> description;
     ClassModel.classCode := Some code;
     ClassModel.createdBy := creator;
     ClassModel.members :=
       [{| ClassModel.user := creator; ClassModel.role := ClassModel.teacher |}];
     ClassModel.settings := ClassModel.defaultSettings;
     ClassModel.isActive := true |}.

(** The score of a pair of voter arrays. *)
Definition score (v : list ObjectId * list ObjectId) : Z :=
  (Z.of_nat (length v.1) - Z.of_nat (length v.2))%Z.

(** How often a user occurs in a voter array. *)
Definition held (userId : ObjectId) (l : list ObjectId) : Z :=
  Z.of_nat (length (List.filter (String.eqb userId) l)).

(** What a vote of the given type adds to the score. *)
Definition weight (type : string) : Z :=
  if String.eqb type "upvote" then 1%Z
  else if String.eqb type "downvote" then (-1)%Z else 0%Z.

(** What the threads read of the answers: question and active flag. *)
Definition posted (w : World) : gmap ObjectId (ObjectId * bool) :=
  (fun a => (AnswerModel.questionId a, AnswerModel.isActive a)) <$> answers w.

(** What they read of the questions: the list of answer ids. *)
Definition listed (w : World) : gmap ObjectId (list ObjectId) :=
  QuestionModel.answers <$> questions w.

(** Every answer belongs to a stored question, and a question lists, once
    each, exactly the ids of its active answers. *)
Definition threadInv (w : World) : Prop :=
  (∀ (id q : ObjectId) b, posted w !! id = Some (q, b) → is_Some (listed w !! q))
  ∧ (∀ (q : ObjectId) l, listed w !! q = Some l →
       NoDup l ∧ ∀ id : ObjectId, id ∈ l ↔ posted w !! id = Some (q, true)).

(** How one request can change what [posted] and [listed] show. *)
Inductive threadStep (w w' : World) : Prop :=
  | thread_same :
      posted w' = posted w → listed w' = listed w → threadStep w w'
  | thread_new_question (q : ObjectId) :
      questions w !! q = None →
      posted w' = posted w → listed w' = <[q := []]> (listed w) →
      threadStep w w'
  | thread_new_answer (id q : ObjectId) (l : list ObjectId) :
      answers w !! id = None → listed w !! q = Some l →
      posted w' = <[id := (q, true)]> (posted w) →
      listed w' = <[q := l ++ [id]]> (listed w) →
      threadStep w w'
  | thread_delete_answer (id q : ObjectId) (b : bool) :
      posted w !! id = Some (q, b) →
      posted w' = <[id := (q, false)]> (posted w) →
      listed w' = alter (List.filter (fun x => negb (String.eqb x id))) q (listed w) →
      threadStep w w'.

(** What never changes of a question: author, class and pinned flag. *)
Definition questionCore (w : World) : gmap ObjectId (ObjectId * ObjectId * bool) :=
  (fun q => (QuestionModel.author q, QuestionModel.classId q, QuestionModel.isPinned q))
    <$> questions w.

(** What never changes of an answer: its question and its author. *)
Definition answerCore (w : World) : gmap ObjectId (ObjectId * ObjectId) :=
  (fun a => (AnswerModel.questionId a, AnswerModel.author a)) <$> answers w.

(** How one request can change them: not at all, or by one new entry. *)
Definition coreStep (w w' : World) : Prop :=
  (questionCore w' = questionCore w
   ∨ ∃ (id u c : ObjectId),
       questions w !! id = None
       ∧ questionCore w' = <[id := (u, c, false)]> (questionCore w))
  ∧ (answerCore w' = answerCore w
     ∨ ∃ (id q u : ObjectId),
         answers w !! id = None
         ∧ answerCore w' = <[id := (q, u)]> (answerCore w)).


(** What the stats routes count by: the author and the active flag. *)
Definition questionActivity (w : World) : gmap ObjectId (ObjectId * bool) :=
  (fun q => (QuestionModel.author q, QuestionModel.isActive q)) <$> questions w.

Definition answerActivity (w : World) : gmap ObjectId (ObjectId * bool) :=
  (fun a => (AnswerModel.author a, AnswerModel.isActive a)) <$> answers w.


End Inv.
(** ** A sample run, for the examples below *)

Module Sample.

(** A source of samples in [0, 1): 0, 7/36, 14/36, ... *)
Definition rnd (n : nat) : Q := Z.of_nat ((7 * n) mod 36) # 36.

(** A source that always yields 0, so that every candidate is [AAAAAA]. *)
Definition rnd_zero (n : nat) : Q := 0.

Definition ada : UserModel.t := {| UserModel._id := "u-ada"; UserModel.role := "teacher" |}.
Definition bob : UserModel.t := {| UserModel._id := "u-bob"; UserModel.role := "student" |}.
Definition cyd : UserModel.t := {| UserModel._id := "u-cyd"; UserModel.role := "student" |}.

Definition requests : list Request :=
  [ ClassCreate ada "Algebra I" None "c1";
    ClassCreate ada "Geometry" (Some "Plane geometry") "c2";
    ClassJoin bob "ahov29";
    QuestionCreate bob "c1" "What is a group?" "Please state the axioms of a group."
                   None "q1";
    AnswerCreate ada "q1" "A set with an associative operation, a unit and inverses." "a1";
    AnswerCreate bob "q1" "Some people who meet often." "a2";
    QuestionVote ada "q1" "upvote";
    AnswerAccept ada "a2";
    AnswerAccept bob "a1" ].

Definition world : World := default emptyWorld (run rnd emptyWorld requests).

(** The second class of [world], as stored. *)
Definition geometry : ClassModel.t :=
  {| ClassModel._id := "c2"; ClassModel.name := "Geometry";
     ClassModel.description := Some "Plane geometry";
     ClassModel.classCode := Some "GNU18F"; ClassModel.createdBy := "u-ada";
     ClassModel.members :=
       [{| ClassModel.user := "u-ada"; ClassModel.role := ClassModel.teacher |}];
     ClassModel.settings := ClassModel.defaultSettings;
     ClassModel.isActive := true |}.

(** The store after the first class was created with the constant source. *)
Definition world_zero : World :=
  default emptyWorld
    (run rnd_zero emptyWorld [ClassCreate ada "Algebra I" None "c1"]).

End Sample.

(** ** More sample data *)

Module Sample2.

(** The first class of [Sample.world], as stored. *)
Definition algebra : ClassModel.t :=
  {| ClassModel._id := "c1"; ClassModel.name := "Algebra I";
     ClassModel.description := None;
     ClassModel.classCode := Some "AHOV29"; ClassModel.createdBy := "u-ada";
     ClassModel.members :=
       [{| ClassModel.user := "u-ada"; ClassModel.role := ClassModel.teacher |};
        {| ClassModel.user := "u-bob"; ClassModel.role := ClassModel.student |}];
     ClassModel.settings := ClassModel.defaultSettings;
     ClassModel.isActive := true |}.

(** The question of [Sample.world], as stored. *)
Definition question : QuestionModel.t :=
  {| QuestionModel.title := "What is a group?";
     QuestionModel.description := "Please state the axioms of a group.";
     QuestionModel.tags := []; QuestionModel.classId := "c1";
     QuestionModel.author := "u-bob"; QuestionModel.answers := ["a1"; "a2"];
     QuestionModel.upvotes := ["u-ada"]; QuestionModel.downvotes := [];
     QuestionModel.isResolved := true; QuestionModel.isPinned := false;
     QuestionModel.isActive := true; QuestionModel.views := 0 |}.

(** Bob's answer in [Sample.world], as stored. *)
Definition answer2 : AnswerModel.t :=
  {| AnswerModel.text := "Some people who meet often.";
     AnswerModel.questionId := "q1"; AnswerModel.author := "u-bob";
     AnswerModel.upvotes := []; AnswerModel.downvotes := [];
     AnswerModel.isAccepted := false; AnswerModel.isActive := true |}.

(** [Sample.world] after its creator has deleted the first class. *)
Definition orphaned : World :=
  (ClassRoutes.delete Sample.world Sample.ada "c1").2.

(** [Sample.world] after the teacher has removed Bob from the first class. *)
Definition bob_removed : World :=
  (ClassRoutes.removeMember Sample.world Sample.ada "c1" "u-bob").2.

End Sample2.

(** * Properties *)

(** ** Strings *)








Lemma eqb_eq_iff (a b : string) : String.eqb a b = true ↔ a = b.
Proof. apply String.eqb_eq. Qed.

(** ** Access predicates *)

Lemma isMember_spec (classDoc : ClassModel.t) (userId : ObjectId) :
  Auth.isMember classDoc userId = true ↔
  ∃ m, m ∈ ClassModel.members classDoc ∧ ClassModel.user m = userId.
Proof.
  unfold Auth.isMember. rewrite existsb_exists. split.
  - intros (m & Hin & He). exists m. split; [by apply list_elem_of_In|].
    by apply String.eqb_eq.
  - intros (m & Hin & He). exists m. split; [by apply list_elem_of_In|].
    by apply String.eqb_eq.
Qed.

Lemma role_eqb_eq (a b : ClassModel.Role) : ClassModel.role_eqb a b = true ↔ a = b.
Proof. destruct a, b; simpl; split; congruence. Qed.

Lemma isTeacher_spec (classDoc : ClassModel.t) (userId : ObjectId) :
  Auth.isTeacher classDoc userId = true ↔
  ∃ m, m ∈ ClassModel.members classDoc ∧ ClassModel.user m = userId
       ∧ ClassModel.role m = ClassModel.teacher.
Proof.
  unfold Auth.isTeacher. rewrite existsb_exists. split.
  - intros (m & Hin & He). apply andb_true_iff in He as [He Hr].
    exists m. split; [by apply list_elem_of_In|].
    split; [by apply String.eqb_eq | by apply role_eqb_eq].
  - intros (m & Hin & He & Hr). exists m. split; [by apply list_elem_of_In|].
    apply andb_true_iff. split; [by apply String.eqb_eq | by apply role_eqb_eq].
Qed.

(** C6. [isMember] is true exactly when the user id occurs in the class's
    member list, and [isTeacher] exactly when it occurs there with the
    per-class role teacher; the two middlewares let a request through exactly
    when the class exists and the predicate holds. *)
Theorem access_predicates_characterised :
  ∀ (store : list ClassModel.t) (classDoc : ClassModel.t) (u : UserModel.t)
    (id userId : ObjectId),
    (Auth.isMember classDoc userId = true ↔
       ∃ m, m ∈ ClassModel.members classDoc ∧ ClassModel.user m = userId)
    ∧ (Auth.isTeacher classDoc userId = true ↔
       ∃ m, m ∈ ClassModel.members classDoc ∧ ClassModel.user m = userId
            ∧ ClassModel.role m = ClassModel.teacher)
    ∧ (Auth.requireClassMember store u id = inr classDoc ↔
       ClassModel.findById store id = Some classDoc
       ∧ Auth.isMember classDoc (UserModel._id u) = true)
    ∧ (Auth.requireClassTeacher store u id = inr classDoc ↔
       ClassModel.findById store id = Some classDoc
       ∧ Auth.isTeacher classDoc (UserModel._id u) = true).
Proof.
  intros store classDoc u id userId.
  split; [apply isMember_spec|]. split; [apply isTeacher_spec|]. split.
  - unfold Auth.requireClassMember.
    destruct (ClassModel.findById store id) as [c|]; [|split; [discriminate | intros [? _]; discriminate]].
    destruct (Auth.isMember c (UserModel._id u)) eqn:Hm; simpl; split.
    + intros [= ->]. by split.
    + intros [[= ->] _]. reflexivity.
    + discriminate.
    + intros [[= ->] H]. congruence.
  - unfold Auth.requireClassTeacher.
    destruct (ClassModel.findById store id) as [c|]; [|split; [discriminate | intros [? _]; discriminate]].
    destruct (Auth.isTeacher c (UserModel._id u)) eqn:Hm; simpl; split.
    + intros [= ->]. by split.
    + intros [[= ->] _]. reflexivity.
    + discriminate.
    + intros [[= ->] H]. congruence.
Qed.

(** ** The vote ledger *)

Section VoteLedger.

Implicit Types (l ups downs : list ObjectId) (userId : ObjectId).

Lemma elem_of_without userId x l :
  x ∈ Votes.without userId l ↔ x ∈ l ∧ x ≠ userId.
Proof.
  unfold Votes.without. rewrite list_elem_of_In, filter_In, <- list_elem_of_In.
  rewrite negb_true_iff, String.eqb_neq. reflexivity.
Qed.

Lemma not_elem_of_without userId l : userId ∉ Votes.without userId l.
Proof. rewrite elem_of_without. tauto. Qed.

Lemma without_fixed userId l : userId ∉ l → Votes.without userId l = l.
Proof.
  unfold Votes.without. induction l as [|x l IH]; intros Hn; simpl; [reflexivity|].
  apply not_elem_of_cons in Hn as [Hx Hl].
  destruct (String.eqb_spec x userId) as [->|_]; [done|]. simpl. by rewrite IH.
Qed.

Lemma without_app userId l1 l2 :
  Votes.without userId (l1 ++ l2) = Votes.without userId l1 ++ Votes.without userId l2.
Proof. unfold Votes.without. apply List.filter_app. Qed.

Lemma without_self userId : Votes.without userId [userId] = [].
Proof. unfold Votes.without. simpl. by rewrite String.eqb_refl. Qed.

Lemma without_idem userId l :
  Votes.without userId (Votes.without userId l) = Votes.without userId l.
Proof. apply without_fixed, not_elem_of_without. Qed.

Lemma without_pushed userId l :
  Votes.without userId (Votes.without userId l ++ [userId]) = Votes.without userId l.
Proof. by rewrite without_app, without_idem, without_self, app_nil_r. Qed.

Lemma held_zero userId l :
  userId ∉ l → length (List.filter (String.eqb userId) l) = 0.
Proof.
  induction l as [|x l IH]; intros Hn; simpl; [reflexivity|].
  apply not_elem_of_cons in Hn as [Hx Hl].
  destruct (String.eqb_spec userId x) as [->|_]; [done|]. by apply IH.
Qed.

Lemma held_pushed userId l :
  userId ∉ l → length (List.filter (String.eqb userId) (l ++ [userId])) = 1.
Proof.
  intros Hn. rewrite List.filter_app, length_app, held_zero by done.
  simpl. by rewrite String.eqb_refl.
Qed.

Lemma applyVote_idem ups downs userId type :
  let v := Votes.applyVote ups downs userId type in
  Votes.applyVote v.1 v.2 userId type = v.
Proof.
  unfold Votes.applyVote.
  destruct (String.eqb type "upvote"); [|destruct (String.eqb type "downvote")]; simpl;
    by rewrite ?without_pushed, ?without_idem.
Qed.

Lemma applyVote_held ups downs userId type :
  (Spec.votesHeld userId (Votes.applyVote ups downs userId type) ≤ 1)%nat.
Proof.
  unfold Spec.votesHeld, Votes.applyVote.
  pose proof (not_elem_of_without userId ups) as Hu.
  pose proof (not_elem_of_without userId downs) as Hd.
  destruct (String.eqb type "upvote"); [|destruct (String.eqb type "downvote")]; simpl;
    rewrite ?held_pushed, ?held_zero by done; lia.
Qed.

Lemma applyVote_exclusive ups downs userId type :
  Spec.exclusive userId (Votes.applyVote ups downs userId type).
Proof.
  unfold Spec.exclusive, Votes.applyVote.
  pose proof (not_elem_of_without userId ups) as Hu.
  pose proof (not_elem_of_without userId downs) as Hd.
  destruct (String.eqb type "upvote"); [|destruct (String.eqb type "downvote")]; simpl;
    tauto.
Qed.

(** A vote by anyone keeps a voter in at most one array once that holds. *)
Lemma applyVote_keeps_exclusive ups downs userId other type :
  Spec.exclusive userId (ups, downs) →
  Spec.exclusive userId (Votes.applyVote ups downs other type).
Proof.
  intros Hex. destruct (decide (other = userId)) as [->|Hne].
  { apply applyVote_exclusive. }
  unfold Spec.exclusive, Votes.applyVote in *. simpl in *.
  destruct (String.eqb type "upvote"); [|destruct (String.eqb type "downvote")]; simpl;
    rewrite ?elem_of_app, ?elem_of_without, ?list_elem_of_singleton;
    intuition congruence.
Qed.

Lemma applyVotes_keeps_exclusive calls userId v :
  Spec.exclusive userId v → Spec.exclusive userId (Spec.applyVotes calls v).
Proof.
  revert v. induction calls as [|[other type] calls IH]; intros [ups downs] Hex; [done|].
  apply IH. simpl. by apply applyVote_keeps_exclusive.
Qed.

Lemma applyVotes_app calls1 calls2 v :
  Spec.applyVotes (calls1 ++ calls2) v = Spec.applyVotes calls2 (Spec.applyVotes calls1 v).
Proof. apply foldl_app. Qed.

End VoteLedger.

(** C3. After a vote by a user, on a question or on an answer and from any
    state of the two voter arrays, the user is in at most one of them (and
    holds at most one vote in all); this stays so after any further votes,
    by that user or by others. A vote request that is not answered with 200
    leaves the store as it was. *)
Theorem vote_exclusive :
  ∀ (w : World) (u : UserModel.t) (id : ObjectId) (type : string)
    (ups downs : list ObjectId) (before after : list (ObjectId * string)),
    let userId := UserModel._id u in
    Spec.exclusive userId (Votes.applyVote ups downs userId type)
    ∧ (Spec.votesHeld userId (Votes.applyVote ups downs userId type) ≤ 1)%nat
    ∧ Spec.exclusive userId
        (Spec.applyVotes (before ++ (userId, type) :: after) (ups, downs))
    ∧ (let out := QuestionRoutes.vote w u id type in
       (status out.1 ≠ 200 ∧ out.2 = w)
       ∨ (status out.1 = 200 ∧
          ∃ q, questions out.2 !! id = Some q
               ∧ Spec.exclusive userId
                   (QuestionModel.upvotes q, QuestionModel.downvotes q)))
    ∧ (let out := AnswerRoutes.vote w u id type in
       (status out.1 ≠ 200 ∧ out.2 = w)
       ∨ (status out.1 = 200 ∧
          ∃ a, answers out.2 !! id = Some a
               ∧ Spec.exclusive userId
                   (AnswerModel.upvotes a, AnswerModel.downvotes a))).
Proof.
  intros w u id type ups downs before after userId.
  split; [apply applyVote_exclusive|].
  split; [apply applyVote_held|].
  split.
  { rewrite applyVotes_app. simpl. apply applyVotes_keeps_exclusive.
    apply applyVote_exclusive. }
  split.
  - unfold QuestionRoutes.vote.
    destruct (Votes.validType type); simpl; [|left; by split].
    destruct (questions w !! id) as [q|]; [|left; by split].
    destruct (ClassModel.findById _ _) as [c|]; [|left; by split].
    destruct (Auth.isMember c _); simpl; [|left; by split].
    right. split; [done|]. eexists. split; [apply lookup_insert_eq|].
    simpl. destruct (Votes.applyVote _ _ _ _) as [x y] eqn:E.
    rewrite <- E. apply applyVote_exclusive.
  - unfold AnswerRoutes.vote.
    destruct (Votes.validType type); simpl; [|left; by split].
    destruct (answers w !! id) as [a|]; [|left; by split].
    destruct (AnswerRoutes.classOf w a) as [[q c]|]; [|left; by split].
    destruct (Auth.isMember c _); simpl; [|left; by split].
    right. split; [done|]. eexists. split; [apply lookup_insert_eq|].
    simpl. destruct (Votes.applyVote _ _ _ _) as [x y] eqn:E.
    rewrite <- E. apply applyVote_exclusive.
Qed.

Lemma question_set_votes_idem (q : QuestionModel.t) (userId : ObjectId) (type : string) :
  let q' := QuestionModel.set_votes q
              (Votes.applyVote (QuestionModel.upvotes q) (QuestionModel.downvotes q)
                               userId type) in
  QuestionModel.set_votes q'
    (Votes.applyVote (QuestionModel.upvotes q') (QuestionModel.downvotes q') userId type)
  = q'.
Proof.
  simpl. unfold QuestionModel.set_votes at 1. simpl.
  by rewrite applyVote_idem.
Qed.

Lemma answer_set_votes_idem (a : AnswerModel.t) (userId : ObjectId) (type : string) :
  let a' := AnswerModel.set_votes a
              (Votes.applyVote (AnswerModel.upvotes a) (AnswerModel.downvotes a)
                               userId type) in
  AnswerModel.set_votes a'
    (Votes.applyVote (AnswerModel.upvotes a') (AnswerModel.downvotes a') userId type)
  = a'.
Proof.
  simpl. unfold AnswerModel.set_votes at 1. simpl.
  by rewrite applyVote_idem.
Qed.

(** C4. Casting the same vote twice in a row gives what casting it once
    gives: on the two voter arrays, and for the question and answer handlers
    on the response and the whole store. *)
Theorem vote_idempotent :
  ∀ (w : World) (u : UserModel.t) (id : ObjectId) (type : string)
    (ups downs : list ObjectId),
    (let v := Votes.applyVote ups downs (UserModel._id u) type in
     Votes.applyVote v.1 v.2 (UserModel._id u) type = v)
    ∧ QuestionRoutes.vote (QuestionRoutes.vote w u id type).2 u id type
      = QuestionRoutes.vote w u id type
    ∧ AnswerRoutes.vote (AnswerRoutes.vote w u id type).2 u id type
      = AnswerRoutes.vote w u id type.
Proof.
  intros w u id type ups downs.
  split; [apply applyVote_idem|]. split.
  - unfold QuestionRoutes.vote at 2 3.
    destruct (Votes.validType type) eqn:Hv; simpl;
      [|unfold QuestionRoutes.vote; simpl; by rewrite Hv].
    destruct (questions w !! id) as [q|] eqn:Hq;
      [|unfold QuestionRoutes.vote; simpl; by rewrite Hv, Hq].
    destruct (ClassModel.findById (classes w) (QuestionModel.classId q)) as [c|] eqn:Hc;
      [|unfold QuestionRoutes.vote; simpl; by rewrite Hv, Hq, Hc].
    destruct (Auth.isMember c (UserModel._id u)) eqn:Hm; simpl;
      [|unfold QuestionRoutes.vote; simpl; by rewrite Hv, Hq, Hc, Hm].
    unfold QuestionRoutes.vote. rewrite Hv. simpl.
    rewrite lookup_insert_eq. simpl. rewrite Hc, Hm. simpl.
    unfold with_questions. simpl. rewrite insert_insert_eq.
    by rewrite (question_set_votes_idem q).
  - unfold AnswerRoutes.vote at 2 3.
    destruct (Votes.validType type) eqn:Hv; simpl;
      [|unfold AnswerRoutes.vote; simpl; by rewrite Hv].
    destruct (answers w !! id) as [a|] eqn:Ha;
      [|unfold AnswerRoutes.vote; simpl; by rewrite Hv, Ha].
    destruct (AnswerRoutes.classOf w a) as [[q c]|] eqn:Hc;
      [|unfold AnswerRoutes.vote; simpl; by rewrite Hv, Ha, Hc].
    destruct (Auth.isMember c (UserModel._id u)) eqn:Hm; simpl;
      [|unfold AnswerRoutes.vote; simpl; by rewrite Hv, Ha, Hc, Hm].
    unfold AnswerRoutes.vote. rewrite Hv. simpl.
    rewrite lookup_insert_eq.
    unfold AnswerRoutes.classOf in *. simpl in *. rewrite Hc, Hm. simpl.
    unfold with_answers. simpl. rewrite insert_insert_eq.
    by rewrite (answer_set_votes_idem a).
Qed.

(** ** Accepting an answer *)





(** ** The class-code generator *)










Lemma generateClassCode_next (rnd : nat → Q) (pos : nat) :
  (ClassModel.generateClassCode rnd pos).2 = (6 + pos)%nat.
Proof. reflexivity. Qed.



(** ** Lookups in the class collection *)

Lemma findOne_None (store : list ClassModel.t) (code : string) :
  ClassModel.findOne store code = None ↔
  ∀ c, c ∈ store → ClassModel.classCode c ≠ Some code.
Proof.
  unfold ClassModel.findOne. split.
  - intros Hf c Hin Hc. apply list_elem_of_In in Hin.
    pose proof (find_none _ _ Hf c Hin) as Hn.
    unfold ClassModel.has_code in Hn. rewrite Hc, String.eqb_refl in Hn. discriminate.
  - intros Hall. induction store as [|d store IH]; simpl; [reflexivity|].
    destruct (ClassModel.has_code code d) eqn:Hd.
    + exfalso. apply (Hall d); [left|].
      unfold ClassModel.has_code in Hd.
      destruct (ClassModel.classCode d) as [k|]; [|discriminate].
      apply String.eqb_eq in Hd. by subst.
    + apply IH. intros c Hin. apply Hall. by right.
Qed.

Lemma findOne_Some (store : list ClassModel.t) (code : string) (c : ClassModel.t) :
  ClassModel.findOne store code = Some c →
  c ∈ store ∧ ClassModel.classCode c = Some code.
Proof.
  unfold ClassModel.findOne. intros Hf. apply find_some in Hf as [Hin Hc].
  split; [by apply list_elem_of_In|].
  unfold ClassModel.has_code in Hc.
  destruct (ClassModel.classCode c) as [k|]; [|discriminate].
  apply String.eqb_eq in Hc. by subst.
Qed.

Lemma findById_Some (store : list ClassModel.t) (id : ObjectId) (c : ClassModel.t) :
  ClassModel.findById store id = Some c → c ∈ store ∧ ClassModel._id c = id.
Proof.
  unfold ClassModel.findById. intros Hf. apply find_some in Hf as [Hin Hc].
  split; [by apply list_elem_of_In | by apply String.eqb_eq].
Qed.

Lemma findById_None (store : list ClassModel.t) (id : ObjectId) :
  ClassModel.findById store id = None → id ∉ ClassModel._id <$> store.
Proof.
  unfold ClassModel.findById. intros Hf Hin.
  apply list_elem_of_fmap in Hin as (c & -> & Hin). apply list_elem_of_In in Hin.
  pose proof (find_none _ _ Hf c Hin) as Hn. simpl in Hn.
  rewrite String.eqb_refl in Hn. discriminate.
Qed.

(** ** The retry loop *)

Arguments ClassModel.generateClassCode : simpl never.
Arguments ClassModel.alloc_step : simpl never.

Section Allocator.

Variable rnd : nat → Q.
Variable store : list ClassModel.t.

Import ClassModel.

Lemma alloc_loop_done (fuel : nat) (st : Alloc) :
  isUnique st = true → alloc_loop fuel rnd store st = Some st.
Proof. intros Hu. destruct fuel; simpl; by rewrite Hu. Qed.

Lemma alloc_loop_O (st : Alloc) :
  alloc_loop 0 rnd store st
  = if negb (isUnique st) && (attempts st <? maxAttempts)%nat then None else Some st.
Proof. reflexivity. Qed.

Lemma alloc_loop_S (fuel : nat) (st : Alloc) :
  alloc_loop (S fuel) rnd store st
  = if negb (isUnique st) && (attempts st <? maxAttempts)%nat
    then alloc_loop fuel rnd store (alloc_step rnd store st) else Some st.
Proof. reflexivity. Qed.

Lemma alloc_step_fields (st : Alloc) :
  let code := (generateClassCode rnd (next st)).1 in
  candidate (alloc_step rnd store st) = Some code
  ∧ attempts (alloc_step rnd store st) = S (attempts st)
  ∧ next (alloc_step rnd store st) = (6 + next st)%nat
  ∧ isUnique (alloc_step rnd store st)
    = match findOne store code with None => true | Some _ => isUnique st end.
Proof. by repeat split. Qed.

(** The loop from a state with [isUnique = false]: it stops within the
    attempts that are left, either on the first candidate that no stored
    class holds, or with the budget used up and every candidate taken. *)
Lemma alloc_loop_spec (fuel : nat) (st : Alloc) :
  isUnique st = false →
  (attempts st ≤ maxAttempts)%nat →
  (maxAttempts - attempts st ≤ fuel)%nat →
  ∃ st',
    alloc_loop fuel rnd store st = Some st'
    ∧ (attempts st ≤ attempts st' ≤ maxAttempts)%nat
    ∧ next st' = (next st + 6 * (attempts st' - attempts st))%nat
    ∧ (isUnique st' = true →
       (attempts st < attempts st')%nat
       ∧ ∃ code, candidate st' = Some code
                 ∧ code = (generateClassCode rnd (next st' - 6)).1
                 ∧ findOne store code = None)
    ∧ (isUnique st' = false →
       attempts st' = maxAttempts
       ∧ ∀ k, (k < maxAttempts - attempts st)%nat →
              findOne store (generateClassCode rnd (next st + 6 * k)).1 ≠ None).
Proof.
  revert st. induction fuel as [|fuel IH]; intros st Hu Hle Hfuel.
  - exists st. rewrite alloc_loop_O, Hu. cbn [negb andb].
    destruct (Nat.ltb_spec (attempts st) maxAttempts) as [Hlt|Hge]; [lia|].
    split; [done|]. split; [lia|]. split; [lia|].
    split; [congruence|]. intros _. split; [lia|]. intros k Hk. lia.
  - rewrite alloc_loop_S, Hu. cbn [negb andb].
    destruct (Nat.ltb_spec (attempts st) maxAttempts) as [Hlt|Hge].
    + destruct (alloc_step_fields st) as (Hcand & Hatt & Hnext & Huniq).
      destruct (findOne store (generateClassCode rnd (next st)).1) as [c|] eqn:Hfind.
      * rewrite Hu in Huniq.
        destruct (IH (alloc_step rnd store st) Huniq) as (st' & Hrun & Hb & Hn & Hyes & Hno);
          [lia | lia |].
        exists st'. split; [exact Hrun|]. split; [lia|]. split; [lia|].
        split.
        { intros Hst'. destruct (Hyes Hst') as (Hlt' & code & ? & ? & ?).
          split; [lia|]. by exists code. }
        intros Hst'. destruct (Hno Hst') as (Hmax & Hall). split; [exact Hmax|].
        intros k Hk. destruct k as [|k].
        { replace (next st + 6 * 0)%nat with (next st) by lia.
          rewrite Hfind. discriminate. }
        replace (next st + 6 * S k)%nat
          with (next (alloc_step rnd store st) + 6 * k)%nat by lia.
        apply Hall. lia.
      * exists (alloc_step rnd store st).
        split; [by apply alloc_loop_done|]. split; [lia|]. split; [lia|].
        split.
        { intros _. split; [lia|]. eexists. split; [exact Hcand|].
          rewrite Hnext. replace (6 + next st - 6)%nat with (next st) by lia.
          by split. }
        congruence.
    + exists st. split; [done|]. split; [lia|]. split; [lia|].
      split; [congruence|]. intros _. split; [lia|]. intros k Hk. lia.
Qed.

Lemma alloc_loop_more_fuel (fuel extra : nat) (st st' : Alloc) :
  alloc_loop fuel rnd store st = Some st' →
  alloc_loop (fuel + extra) rnd store st = Some st'.
Proof.
  revert st. induction fuel as [|fuel IH]; intros st; simpl.
  - destruct (negb (isUnique st) && (attempts st <? maxAttempts)%nat) eqn:Hg;
      [discriminate|].
    intros <-. destruct extra; simpl; by rewrite Hg.
  - destruct (negb (isUnique st) && (attempts st <? maxAttempts)%nat); [apply IH | done].
Qed.

(** From the start of the hook the loop ends within [maxAttempts] passes. *)
Lemma alloc_loop_init (pos : nat) :
  ∃ st,
    alloc_loop maxAttempts rnd store (alloc_init pos) = Some st
    ∧ (attempts st ≤ maxAttempts)%nat
    ∧ next st = (pos + 6 * attempts st)%nat
    ∧ (isUnique st = true →
       ∃ code, candidate st = Some code
               ∧ code = (generateClassCode rnd (next st - 6)).1
               ∧ findOne store code = None)
    ∧ (isUnique st = false →
       attempts st = maxAttempts
       ∧ ∀ k, (k < maxAttempts)%nat →
              findOne store (generateClassCode rnd (pos + 6 * k)).1 ≠ None).
Proof.
  destruct (alloc_loop_spec maxAttempts (alloc_init pos))
    as (st & Hrun & Hb & Hn & Hyes & Hno);
    [done | unfold maxAttempts; simpl; lia | unfold maxAttempts; simpl; lia |].
  cbn [attempts next alloc_init] in *.
  exists st. split; [exact Hrun|]. split; [lia|].
  split; [rewrite Hn; f_equal; f_equal; lia|]. split.
  - intros Hu. destruct (Hyes Hu) as (_ & code & ? & ? & ?). by exists code.
  - intros Hu. destruct (Hno Hu) as (Hmax & Hall). split; [exact Hmax|].
    intros k Hk. apply Hall. lia.
Qed.

End Allocator.

(** What the code hook returns. *)
Lemma preSave_classCode_spec (rnd : nat → Q) (store : list ClassModel.t)
    (isNew : bool) (doc : ClassModel.t) (pos : nat) :
  ∃ out pos',
    ClassModel.preSave_classCode ClassModel.maxAttempts rnd store isNew doc pos
      = Some (out, pos')
    ∧ (∀ extra,
         ClassModel.preSave_classCode (ClassModel.maxAttempts + extra) rnd store
           isNew doc pos = Some (out, pos'))
    ∧ (pos ≤ pos' ≤ pos + 6 * ClassModel.maxAttempts)%nat
    ∧ match out with
      | inr doc' =>
          (negb isNew || JS.truthy (ClassModel.classCode doc) = true
           ∧ doc' = doc ∧ pos' = pos)
          ∨ (negb isNew || JS.truthy (ClassModel.classCode doc) = false
             ∧ ∃ code p, doc' = ClassModel.set_classCode doc (Some code)
                         ∧ code = (ClassModel.generateClassCode rnd p).1
                         ∧ ClassModel.findOne store code = None
                         ∧ ∀ c, c ∈ store → ClassModel.classCode c ≠ Some code)
      | inl msg =>
          msg = ClassModel.allocation_error
          ∧ pos' = (pos + 6 * ClassModel.maxAttempts)%nat
          ∧ ∀ k, (k < ClassModel.maxAttempts)%nat →
                 ClassModel.findOne store
                   (ClassModel.generateClassCode rnd (pos + 6 * k)).1 ≠ None
      end.
Proof.
  unfold ClassModel.preSave_classCode.
  destruct (negb isNew || JS.truthy (ClassModel.classCode doc)) eqn:Hskip.
  { exists (inr doc), pos. split; [done|]. split; [done|]. split; [lia|].
    left. by repeat split. }
  destruct (alloc_loop_init rnd store pos) as (st & Hrun & Hb & Hn & Hyes & Hno).
  assert (Hmore : ∀ extra,
            ClassModel.alloc_loop (ClassModel.maxAttempts + extra) rnd store
              (ClassModel.alloc_init pos) = Some st)
    by (intros extra; by apply alloc_loop_more_fuel).
  rewrite Hrun.
  destruct (ClassModel.isUnique st) eqn:Hu; cbn [negb].
  - destruct (Hyes eq_refl) as (code & Hcand & Hgen & Hfree).
    exists (inr (ClassModel.set_classCode doc (ClassModel.candidate st))), (ClassModel.next st).
    split; [done|]. split; [intros extra; by rewrite Hmore, Hu|].
    split; [unfold ClassModel.maxAttempts in *; lia|].
    right. split; [done|]. exists code, (ClassModel.next st - 6)%nat.
    rewrite Hcand. split; [done|]. split; [exact Hgen|].
    split; [exact Hfree | by apply findOne_None].
  - destruct (Hno eq_refl) as (Hmax & Hall).
    exists (inl ClassModel.allocation_error), (ClassModel.next st).
    split; [done|]. split; [intros extra; by rewrite Hmore, Hu|].
    split; [unfold ClassModel.maxAttempts in *; lia|].
    split; [done|]. split; [by rewrite Hn, Hmax | exact Hall].
Qed.



(** ** The class collection under the handlers *)

Section ClassStore.

Import ClassModel.

Implicit Types (store : list ClassModel.t) (c d : ClassModel.t).

Lemma elem_of_save store c d : d ∈ save store c → d = c ∨ d ∈ store.
Proof.
  unfold save. intros Hd. apply list_elem_of_fmap in Hd as (d0 & -> & Hin).
  destruct (String.eqb (_id d0) (_id c)); [by left | by right].
Qed.

Lemma same_id_same_doc store c d :
  NoDup (_id <$> store) → c ∈ store → d ∈ store → _id c = _id d → c = d.
Proof.
  induction store as [|x store IH]; intros Hnd Hc Hd Hid; [by apply elem_of_nil in Hc|].
  rewrite fmap_cons in Hnd. apply NoDup_cons in Hnd as [Hx Hnd].
  apply elem_of_cons in Hc as [->|Hc]; apply elem_of_cons in Hd as [->|Hd].
  - done.
  - exfalso. apply Hx. rewrite Hid. by apply list_elem_of_fmap_2.
  - exfalso. apply Hx. rewrite <- Hid. by apply list_elem_of_fmap_2.
  - by apply IH.
Qed.

(** Saving a loaded document changes nothing that the document kept. *)
Lemma save_fmap_keeps {A} (f : ClassModel.t → A) store c0 c :
  NoDup (_id <$> store) → c0 ∈ store → _id c = _id c0 → f c = f c0 →
  f <$> save store c = f <$> store.
Proof.
  intros Hnd Hin Hid Hf. unfold save. rewrite <- list_fmap_compose.
  apply list_fmap_ext. intros i d Hd. simpl.
  destruct (String.eqb_spec (_id d) (_id c)) as [He|_]; [|done].
  rewrite Hf. f_equal. apply (same_id_same_doc store); [done.. | | congruence].
  by eapply list_elem_of_lookup_2.
Qed.

Lemma save_Forall (P : ClassModel.t → Prop) store c :
  Forall P store → P c → Forall P (save store c).
Proof.
  intros Hall Hc. apply Forall_forall. intros d Hd.
  apply elem_of_save in Hd as [->|Hd]; [done|].
  by eapply (proj1 (Forall_forall _ _)).
Qed.

Lemma remove_fmap_sublist {A} (f : ClassModel.t → A) store id :
  (f <$> remove store id) `sublist_of` (f <$> store).
Proof.
  unfold remove. induction store as [|d store IH]; simpl; [constructor|].
  destruct (negb _); simpl; by constructor.
Qed.

Lemma remove_Forall (P : ClassModel.t → Prop) store id :
  Forall P store → Forall P (remove store id).
Proof.
  unfold remove. induction 1 as [|d store Hd Hall IH]; simpl; [constructor|].
  destruct (negb _); [by constructor | done].
Qed.

End ClassStore.

Lemma creatorIsTeacher_isTeacher (c : ClassModel.t) :
  Spec.creatorIsTeacher c ↔ Auth.isTeacher c (ClassModel.createdBy c) = true.
Proof. unfold Spec.creatorIsTeacher. by rewrite isTeacher_spec. Qed.

Section ClassInvariant.

Variable rnd : nat → Q.
Variable good : string → bool.
Hypothesis generated_good : ∀ pos, good (ClassModel.generateClassCode rnd pos).1 = true.

(** Writing back a document that kept its [_id] and [classCode] and has its
    creator as a teacher. *)
Lemma save_classInv (w : World) (c0 c : ClassModel.t) :
  Spec.classInv good w → c0 ∈ classes w →
  ClassModel._id c = ClassModel._id c0 →
  ClassModel.classCode c = ClassModel.classCode c0 →
  Spec.creatorIsTeacher c →
  Spec.classInv good (with_classes w (ClassModel.save (classes w) c)).
Proof.
  intros (Hcr & Hid & Hcode & Hgood) Hin Hsame Hkeep Hc.
  unfold Spec.classInv. simpl.
  split; [by apply save_Forall|].
  split; [by rewrite (save_fmap_keeps ClassModel._id _ c0)|].
  split; [by rewrite (save_fmap_keeps ClassModel.classCode _ c0)|].
  apply save_Forall; [done|].
  rewrite Hkeep. by apply (proj1 (Forall_forall _ _) Hgood).
Qed.

Lemma join_classInv (w : World) (u : UserModel.t) (code : string) :
  Spec.classInv good w → Spec.classInv good (ClassRoutes.join w u code).2.
Proof.
  intros Hinv. unfold ClassRoutes.join.
  destruct (negb (Validate.isLength 6 6 (JS.trim code))); [done|].
  destruct (ClassModel.findOne _ _) as [c|] eqn:Hfind; [|done].
  destruct (negb (ClassModel.isActive c)); [done|].
  destruct (Auth.isMember c _); [done|]. simpl.
  apply findOne_Some in Hfind as [Hin _].
  apply (save_classInv w c); [done.. |].
  destruct Hinv as (Hcr & _).
  destruct (proj1 (Forall_forall _ _) Hcr c Hin) as (m & Hm & Hu & Hr).
  exists m. simpl. split; [|done]. apply elem_of_app. by left.
Qed.

Lemma update_classInv (w : World) (u : UserModel.t) (id : ObjectId)
    (name description : option string) (settings : option ClassRoutes.SettingsPatch) :
  Spec.classInv good w →
  Spec.classInv good (ClassRoutes.update w u id name description settings).2.
Proof.
  intros Hinv. unfold ClassRoutes.update, Auth.requireClassTeacher.
  destruct (ClassModel.findById _ _) as [c|] eqn:Hfind; [|done].
  destruct (negb (Auth.isTeacher c _)); [done|].
  destruct (negb _); [done|]. simpl.
  apply findById_Some in Hfind as [Hin _].
  destruct Hinv as (Hcr & Hrest).
  pose proof (proj1 (Forall_forall _ _) Hcr c Hin) as Hc.
  apply (save_classInv w c); [by split | done | ..];
    destruct (JS.truthy _), description, settings; done.
Qed.

Lemma removeMember_classInv (w : World) (u : UserModel.t) (id : ObjectId)
    (userId : string) :
  Spec.classInv good w →
  Spec.classInv good (ClassRoutes.removeMember w u id userId).2.
Proof.
  intros Hinv. unfold ClassRoutes.removeMember, Auth.requireClassTeacher.
  destruct (ClassModel.findById _ _) as [c|] eqn:Hfind; [|done].
  destruct (negb (Auth.isTeacher c _)); [done|].
  destruct (String.eqb_spec (ClassModel.createdBy c) userId) as [|Hne]; [done|]. simpl.
  apply findById_Some in Hfind as [Hin _].
  apply (save_classInv w c); [done.. |].
  destruct Hinv as (Hcr & _).
  destruct (proj1 (Forall_forall _ _) Hcr c Hin) as (m & Hm & Hu & Hr).
  exists m. simpl. split; [|done].
  apply list_elem_of_In, filter_In. split; [by apply list_elem_of_In|].
  apply negb_true_iff, String.eqb_neq. congruence.
Qed.

Lemma delete_classInv (w : World) (u : UserModel.t) (id : ObjectId) :
  Spec.classInv good w → Spec.classInv good (ClassRoutes.delete w u id).2.
Proof.
  intros Hinv. unfold ClassRoutes.delete.
  destruct (ClassModel.findById _ _) as [c|]; [|done].
  destruct (negb _); [done|]. simpl.
  destruct Hinv as (Hcr & Hid & Hcode & Hgood).
  split; [by apply remove_Forall|].
  split; [eapply sublist_NoDup; [exact Hid | apply remove_fmap_sublist]|].
  split; [eapply sublist_NoDup; [exact Hcode | apply remove_fmap_sublist]|].
  by apply remove_Forall.
Qed.

(** What a 201 from the create handler means for the store. *)
Lemma create_ok (w w' : World) (u : UserModel.t) (name : string)
    (description : option string) (newId : ObjectId) (r : Response) :
  ClassRoutes.create rnd w u name description newId = Some (r, w') →
  questions w' = questions w ∧ answers w' = answers w
  ∧ ((status r ≠ 201 ∧ classes w' = classes w)
     ∨ (status r = 201
        ∧ ∃ code pos,
            code = (ClassModel.generateClassCode rnd pos).1
            ∧ (∀ c, c ∈ classes w → ClassModel.classCode c ≠ Some code)
            ∧ ClassModel.findById (classes w) newId = None
            ∧ classes w' = classes w ++
                [{| ClassModel._id := newId;
                    ClassModel.name := JS.trim name;
                    ClassModel.description := JS.trim <$> description;
                    ClassModel.classCode := Some code;
                    ClassModel.createdBy := UserModel._id u;
                    ClassModel.members :=
                      [{| ClassModel.user := UserModel._id u;
                          ClassModel.role := ClassModel.teacher |}];
                    ClassModel.settings := ClassModel.defaultSettings;
                    ClassModel.isActive := true |}])).
Proof.
  unfold ClassRoutes.create, Auth.requireRole.
  destruct (existsb _ _).
  2: { intros [= <- <-]. do 2 (split; [done|]). left. by split. }
  destruct (negb _).
  { intros [= <- <-]. do 2 (split; [done|]). left. by split. }
  destruct (preSave_classCode_spec rnd (classes w) true
              (ClassModel.new newId (JS.trim name) (JS.trim <$> description)
                 (UserModel._id u)) (random w))
    as (out & pos' & -> & _ & _ & Hout).
  destruct out as [msg|doc].
  { intros [= <- <-]. do 2 (split; [done|]). left. by split. }
  destruct Hout as [(Hskip & _)|(_ & code & p & -> & Hgen & _ & Hfree)];
    [discriminate|].
  unfold ClassModel.insert. simpl.
  destruct (ClassModel.findById (classes w) newId) eqn:Hid.
  { intros [= <- <-]. do 2 (split; [done|]). left. by split. }
  intros [= <- <-]. do 2 (split; [done|]). right. split; [done|].
  exists code, p. by repeat split.
Qed.

Lemma create_classInv (w w' : World) (u : UserModel.t) (name : string)
    (description : option string) (newId : ObjectId) (r : Response) :
  ClassRoutes.create rnd w u name description newId = Some (r, w') →
  Spec.classInv good w → Spec.classInv good w'.
Proof.
  intros Hc (Hcr & Hid & Hcode & Hgood).
  apply create_ok in Hc as (_ & _ & [(_ & Hsame)|(_ & code & pos & Hgen & Hfree & Hnew & Hw')]).
  { unfold Spec.classInv. by rewrite Hsame. }
  unfold Spec.classInv. rewrite Hw', !fmap_app. simpl.
  split.
  { apply Forall_app. split; [done|]. apply Forall_singleton.
    eexists. split; [by apply list_elem_of_singleton|]. done. }
  split.
  { apply NoDup_app. split; [done|]. split; [|apply NoDup_singleton].
    intros x Hx Hx'. apply list_elem_of_singleton in Hx' as ->.
    by apply (findById_None _ _ Hnew). }
  split.
  { apply NoDup_app. split; [done|]. split; [|apply NoDup_singleton].
    intros x Hx Hx'. apply list_elem_of_singleton in Hx' as ->.
    apply list_elem_of_fmap in Hx as (c & Hc & Hin). by apply (Hfree c). }
  apply Forall_app. split; [done|]. apply Forall_singleton.
  exists code. split; [done|]. rewrite Hgen. apply generated_good.
Qed.

Lemma handle_classInv (w w' : World) (req : Request) (r : Response) :
  handle rnd w req = Some (r, w') → Spec.classInv good w → Spec.classInv good w'.
Proof.
  destruct req; simpl; intros Hh Hinv;
    try (injection Hh as Hh; apply (f_equal snd) in Hh; cbn [snd] in Hh; subst w').
  - by eapply create_classInv.
  - by apply join_classInv.
  - by apply update_classInv.
  - by apply removeMember_classInv.
  - by apply delete_classInv.
  - unfold QuestionRoutes.create. by repeat case_match.
  - unfold QuestionRoutes.get. by repeat case_match.
  - unfold QuestionRoutes.update. by repeat case_match.
  - unfold QuestionRoutes.vote. by repeat case_match.
  - unfold QuestionRoutes.delete. by repeat case_match.
  - unfold AnswerRoutes.create. by repeat case_match.
  - unfold AnswerRoutes.update. by repeat case_match.
  - unfold AnswerRoutes.vote. by repeat case_match.
  - unfold AnswerRoutes.accept. by repeat case_match.
  - unfold AnswerRoutes.delete. by repeat case_match.
Qed.

Lemma reachable_classInv (w : World) : reachable rnd w → Spec.classInv good w.
Proof.
  induction 1 as [|w req r w' _ IH Hh].
  - unfold Spec.classInv. simpl. repeat split; constructor.
  - by eapply handle_classInv.
Qed.

End ClassInvariant.

(** ** Runs *)

Lemma run_reachable (rnd : nat → Q) (reqs : list Request) (w w' : World) :
  reachable rnd w → run rnd w reqs = Some w' → reachable rnd w'.
Proof.
  revert w. induction reqs as [|req reqs IH]; intros w Hw; simpl.
  - by intros [= <-].
  - destruct (handle rnd w req) as [[r w1]|] eqn:Hh; [|discriminate].
    apply IH. by eapply reachable_step.
Qed.


Lemma sample_world_run : run Sample.rnd emptyWorld Sample.requests = Some Sample.world.
Proof. vm_compute. reflexivity. Qed.

Lemma sample_world_reachable : reachable Sample.rnd Sample.world.
Proof.
  apply (run_reachable _ Sample.requests emptyWorld); [constructor|].
  exact sample_world_run.
Qed.






Lemma find_app_None {A} (p : A → bool) (l1 l2 : list A) :
  List.find p l1 = None → List.find p (l1 ++ l2) = List.find p l2.
Proof.
  induction l1 as [|x l1 IH]; simpl; [done|]. destruct (p x); [discriminate | exact IH].
Qed.



(** ** Joining a class *)

Lemma findOne_save (store : list ClassModel.t) (code : string) (c0 c : ClassModel.t) :
  ClassModel.findOne store code = Some c0 →
  ClassModel._id c = ClassModel._id c0 →
  ClassModel.classCode c = ClassModel.classCode c0 →
  ClassModel.findOne (ClassModel.save store c) code = Some c.
Proof.
  intros Hfind Hid Hcode.
  assert (Hc : ClassModel.has_code code c = true).
  { apply findOne_Some in Hfind as [_ Hc0].
    unfold ClassModel.has_code. by rewrite Hcode, Hc0, String.eqb_refl. }
  unfold ClassModel.findOne, ClassModel.save in *.
  induction store as [|d store IH]; simpl in *; [discriminate|].
  destruct (ClassModel.has_code code d) eqn:Hd.
  - injection Hfind as ->. by rewrite Hid, String.eqb_refl, Hc.
  - destruct (String.eqb (ClassModel._id d) (ClassModel._id c)).
    + by rewrite Hc.
    + rewrite Hd. by apply IH.
Qed.

Lemma findById_save (store : list ClassModel.t) (c0 c : ClassModel.t) :
  c0 ∈ store → ClassModel._id c = ClassModel._id c0 →
  ClassModel.findById (ClassModel.save store c) (ClassModel._id c0) = Some c.
Proof.
  intros Hin Hid. unfold ClassModel.findById, ClassModel.save.
  induction store as [|d store IH]; simpl; [by apply elem_of_nil in Hin|].
  destruct (String.eqb_spec (ClassModel._id d) (ClassModel._id c)) as [He|Hne].
  - by rewrite Hid, String.eqb_refl.
  - apply elem_of_cons in Hin as [->|Hin]; [congruence|].
    destruct (String.eqb_spec (ClassModel._id d) (ClassModel._id c0)); [congruence|].
    by apply IH.
Qed.

Lemma isMember_pushed (c : ClassModel.t) (userId : ObjectId) (role : ClassModel.Role) :
  Auth.isMember
    (ClassModel.set_members c
       (ClassModel.members c ++ [{| ClassModel.user := userId; ClassModel.role := role |}]))
    userId = true.
Proof.
  unfold Auth.isMember. simpl. rewrite existsb_app. simpl.
  by rewrite String.eqb_refl, orb_true_r.
Qed.

(** C8. A user who is not yet a member and submits the code of an active
    class is added: the class then has exactly one member more, the new one
    being that user as a student. The same request once more is answered 400,
    already a member, and leaves the store, member list included, as it
    is. *)
Theorem join_adds_one_member_once :
  ∀ (w : World) (u : UserModel.t) (code : string) (c : ClassModel.t),
    ClassModel.findOne (classes w) (JS.toUpperCase (JS.trim code)) = Some c →
    String.length (JS.trim code) = 6%nat →
    ClassModel.isActive c = true →
    Auth.isMember c (UserModel._id u) = false →
    let out := ClassRoutes.join w u code in
    status out.1 = 200
    ∧ (∃ c', ClassModel.findById (classes out.2) (ClassModel._id c) = Some c'
             ∧ ClassModel.members c' =
                 ClassModel.members c ++
                   [{| ClassModel.user := UserModel._id u;
                       ClassModel.role := ClassModel.student |}]
             ∧ length (ClassModel.members c') = S (length (ClassModel.members c)))
    ∧ ClassRoutes.join out.2 u code
      = (respond 400 "You are already a member of this class", out.2).
Proof.
  intros w u code c Hfind Hlen Hact Hnot out.
  set (c' := ClassModel.set_members c
               (ClassModel.members c ++
                  [{| ClassModel.user := UserModel._id u;
                      ClassModel.role := ClassModel.student |}])).
  assert (Hout : out = (respond 200 "Successfully joined class",
                        with_classes w (ClassModel.save (classes w) c'))).
  { unfold out, ClassRoutes.join, Validate.isLength.
    by rewrite Hlen, Hfind, Hact, Hnot. }
  rewrite Hout. cbn [fst snd].
  split; [done|]. split.
  - exists c'. split.
    + apply findById_save; [|done]. by apply findOne_Some in Hfind as [? _].
    + split; [done|]. simpl. rewrite length_app. simpl. lia.
  - unfold ClassRoutes.join, Validate.isLength.
    cbn [classes with_classes]. rewrite Hlen.
    rewrite (findOne_save _ _ c c') by done.
    replace (ClassModel.isActive c') with true by done.
    unfold c'. by rewrite isMember_pushed.
Qed.

Lemma join_adds_one_member_witness :
  let out := ClassRoutes.join Sample.world Sample.cyd " gnu18f " in
  status out.1 = 200
  ∧ ClassRoutes.join out.2 Sample.cyd " gnu18f "
    = (respond 400 "You are already a member of this class", out.2).
Proof.
  pose proof (join_adds_one_member_once Sample.world Sample.cyd " gnu18f "
                Sample.geometry) as H.
  destruct H as (Hok & _ & Hagain);
    [vm_compute; reflexivity | reflexivity | reflexivity | reflexivity |].
  split; [exact Hok | exact Hagain].
Defined.

(** ** Accepted answers and resolved questions under the handlers *)

Lemma fmap_insert_same {A B} (f : A → B) (m : gmap ObjectId A) (i : ObjectId) (x x' : A) :
  m !! i = Some x → f x' = f x → f <$> <[i := x']> m = f <$> m.
Proof.
  intros Hi Hf. rewrite fmap_insert, Hf. apply insert_id.
  by rewrite lookup_fmap, Hi.
Qed.

Lemma fmap_alter_same {A B} (f : A → B) (g : A → A) (m : gmap ObjectId A) (i : ObjectId) :
  (∀ x, f (g x) = f x) → f <$> alter g i m = f <$> m.
Proof.
  intros Hf. apply map_eq. intros j. rewrite !lookup_fmap, lookup_alter.
  case_decide; [subst|done]. destruct (m !! j); simpl; by rewrite ?Hf.
Qed.

Lemma accepted_unacceptAll (q : ObjectId) (m : gmap ObjectId AnswerModel.t) :
  (fun a => (AnswerModel.questionId a, AnswerModel.isAccepted a))
    <$> AnswerRoutes.unacceptAll q m
  = Spec.cleared q
    <$> ((fun a => (AnswerModel.questionId a, AnswerModel.isAccepted a)) <$> m).
Proof.
  unfold AnswerRoutes.unacceptAll. rewrite <- !map_fmap_compose.
  apply map_fmap_ext. intros i a _. unfold Spec.cleared. simpl.
  by destruct (String.eqb (AnswerModel.questionId a) q).
Qed.

Section Views.

Variable rnd : nat → Q.

Ltac same_views :=
  solve [ apply Spec.view_same; unfold Spec.accepted, Spec.resolved; simpl;
          first [ reflexivity | by eapply fmap_insert_same ] ].

Lemma class_handlers_views (w : World) :
  (∀ u c, Spec.viewStep w (ClassRoutes.join w u c).2)
  ∧ (∀ u i n d s, Spec.viewStep w (ClassRoutes.update w u i n d s).2)
  ∧ (∀ u i x, Spec.viewStep w (ClassRoutes.removeMember w u i x).2)
  ∧ (∀ u i, Spec.viewStep w (ClassRoutes.delete w u i).2).
Proof.
  repeat split; intros.
  - unfold ClassRoutes.join. repeat case_match; same_views.
  - unfold ClassRoutes.update. repeat case_match; same_views.
  - unfold ClassRoutes.removeMember. repeat case_match; same_views.
  - unfold ClassRoutes.delete. repeat case_match; same_views.
Qed.

Lemma question_handlers_views (w : World) (u : UserModel.t) (id : ObjectId) :
  (∀ c t d g, Spec.viewStep w (QuestionRoutes.create w u c t d g id).2)
  ∧ Spec.viewStep w (QuestionRoutes.get w u id).2
  ∧ (∀ t d g, Spec.viewStep w (QuestionRoutes.update w u id t d g).2)
  ∧ (∀ t, Spec.viewStep w (QuestionRoutes.vote w u id t).2)
  ∧ Spec.viewStep w (QuestionRoutes.delete w u id).2.
Proof.
  repeat split; intros.
  - unfold QuestionRoutes.create. repeat case_match; try same_views.
    apply (Spec.view_new_question _ _ id); [done | done |].
    unfold Spec.resolved. simpl. by rewrite fmap_insert.
  - unfold QuestionRoutes.get. repeat case_match; same_views.
  - unfold QuestionRoutes.update. repeat case_match; same_views.
  - unfold QuestionRoutes.vote. repeat case_match; same_views.
  - unfold QuestionRoutes.delete. repeat case_match; same_views.
Qed.

Lemma answer_handlers_views (w : World) (u : UserModel.t) (id : ObjectId) :
  (∀ q t, Spec.viewStep w (AnswerRoutes.create w u q t id).2)
  ∧ (∀ t, Spec.viewStep w (AnswerRoutes.update w u id t).2)
  ∧ (∀ t, Spec.viewStep w (AnswerRoutes.vote w u id t).2)
  ∧ Spec.viewStep w (AnswerRoutes.accept w u id).2
  ∧ Spec.viewStep w (AnswerRoutes.delete w u id).2.
Proof.
  repeat split; intros.
  - unfold AnswerRoutes.create. repeat case_match; try same_views.
    apply (Spec.view_new_answer _ _ id q); [done | |].
    + unfold Spec.accepted. simpl. by rewrite fmap_insert.
    + unfold Spec.resolved. simpl. by eapply fmap_insert_same.
  - unfold AnswerRoutes.update. repeat case_match; same_views.
  - unfold AnswerRoutes.vote. repeat case_match; same_views.
  - unfold AnswerRoutes.accept. repeat case_match; try same_views.
    match goal with
    | H : answers w !! id = Some ?a |- _ =>
        apply (Spec.view_accept _ _ id (AnswerModel.questionId a))
    end.
    + unfold Spec.resolved. rewrite lookup_fmap.
      match goal with H : questions w !! _ = Some _ |- _ => by rewrite H end.
    + unfold Spec.accepted. simpl. by rewrite fmap_insert, accepted_unacceptAll.
    + unfold Spec.resolved. simpl. by rewrite fmap_insert.
  - unfold AnswerRoutes.delete. repeat case_match; try same_views.
    apply Spec.view_same; unfold Spec.accepted, Spec.resolved; simpl.
    + by eapply fmap_insert_same.
    + by apply fmap_alter_same.
Qed.

Lemma handle_views (w w' : World) (req : Request) (r : Response) :
  handle rnd w req = Some (r, w') → Spec.viewStep w w'.
Proof.
  destruct req; simpl; intros Hh;
    try (injection Hh as Hh; apply (f_equal snd) in Hh; cbn [snd] in Hh; subst w').
  - apply create_ok in Hh as (Hq & Ha & _).
    apply Spec.view_same; unfold Spec.accepted, Spec.resolved; congruence.
  - apply class_handlers_views.
  - apply class_handlers_views.
  - apply class_handlers_views.
  - apply class_handlers_views.
  - apply question_handlers_views.
  - apply question_handlers_views.
  - apply question_handlers_views.
  - apply question_handlers_views.
  - apply question_handlers_views.
  - apply answer_handlers_views.
  - apply answer_handlers_views.
  - apply answer_handlers_views.
  - apply answer_handlers_views.
  - apply answer_handlers_views.
Qed.

End Views.

Lemma resolved_lookup (w : World) (q : ObjectId) (b : bool) :
  Spec.resolved w !! q = Some b ↔
  ∃ q0, questions w !! q = Some q0 ∧ QuestionModel.isResolved q0 = b.
Proof.
  unfold Spec.resolved. rewrite lookup_fmap, fmap_Some.
  split; intros (q0 & Hq & He); exists q0; by split.
Qed.

Lemma accepted_lookup (w : World) (id q : ObjectId) (b : bool) :
  Spec.accepted w !! id = Some (q, b) ↔
  ∃ a, answers w !! id = Some a
       ∧ AnswerModel.questionId a = q ∧ AnswerModel.isAccepted a = b.
Proof.
  unfold Spec.accepted. rewrite lookup_fmap, fmap_Some. split.
  - intros (a & Ha & [= -> ->]). by exists a.
  - intros (a & Ha & <- & <-). by exists a.
Qed.

Lemma cleared_true (q q' : ObjectId) (p : ObjectId * bool) :
  Spec.cleared q p = (q', true) → p = (q', true) ∧ q' ≠ q.
Proof.
  unfold Spec.cleared. destruct (String.eqb_spec p.1 q) as [He|Hne]; [discriminate|].
  intros ->. by split.
Qed.

Lemma viewStep_resolved (w w' : World) (q : ObjectId) :
  Spec.viewStep w w' →
  Spec.resolved w !! q = Some true → Spec.resolved w' !! q = Some true.
Proof.
  intros [Ha Hr|id Hnew Ha Hr|id q0 Hnew Ha Hr|id q0 Hsome Ha Hr] Hq; rewrite Hr.
  - done.
  - rewrite lookup_insert_ne; [done|]. intros ->.
    apply resolved_lookup in Hq as (? & ? & _). congruence.
  - done.
  - destruct (decide (q0 = q)) as [->|Hne];
      [apply lookup_insert_eq | by rewrite lookup_insert_ne].
Qed.

Lemma viewStep_answerInv (w w' : World) :
  Spec.viewStep w w' → Spec.answerInv w → Spec.answerInv w'.
Proof.
  intros Hstep [Hres Huniq].
  pose proof (fun q => viewStep_resolved w w' q Hstep) as Hmono.
  destruct Hstep as [Ha Hr|id Hnew Ha Hr|id q0 Hnew Ha Hr|id q0 Hsome Ha Hr];
    unfold Spec.answerInv; rewrite Ha.
  - split; [|done]. intros i q Hi. apply Hmono. by eapply Hres.
  - split; [|done]. intros i q Hi. apply Hmono. by eapply Hres.
  - assert (Hold : ∀ i q, <[id := (q0, false)]> (Spec.accepted w) !! i = Some (q, true) →
                          Spec.accepted w !! i = Some (q, true)).
    { intros i q. destruct (decide (id = i)) as [->|Hne].
      - rewrite lookup_insert_eq. discriminate.
      - by rewrite lookup_insert_ne. }
    split.
    + intros i q Hi. apply Hmono. eapply Hres. by apply Hold.
    + intros i i' q Hi Hi'. eapply Huniq; by apply Hold.
  - assert (Hold : ∀ i q, i ≠ id →
              <[id := (q0, true)]> (Spec.cleared q0 <$> Spec.accepted w) !! i
              = Some (q, true) →
              Spec.accepted w !! i = Some (q, true) ∧ q ≠ q0).
    { intros i q Hne. rewrite lookup_insert_ne, lookup_fmap by done.
      destruct (Spec.accepted w !! i) as [p|]; simpl; [|discriminate].
      intros [= Hp]. apply cleared_true in Hp as [-> ?]. by split. }
    split.
    + intros i q Hi. destruct (decide (i = id)) as [->|Hne].
      * rewrite lookup_insert_eq in Hi. injection Hi as <-.
        rewrite Hr. apply lookup_insert_eq.
      * apply Hold in Hi as [Hi _]; [|done]. apply Hmono. by eapply Hres.
    + intros i i' q Hi Hi'.
      destruct (decide (i = id)) as [->|Hne]; destruct (decide (i' = id)) as [->|Hne'].
      * done.
      * rewrite lookup_insert_eq in Hi. injection Hi as <-.
        by apply Hold in Hi' as [_ ?].
      * rewrite lookup_insert_eq in Hi'. injection Hi' as <-.
        by apply Hold in Hi as [_ ?].
      * apply Hold in Hi as [Hi _]; [|done]. apply Hold in Hi' as [Hi' _]; [|done].
        by eapply Huniq.
Qed.

Lemma reachable_answerInv (rnd : nat → Q) (w : World) :
  reachable rnd w → Spec.answerInv w.
Proof.
  induction 1 as [|w req r w' _ IH Hh].
  - split; intros *; unfold Spec.accepted; simpl; by rewrite fmap_empty, lookup_empty.
  - eapply viewStep_answerInv; [by eapply handle_views | exact IH].
Qed.

(** What a 200 from the answer-delete handler means for the store. *)
Lemma delete_answer_ok (w : World) (u : UserModel.t) (id : ObjectId) :
  status (AnswerRoutes.delete w u id).1 = 200 →
  ∃ a, answers w !! id = Some a
       ∧ (AnswerRoutes.delete w u id).2 =
           with_questions
             (with_answers w (<[id := AnswerModel.set_isActive a false]> (answers w)))
             (alter (AnswerRoutes.pullAnswer id) (AnswerModel.questionId a) (questions w)).
Proof.
  unfold AnswerRoutes.delete.
  destruct (answers w !! id) as [a|] eqn:Ha; [|discriminate].
  destruct (AnswerRoutes.classOf w a) as [[q c]|]; [|discriminate].
  destruct (negb _ && negb _); [discriminate|].
  intros _. by exists a.
Qed.

(** C9. Deleting an answer changes the resolved flag of no question, and no
    request turns a resolved question back into an unresolved one. In a store
    the server has reached, when the accepted answer of a question is deleted
    the question stays resolved, the deleted answer is stored inactive and is
    pulled from the question's answer list, and none of the question's other
    answers is accepted. *)
Theorem delete_answer_keeps_resolved :
  ∀ (rnd : nat → Q) (w : World) (u : UserModel.t) (id : ObjectId),
    let out := AnswerRoutes.delete w u id in
    (∀ q, QuestionModel.isResolved <$> questions out.2 !! q
          = QuestionModel.isResolved <$> questions w !! q)
    ∧ (∀ req r w' q q0,
         handle rnd w req = Some (r, w') →
         questions w !! q = Some q0 → QuestionModel.isResolved q0 = true →
         ∃ q1, questions w' !! q = Some q1 ∧ QuestionModel.isResolved q1 = true)
    ∧ (reachable rnd w →
       ∀ a, answers w !! id = Some a → AnswerModel.isAccepted a = true →
            status out.1 = 200 →
            answers out.2 !! id = Some (AnswerModel.set_isActive a false)
            ∧ (∃ q1, questions out.2 !! AnswerModel.questionId a = Some q1
                     ∧ QuestionModel.isResolved q1 = true
                     ∧ id ∉ QuestionModel.answers q1)
            ∧ (∀ id' b, id' ≠ id → answers out.2 !! id' = Some b →
                        AnswerModel.questionId b = AnswerModel.questionId a →
                        AnswerModel.isAccepted b = false)).
Proof.
  intros rnd w u id out.
  assert (Hviews : Spec.viewStep w out.2) by apply answer_handlers_views.
  assert (Hframe : Spec.resolved out.2 = Spec.resolved w).
  { unfold out, AnswerRoutes.delete. repeat case_match; try reflexivity.
    unfold Spec.resolved. simpl. by apply fmap_alter_same. }
  split; [|split].
  - intros q. pose proof (f_equal (fun m => m !! q) Hframe) as Hq.
    unfold Spec.resolved in Hq. simpl in Hq. by rewrite !lookup_fmap in Hq.
  - intros req r w' q q0 Hh Hq Hres.
    apply resolved_lookup. eapply viewStep_resolved; [by eapply handle_views|].
    apply resolved_lookup. by exists q0.
  - intros Hreach a Ha Hacc Hok.
    destruct (reachable_answerInv rnd w Hreach) as [Hres Huniq].
    destruct (delete_answer_ok w u id Hok) as (a' & Ha' & Hout).
    assert (a' = a) as -> by congruence.
    fold out in Hout. rewrite Hout. simpl.
    split; [apply lookup_insert_eq|]. split.
    + assert (Hq : Spec.resolved w !! AnswerModel.questionId a = Some true).
      { apply (Hres id). apply accepted_lookup. by exists a. }
      apply resolved_lookup in Hq as (q0 & Hq0 & Hr0).
      exists (AnswerRoutes.pullAnswer id q0).
      split; [by rewrite lookup_alter_eq, Hq0|]. split; [done|].
      simpl. rewrite list_elem_of_In, filter_In.
      intros [_ Hn]. by rewrite String.eqb_refl in Hn.
    + intros id' b Hne Hb Hsame. rewrite lookup_insert_ne in Hb by done.
      destruct (AnswerModel.isAccepted b) eqn:Hb'; [|done].
      exfalso. apply Hne. apply (Huniq id' id (AnswerModel.questionId a));
        apply accepted_lookup; eauto.
Qed.

Lemma delete_answer_keeps_resolved_witness :
  let out := AnswerRoutes.delete Sample.world Sample.ada "a1" in
  status out.1 = 200
  ∧ ∃ q1, questions out.2 !! "q1" = Some q1
          ∧ QuestionModel.isResolved q1 = true
          ∧ "a1" ∉ QuestionModel.answers q1.
Proof.
  destruct (delete_answer_keeps_resolved Sample.rnd Sample.world Sample.ada "a1")
    as (_ & _ & H).
  destruct (H sample_world_reachable
              {| AnswerModel.text :=
                   "A set with an associative operation, a unit and inverses.";
                 AnswerModel.questionId := "q1"; AnswerModel.author := "u-ada";
                 AnswerModel.upvotes := []; AnswerModel.downvotes := [];
                 AnswerModel.isAccepted := true; AnswerModel.isActive := true |})
    as (_ & Hq & _); [vm_compute; reflexivity | reflexivity | vm_compute; reflexivity |].
  split; [vm_compute; reflexivity | exact Hq].
Defined.

(** ** Case-insensitive join *)






(** ** Worked examples *)

(** Upvote then downvote by the same user: one downvote, score -1. *)
Example upvote_then_downvote :
  let v := Spec.applyVotes [("u-ada", "upvote"); ("u-ada", "downvote")]
                           (["u-bob"], []) in
  v = (["u-bob"], ["u-ada"]).
Proof. reflexivity. Qed.

(** A member's downvote on the sample question is answered 200 and brings
    its score from 1 to 0. *)
Example sample_question_vote :
  let out := QuestionRoutes.vote Sample.world Sample.bob "q1" "downvote" in
  status out.1 = 200%nat
  ∧ (QuestionModel.voteCount <$> questions Sample.world !! "q1") = Some 1%Z
  ∧ (QuestionModel.voteCount <$> questions out.2 !! "q1") = Some 0%Z.
Proof. repeat split; vm_compute; reflexivity. Qed.

(** With every candidate taken, the hook stops after ten attempts and sixty
    samples with the allocation error, and the create handler answers 500. *)
Example allocator_exhausted :
  ClassModel.preSave_classCode ClassModel.maxAttempts Sample.rnd_zero
    (classes Sample.world_zero) true
    (ClassModel.new "c9" "Another" None "u-ada") 6
  = Some (inl ClassModel.allocation_error, 66%nat)
  ∧ (status <$> (fst <$> ClassRoutes.create Sample.rnd_zero Sample.world_zero
                           Sample.ada "Another" None "c9")) = Some 500%nat.
Proof. split; vm_compute; reflexivity. Qed.

(** The loop without the attempt counter never stops when every candidate
    is taken: no amount of fuel yields a state. *)
Lemma alloc_loop_unbounded_stuck (rnd : nat → Q) (store : list ClassModel.t)
    (fuel : nat) (st : ClassModel.Alloc) :
  (∀ pos, ClassModel.findOne store (ClassModel.generateClassCode rnd pos).1 ≠ None) →
  ClassModel.isUnique st = false →
  ClassModel.alloc_loop_unbounded fuel rnd store st = None.
Proof.
  intros Htaken. revert st. induction fuel as [|fuel IH]; intros st Hu; simpl;
    rewrite Hu; simpl; [done|].
  apply IH. destruct (alloc_step_fields rnd store st) as (_ & _ & _ & ->).
  destruct (ClassModel.findOne store _) eqn:Hf; [done|]. by apply Htaken in Hf.
Qed.

Example alloc_loop_unbounded_sample (fuel : nat) :
  ClassModel.alloc_loop_unbounded fuel Sample.rnd_zero (classes Sample.world_zero)
    (ClassModel.alloc_init 6) = None.
Proof. apply alloc_loop_unbounded_stuck; [|done]. intros pos. vm_compute. discriminate. Qed.

(** * Further properties of the handlers *)

(** ** Votes *)

Section MoreVotes.

Implicit Types (l ups downs : list ObjectId) (userId : ObjectId).

Lemma applyVote_last ups downs userId type1 type2 :
  let v := Votes.applyVote ups downs userId type1 in
  Votes.applyVote v.1 v.2 userId type2 = Votes.applyVote ups downs userId type2.
Proof.
  unfold Votes.applyVote.
  destruct (String.eqb type1 "upvote"); [|destruct (String.eqb type1 "downvote")];
    simpl; by rewrite ?without_pushed, ?without_idem.
Qed.

Lemma applyVote_without ups downs userId type :
  let v := Votes.applyVote ups downs userId type in
  Votes.without userId v.1 = Votes.without userId ups
  ∧ Votes.without userId v.2 = Votes.without userId downs.
Proof.
  unfold Votes.applyVote.
  destruct (String.eqb type "upvote"); [|destruct (String.eqb type "downvote")];
    simpl; by rewrite ?without_pushed, ?without_idem.
Qed.

Lemma applyVote_others ups downs userId type x :
  x ≠ userId →
  let v := Votes.applyVote ups downs userId type in
  (x ∈ v.1 ↔ x ∈ ups) ∧ (x ∈ v.2 ↔ x ∈ downs).
Proof.
  intros Hne. unfold Votes.applyVote.
  destruct (String.eqb type "upvote"); [|destruct (String.eqb type "downvote")];
    simpl; rewrite ?elem_of_app, ?elem_of_without, ?list_elem_of_singleton;
    intuition congruence.
Qed.

End MoreVotes.

Lemma length_without (userId : ObjectId) (l : list ObjectId) :
  Z.of_nat (length (Votes.without userId l)) = (Z.of_nat (length l) - Inv.held userId l)%Z.
Proof.
  unfold Votes.without, Inv.held. induction l as [|x l IH]; simpl; [done|].
  rewrite (String.eqb_sym userId x).
  destruct (String.eqb x userId); simpl; lia.
Qed.

(** X1. Last write wins: a vote of a valid type cast right after another vote
    by the same user gives the response and the store that casting only the
    second vote gives, on questions and on answers; on the two voter arrays
    this holds for any two types. *)
Theorem vote_last_write_wins :
  ∀ (w : World) (u : UserModel.t) (id : ObjectId) (type1 type2 : string)
    (ups downs : list ObjectId),
    Votes.validType type2 = true →
    (let v := Votes.applyVote ups downs (UserModel._id u) type1 in
     Votes.applyVote v.1 v.2 (UserModel._id u) type2
     = Votes.applyVote ups downs (UserModel._id u) type2)
    ∧ QuestionRoutes.vote (QuestionRoutes.vote w u id type1).2 u id type2
      = QuestionRoutes.vote w u id type2
    ∧ AnswerRoutes.vote (AnswerRoutes.vote w u id type1).2 u id type2
      = AnswerRoutes.vote w u id type2.
Proof.
  intros w u id type1 type2 ups downs Hv2.
  split; [apply applyVote_last|]. split.
  - unfold QuestionRoutes.vote at 2.
    destruct (Votes.validType type1); simpl; [|done].
    destruct (questions w !! id) as [q|] eqn:Hq; [|done].
    destruct (ClassModel.findById (classes w) (QuestionModel.classId q)) as [c|] eqn:Hc;
      [|done].
    destruct (Auth.isMember c (UserModel._id u)) eqn:Hm; simpl; [|done].
    unfold QuestionRoutes.vote. rewrite Hv2, Hq. simpl.
    rewrite lookup_insert_eq. simpl. rewrite Hc, Hm. simpl.
    unfold with_questions. simpl. rewrite insert_insert_eq.
    unfold QuestionModel.set_votes. simpl.
    by rewrite (applyVote_last (QuestionModel.upvotes q) (QuestionModel.downvotes q)).
  - unfold AnswerRoutes.vote at 2.
    destruct (Votes.validType type1); simpl; [|done].
    destruct (answers w !! id) as [a|] eqn:Ha; [|done].
    destruct (AnswerRoutes.classOf w a) as [[q c]|] eqn:Hc; [|done].
    destruct (Auth.isMember c (UserModel._id u)) eqn:Hm; simpl; [|done].
    unfold AnswerRoutes.vote. rewrite Hv2, Ha. simpl.
    rewrite lookup_insert_eq.
    unfold AnswerRoutes.classOf in *. simpl in *. rewrite Hc, Hm. simpl.
    unfold with_answers. simpl. rewrite insert_insert_eq.
    unfold AnswerModel.set_votes. simpl.
    by rewrite (applyVote_last (AnswerModel.upvotes a) (AnswerModel.downvotes a)).
Qed.

Lemma vote_last_write_wins_witness :
  Votes.validType "downvote" = true
  ∧ QuestionRoutes.vote (QuestionRoutes.vote Sample.world Sample.bob "q1" "upvote").2
      Sample.bob "q1" "downvote"
    = QuestionRoutes.vote Sample.world Sample.bob "q1" "downvote".
Proof.
  split; [reflexivity|].
  apply (vote_last_write_wins Sample.world Sample.bob "q1" "upvote" "downvote" [] []).
  reflexivity.
Defined.

(** X2. A vote on a question that is answered 200 changes nothing but the
    voter's own entries in that question's two voter arrays: with the voter
    filtered out the arrays are as before, every other user is in an array
    exactly when they were, the other fields of the question, the other
    questions, the answers and the classes are untouched. *)
Theorem question_vote_frame :
  ∀ (w : World) (u : UserModel.t) (id : ObjectId) (type : string),
    let out := QuestionRoutes.vote w u id type in
    status out.1 = 200 →
    ∃ q q',
      questions w !! id = Some q ∧ questions out.2 !! id = Some q'
      ∧ Votes.without (UserModel._id u) (QuestionModel.upvotes q')
        = Votes.without (UserModel._id u) (QuestionModel.upvotes q)
      ∧ Votes.without (UserModel._id u) (QuestionModel.downvotes q')
        = Votes.without (UserModel._id u) (QuestionModel.downvotes q)
      ∧ (∀ x, x ≠ UserModel._id u →
              (x ∈ QuestionModel.upvotes q' ↔ x ∈ QuestionModel.upvotes q)
              ∧ (x ∈ QuestionModel.downvotes q' ↔ x ∈ QuestionModel.downvotes q))
      ∧ QuestionModel.set_votes q'
          (QuestionModel.upvotes q, QuestionModel.downvotes q) = q
      ∧ (∀ id', id' ≠ id → questions out.2 !! id' = questions w !! id')
      ∧ answers out.2 = answers w ∧ classes out.2 = classes w.
Proof.
  intros w u id type out. subst out. unfold QuestionRoutes.vote.
  destruct (Votes.validType type); [|discriminate]. cbn [negb].
  destruct (questions w !! id) as [q|] eqn:Hq; [|discriminate].
  destruct (ClassModel.findById _ _) as [c|]; [|discriminate].
  destruct (Auth.isMember c _); [|discriminate]. cbn [negb fst snd]. intros _.
  exists q. eexists. split; [done|]. split; [apply lookup_insert_eq|].
  cbn [QuestionModel.upvotes QuestionModel.downvotes QuestionModel.set_votes].
  split; [apply applyVote_without|]. split; [apply applyVote_without|].
  split; [intros x Hx; by apply applyVote_others|].
  split; [by destruct q|].
  split; [intros id' Hne; simpl; by rewrite lookup_insert_ne|]. by split.
Qed.

Lemma question_vote_frame_witness :
  let out := QuestionRoutes.vote Sample.world Sample.bob "q1" "downvote" in
  status out.1 = 200 ∧ answers out.2 = answers Sample.world.
Proof.
  assert (H : status (QuestionRoutes.vote Sample.world Sample.bob "q1" "downvote").1 = 200)
    by reflexivity.
  split; [exact H|].
  destruct (question_vote_frame Sample.world Sample.bob "q1" "downvote" H)
    as (q & q' & _ & _ & _ & _ & _ & _ & _ & Ha & _).
  exact Ha.
Defined.

(** X3. The score after a vote is the score before, corrected for the votes
    the user held (each earlier upvote entry taken off, each earlier downvote
    entry given back), plus 1 for an upvote, minus 1 for a downvote and
    unchanged for any other type. *)
Theorem vote_score_change :
  ∀ (ups downs : list ObjectId) (userId : ObjectId) (type : string),
    Inv.score (Votes.applyVote ups downs userId type)
    = (Inv.score (ups, downs) - Inv.held userId ups + Inv.held userId downs
       + Inv.weight type)%Z.
Proof.
  intros ups downs userId type.
  pose proof (length_without userId ups) as Hu.
  pose proof (length_without userId downs) as Hd.
  unfold Inv.score, Inv.weight, Votes.applyVote.
  destruct (String.eqb type "upvote"); [|destruct (String.eqb type "downvote")];
    cbn [fst snd]; rewrite ?length_app; cbn [length]; lia.
Qed.

(** ** Rosters *)

Lemma qa_handlers_keep_classes (w : World) (u : UserModel.t) (id : ObjectId) :
  (∀ c t d g, classes (QuestionRoutes.create w u c t d g id).2 = classes w)
  ∧ classes (QuestionRoutes.get w u id).2 = classes w
  ∧ (∀ t d g, classes (QuestionRoutes.update w u id t d g).2 = classes w)
  ∧ (∀ t, classes (QuestionRoutes.vote w u id t).2 = classes w)
  ∧ classes (QuestionRoutes.delete w u id).2 = classes w
  ∧ (∀ q t, classes (AnswerRoutes.create w u q t id).2 = classes w)
  ∧ (∀ t, classes (AnswerRoutes.update w u id t).2 = classes w)
  ∧ (∀ t, classes (AnswerRoutes.vote w u id t).2 = classes w)
  ∧ classes (AnswerRoutes.accept w u id).2 = classes w
  ∧ classes (AnswerRoutes.delete w u id).2 = classes w.
Proof.
  repeat split; intros.
  - unfold QuestionRoutes.create. by repeat case_match.
  - unfold QuestionRoutes.get. by repeat case_match.
  - unfold QuestionRoutes.update. by repeat case_match.
  - unfold QuestionRoutes.vote. by repeat case_match.
  - unfold QuestionRoutes.delete. by repeat case_match.
  - unfold AnswerRoutes.create. by repeat case_match.
  - unfold AnswerRoutes.update. by repeat case_match.
  - unfold AnswerRoutes.vote. by repeat case_match.
  - unfold AnswerRoutes.accept. by repeat case_match.
  - unfold AnswerRoutes.delete. by repeat case_match.
Qed.

(** What a request does to the class collection. *)
Lemma handle_classes (rnd : nat → Q) (w w' : World) (req : Request) (r : Response) :
  handle rnd w req = Some (r, w') →
  classes w' = classes w
  ∨ (∃ u n d i code, req = ClassCreate u n d i
       ∧ ClassModel.findById (classes w) i = None
       ∧ (∀ c, c ∈ classes w → ClassModel.classCode c ≠ Some code)
       ∧ classes w' = classes w ++ [Inv.created i n d (UserModel._id u) code])
  ∨ (∃ u code, req = ClassJoin u code ∧ w' = (ClassRoutes.join w u code).2)
  ∨ (∃ u i n d s, req = ClassUpdate u i n d s
       ∧ w' = (ClassRoutes.update w u i n d s).2)
  ∨ (∃ u i x, req = ClassRemoveMember u i x
       ∧ w' = (ClassRoutes.removeMember w u i x).2)
  ∨ (∃ u i, req = ClassDelete u i ∧ w' = (ClassRoutes.delete w u i).2).
Proof.
  destruct req; simpl; intros Hh;
    try (injection Hh as Hh; apply (f_equal snd) in Hh; cbn [snd] in Hh; subst w').
  - apply create_ok in Hh as (_ & _ & [(_ & Hsame)|(_ & code & pos & _ & Hfree & Hnew & Hw')]);
      [by left|].
    right; left. by exists u, name, description, newId, code.
  - do 2 right; left. by exists u, classCode.
  - do 3 right; left. by exists u, id, name, description, settings.
  - do 4 right; left. by exists u, id, userId.
  - do 5 right. by exists u, id.
  - left. apply qa_handlers_keep_classes.
  - left. apply qa_handlers_keep_classes.
  - left. apply qa_handlers_keep_classes.
  - left. apply qa_handlers_keep_classes.
  - left. apply qa_handlers_keep_classes.
  - left. apply qa_handlers_keep_classes.
  - left. apply qa_handlers_keep_classes.
  - left. apply qa_handlers_keep_classes.
  - left. apply qa_handlers_keep_classes.
  - left. apply qa_handlers_keep_classes.
Qed.

Lemma filter_fmap_sublist {A B} (f : A → B) (p : A → bool) (l : list A) :
  (f <$> List.filter p l) `sublist_of` (f <$> l).
Proof.
  induction l as [|x l IH]; simpl; [constructor|].
  destruct (p x); simpl; by constructor.
Qed.

Lemma bool_filter_sublist {A} (p : A → bool) (l : list A) :
  List.filter p l `sublist_of` l.
Proof.
  induction l as [|x l IH]; simpl; [constructor|]. destruct (p x); by constructor.
Qed.

Lemma elem_of_bool_filter {A} (p : A → bool) (l : list A) (x : A) :
  x ∈ List.filter p l ↔ x ∈ l ∧ p x = true.
Proof. by rewrite list_elem_of_In, filter_In, <- list_elem_of_In. Qed.

Lemma not_member_users (c : ClassModel.t) (userId : ObjectId) :
  Auth.isMember c userId = false ↔ userId ∉ ClassModel.user <$> ClassModel.members c.
Proof.
  rewrite <- not_true_iff_false, isMember_spec, list_elem_of_fmap.
  split; intros Hn (m & ? & ?); apply Hn; exists m; by split.
Qed.

Lemma join_roster (w : World) (u : UserModel.t) (code : string) :
  Inv.rosterInv w → Inv.rosterInv (ClassRoutes.join w u code).2.
Proof.
  intros Hinv. unfold ClassRoutes.join.
  destruct (negb (Validate.isLength 6 6 (JS.trim code))); [done|].
  destruct (ClassModel.findOne _ _) as [c|] eqn:Hfind; [|done].
  destruct (negb (ClassModel.isActive c)); [done|].
  destruct (Auth.isMember c _) eqn:Hm; [done|]. cbn [snd].
  apply findOne_Some in Hfind as [Hin _].
  apply save_Forall; [done|].
  destruct (proj1 (Forall_forall _ _) Hinv c Hin) as (Hact & Hnd & Hteach).
  split; [done|]. split.
  - simpl. rewrite fmap_app. apply NoDup_app. split; [done|]. split.
    + intros x Hx Hx'. apply list_elem_of_singleton in Hx' as ->.
      by apply not_member_users in Hm.
    + apply NoDup_singleton.
  - simpl. intros m [Hm'|Hm']%elem_of_app Hr; [by apply Hteach|].
    apply list_elem_of_singleton in Hm' as ->. discriminate.
Qed.

Lemma update_roster (w : World) (u : UserModel.t) (id : ObjectId)
    (name description : option string) (settings : option ClassRoutes.SettingsPatch) :
  Inv.rosterInv w → Inv.rosterInv (ClassRoutes.update w u id name description settings).2.
Proof.
  intros Hinv. unfold ClassRoutes.update, Auth.requireClassTeacher.
  destruct (ClassModel.findById _ _) as [c|] eqn:Hfind; [|done].
  destruct (negb (Auth.isTeacher c _)); [done|].
  destruct (negb _); [done|]. cbn [snd].
  apply findById_Some in Hfind as [Hin _].
  apply save_Forall; [done|].
  pose proof (proj1 (Forall_forall _ _) Hinv c Hin) as Hc.
  unfold Inv.rosterOk in *.
  destruct (JS.truthy _), description, settings; exact Hc.
Qed.

Lemma removeMember_roster (w : World) (u : UserModel.t) (id : ObjectId) (userId : string) :
  Inv.rosterInv w → Inv.rosterInv (ClassRoutes.removeMember w u id userId).2.
Proof.
  intros Hinv. unfold ClassRoutes.removeMember, Auth.requireClassTeacher.
  destruct (ClassModel.findById _ _) as [c|] eqn:Hfind; [|done].
  destruct (negb (Auth.isTeacher c _)); [done|].
  destruct (String.eqb (ClassModel.createdBy c) userId); [done|]. cbn [snd].
  apply findById_Some in Hfind as [Hin _].
  apply save_Forall; [done|].
  destruct (proj1 (Forall_forall _ _) Hinv c Hin) as (Hact & Hnd & Hteach).
  split; [done|]. split.
  - simpl. eapply sublist_NoDup; [exact Hnd | apply filter_fmap_sublist].
  - simpl. intros m [Hm' _]%elem_of_bool_filter. by apply Hteach.
Qed.

Lemma handle_roster (rnd : nat → Q) (w w' : World) (req : Request) (r : Response) :
  handle rnd w req = Some (r, w') → Inv.rosterInv w → Inv.rosterInv w'.
Proof.
  intros Hh Hinv. unfold Inv.rosterInv.
  destruct (handle_classes rnd w w' req r Hh)
    as [->|[(u & n & d & i & code & _ & _ & _ & ->)
       |[(u & code & _ & ->)|[(u & i & n & d & s & _ & ->)
       |[(u & i & x & _ & ->)|(u & i & _ & ->)]]]]].
  - done.
  - apply Forall_app. split; [done|]. apply Forall_singleton.
    split; [done|]. split; [apply NoDup_singleton|].
    intros m ->%list_elem_of_singleton. done.
  - by apply join_roster.
  - by apply update_roster.
  - by apply removeMember_roster.
  - unfold ClassRoutes.delete. repeat case_match; try done.
    by apply remove_Forall.
Qed.

Lemma reachable_roster (rnd : nat → Q) (w : World) : reachable rnd w → Inv.rosterInv w.
Proof.
  induction 1 as [|w req r w' _ IH Hh]; [constructor|]. by eapply handle_roster.
Qed.

(** X4. No handler deactivates a class: in every store the server reaches
    all classes are active, so the join handler never answers that the class
    is no longer active. *)
Theorem classes_stay_active :
  ∀ (rnd : nat → Q) (w : World),
    reachable rnd w →
    (∀ c, c ∈ classes w → ClassModel.isActive c = true)
    ∧ (∀ u code, message (ClassRoutes.join w u code).1 ≠ "This class is no longer active").
Proof.
  intros rnd w Hreach. pose proof (reachable_roster rnd w Hreach) as Hinv.
  assert (Hact : ∀ c, c ∈ classes w → ClassModel.isActive c = true).
  { intros c Hin. by destruct (proj1 (Forall_forall _ _) Hinv c Hin) as (? & _). }
  split; [exact Hact|]. intros u code. unfold ClassRoutes.join.
  destruct (negb (Validate.isLength 6 6 (JS.trim code))); [done|].
  destruct (ClassModel.findOne _ _) as [c|] eqn:Hfind; [|done].
  apply findOne_Some in Hfind as [Hin _]. rewrite (Hact c Hin). cbn [negb].
  by destruct (Auth.isMember c _).
Qed.

Lemma classes_stay_active_witness :
  reachable Sample.rnd Sample.world
  ∧ message (ClassRoutes.join Sample.world Sample.cyd "GNU18F").1
    ≠ "This class is no longer active".
Proof.
  split; [exact sample_world_reachable|].
  apply (classes_stay_active Sample.rnd Sample.world sample_world_reachable).
Defined.

(** X5. In every store the server reaches, no user is listed twice in the
    member list of a class. *)
Theorem members_listed_once :
  ∀ (rnd : nat → Q) (w : World) (c : ClassModel.t),
    reachable rnd w → c ∈ classes w →
    NoDup (ClassModel.user <$> ClassModel.members c).
Proof.
  intros rnd w c Hreach Hin.
  by destruct (proj1 (Forall_forall _ _) (reachable_roster rnd w Hreach) c Hin)
    as (_ & ? & _).
Qed.

Lemma members_listed_once_witness :
  reachable Sample.rnd Sample.world ∧ Sample2.algebra ∈ classes Sample.world
  ∧ NoDup (ClassModel.user <$> ClassModel.members Sample2.algebra).
Proof.
  assert (Hin : Sample2.algebra ∈ classes Sample.world) by (vm_compute; left).
  split; [exact sample_world_reachable|]. split; [exact Hin|].
  exact (members_listed_once Sample.rnd Sample.world Sample2.algebra
           sample_world_reachable Hin).
Defined.

(** X6. In every store the server reaches, the teachers of a class are
    exactly its creator: no handler gives the teacher role to anyone else.
    So the teacher-only middleware lets a request through exactly when the
    class exists and the caller created it. *)
Theorem only_creator_is_teacher :
  ∀ (rnd : nat → Q) (w : World),
    reachable rnd w →
    (∀ c x, c ∈ classes w →
            (Auth.isTeacher c x = true ↔ x = ClassModel.createdBy c))
    ∧ (∀ u id c,
         Auth.requireClassTeacher (classes w) u id = inr c ↔
         ClassModel.findById (classes w) id = Some c
         ∧ ClassModel.createdBy c = UserModel._id u).
Proof.
  intros rnd w Hreach.
  pose proof (reachable_roster rnd w Hreach) as Hinv.
  destruct (reachable_classInv rnd (fun _ => true) (fun _ => eq_refl) w Hreach)
    as (Hcr & _).
  assert (Hteach : ∀ c x, c ∈ classes w →
            (Auth.isTeacher c x = true ↔ x = ClassModel.createdBy c)).
  { intros c x Hin. split.
    - intros (m & Hm & <- & Hr)%isTeacher_spec.
      destruct (proj1 (Forall_forall _ _) Hinv c Hin) as (_ & _ & Honly).
      by apply Honly.
    - intros ->. apply creatorIsTeacher_isTeacher.
      by apply (proj1 (Forall_forall _ _) Hcr). }
  split; [exact Hteach|]. intros u id c.
  unfold Auth.requireClassTeacher.
  destruct (ClassModel.findById (classes w) id) as [c0|] eqn:Hfind;
    [|split; [discriminate | intros [? _]; discriminate]].
  pose proof (findById_Some _ _ _ Hfind) as [Hin _].
  destruct (Auth.isTeacher c0 (UserModel._id u)) eqn:Ht; cbn [negb]; split.
  - intros [= <-]. split; [done|]. symmetry. by apply Hteach.
  - by intros [[= <-] _].
  - discriminate.
  - intros [[= <-] He]. symmetry in He. apply Hteach in He; [congruence | done].
Qed.

Lemma only_creator_is_teacher_witness :
  reachable Sample.rnd Sample.world
  ∧ (Auth.isTeacher Sample2.algebra "u-bob" = true
     ↔ "u-bob" = ClassModel.createdBy Sample2.algebra).
Proof.
  split; [exact sample_world_reachable|].
  apply (only_creator_is_teacher Sample.rnd Sample.world sample_world_reachable).
  vm_compute. left.
Defined.

(** ** Class documents under the class routes *)

Lemma save_same (store : list ClassModel.t) (c : ClassModel.t) :
  NoDup (ClassModel._id <$> store) → c ∈ store → ClassModel.save store c = store.
Proof.
  intros Hnd Hin. unfold ClassModel.save.
  rewrite <- (list_fmap_id store) at 2. apply list_fmap_ext. intros i d Hd. simpl.
  destruct (String.eqb_spec (ClassModel._id d) (ClassModel._id c)) as [He|_]; [|done].
  apply (same_id_same_doc store); [done.. | | done]. by eapply list_elem_of_lookup_2.
Qed.

Lemma findById_remove (store : list ClassModel.t) (id id' : ObjectId) :
  ClassModel.findById (ClassModel.remove store id) id'
  = if String.eqb id' id then None else ClassModel.findById store id'.
Proof.
  unfold ClassModel.findById, ClassModel.remove.
  induction store as [|d store IH]; simpl; [by destruct (String.eqb id' id)|].
  destruct (String.eqb_spec (ClassModel._id d) id) as [He|Hne]; simpl.
  - rewrite IH. destruct (String.eqb_spec id' id) as [Heq|Hne']; [done|].
    destruct (String.eqb_spec (ClassModel._id d) id'); [congruence | done].
  - destruct (String.eqb_spec (ClassModel._id d) id') as [He'|Hne']; [|exact IH].
    destruct (String.eqb_spec id' id); [congruence | done].
Qed.

(** The three handlers that write back a loaded class keep its identity. *)
Lemma class_writers_save (w : World) :
  ∀ w', (∃ u code, w' = (ClassRoutes.join w u code).2)
        ∨ (∃ u i n d s, w' = (ClassRoutes.update w u i n d s).2)
        ∨ (∃ u i x, w' = (ClassRoutes.removeMember w u i x).2) →
    classes w' = classes w
    ∨ ∃ c0 c, c0 ∈ classes w ∧ Inv.identity c = Inv.identity c0
              ∧ classes w' = ClassModel.save (classes w) c.
Proof.
  intros w' [(u & code & ->)|[(u & i & n & d & s & ->)|(u & i & x & ->)]].
  - unfold ClassRoutes.join.
    destruct (negb (Validate.isLength 6 6 (JS.trim code))); [by left|].
    destruct (ClassModel.findOne _ _) as [c|] eqn:Hfind; [|by left].
    destruct (negb (ClassModel.isActive c)); [by left|].
    destruct (Auth.isMember c _); [by left|].
    right. exists c. eexists. split; [by apply findOne_Some in Hfind as [? _]|].
    split; [|reflexivity]. done.
  - unfold ClassRoutes.update, Auth.requireClassTeacher.
    destruct (ClassModel.findById _ _) as [c|] eqn:Hfind; [|by left].
    destruct (negb (Auth.isTeacher c _)); [by left|].
    destruct (negb _); [by left|].
    right. exists c. eexists. split; [by apply findById_Some in Hfind as [? _]|].
    split; [|reflexivity]. by destruct (JS.truthy _), d, s.
  - unfold ClassRoutes.removeMember, Auth.requireClassTeacher.
    destruct (ClassModel.findById _ _) as [c|] eqn:Hfind; [|by left].
    destruct (negb (Auth.isTeacher c _)); [by left|].
    destruct (String.eqb _ _); [by left|].
    right. exists c. eexists. split; [by apply findById_Some in Hfind as [? _]|].
    split; [|reflexivity]. done.
Qed.

(** X7. No request changes the [_id], the code or the creator of a stored
    class. Across any request on a store the server has reached, the
    (id, code, creator) triples of the classes either stay a sub-sequence of
    what they were (they are the same unless a class is deleted), or one new
    class with an unused id and an unused code is appended. *)
Theorem class_identity_is_fixed :
  ∀ (rnd : nat → Q) (w w' : World) (req : Request) (r : Response),
    reachable rnd w → handle rnd w req = Some (r, w') →
    (Inv.identity <$> classes w') `sublist_of` (Inv.identity <$> classes w)
    ∨ ∃ c, classes w' = classes w ++ [c]
           ∧ ClassModel.findById (classes w) (ClassModel._id c) = None
           ∧ ClassModel.findOne (classes w) (default "" (ClassModel.classCode c)) = None.
Proof.
  intros rnd w w' req r Hreach Hh.
  destruct (reachable_classInv rnd (fun _ => true) (fun _ => eq_refl) w Hreach)
    as (_ & Hids & _).
  assert (Hsave : (∃ u code, w' = (ClassRoutes.join w u code).2)
                  ∨ (∃ u i n d s, w' = (ClassRoutes.update w u i n d s).2)
                  ∨ (∃ u i x, w' = (ClassRoutes.removeMember w u i x).2) →
                  (Inv.identity <$> classes w') `sublist_of` (Inv.identity <$> classes w)).
  { intros Hw. destruct (class_writers_save w w' Hw) as [->|(c0 & c & Hin & Hid & ->)];
      [done|].
    rewrite (save_fmap_keeps Inv.identity _ c0 c); [done..| |done].
    unfold Inv.identity in Hid. congruence. }
  destruct (handle_classes rnd w w' req r Hh)
    as [->|[(u & n & d & i & code & _ & Hnew & Hfree & ->)
       |[(u & code & _ & Hw)|[(u & i & n & d & s & _ & Hw)
       |[(u & i & x & _ & Hw)|(u & i & _ & ->)]]]]].
  - by left.
  - right. eexists. split; [reflexivity|]. split; [exact Hnew|].
    simpl. by apply findOne_None.
  - left. apply Hsave. left. by exists u, code.
  - left. apply Hsave. right; left. by exists u, i, n, d, s.
  - left. apply Hsave. right; right. by exists u, i, x.
  - left. unfold ClassRoutes.delete. repeat case_match; try done.
    apply remove_fmap_sublist.
Qed.

Lemma class_identity_is_fixed_witness :
  reachable Sample.rnd Sample.world
  ∧ (Inv.identity <$> classes (ClassRoutes.join Sample.world Sample.cyd "gnu18f").2)
    `sublist_of` (Inv.identity <$> classes Sample.world).
Proof.
  split; [exact sample_world_reachable|].
  destruct (class_identity_is_fixed Sample.rnd Sample.world
              (ClassRoutes.join Sample.world Sample.cyd "gnu18f").2
              (ClassJoin Sample.cyd "gnu18f")
              (ClassRoutes.join Sample.world Sample.cyd "gnu18f").1
              sample_world_reachable) as [H|(c & Hc & _)].
  - vm_compute. reflexivity.
  - exact H.
  - apply (f_equal length) in Hc. rewrite length_app in Hc.
    vm_compute in Hc. discriminate.
Defined.

(** X8. When the remove-member handler answers 200, the caller is a teacher
    of the class, the target is not its creator, and the stored class then
    lists exactly the members it listed before other than the target, roles
    included; the target is no longer a member. Questions and answers are
    untouched. *)
Theorem removeMember_removes_only_target :
  ∀ (w : World) (u : UserModel.t) (id : ObjectId) (userId : string),
    let out := ClassRoutes.removeMember w u id userId in
    status out.1 = 200 →
    ∃ c c',
      ClassModel.findById (classes w) id = Some c
      ∧ Auth.isTeacher c (UserModel._id u) = true
      ∧ ClassModel.createdBy c ≠ userId
      ∧ ClassModel.findById (classes out.2) id = Some c'
      ∧ Auth.isMember c' userId = false
      ∧ (∀ m, m ∈ ClassModel.members c' ↔
              m ∈ ClassModel.members c ∧ ClassModel.user m ≠ userId)
      ∧ questions out.2 = questions w ∧ answers out.2 = answers w.
Proof.
  intros w u id userId out. subst out.
  unfold ClassRoutes.removeMember, Auth.requireClassTeacher.
  destruct (ClassModel.findById (classes w) id) as [c|] eqn:Hfind; [|discriminate].
  destruct (Auth.isTeacher c (UserModel._id u)) eqn:Ht; [|discriminate]. cbn [negb].
  destruct (String.eqb_spec (ClassModel.createdBy c) userId) as [|Hne]; [discriminate|].
  cbn [fst snd]. intros _.
  assert (Hmem : ∀ m, m ∈ List.filter
                          (fun member => negb (String.eqb (ClassModel.user member) userId))
                          (ClassModel.members c)
                      ↔ m ∈ ClassModel.members c ∧ ClassModel.user m ≠ userId).
  { intros m. rewrite elem_of_bool_filter, negb_true_iff, String.eqb_neq. tauto. }
  exists c. eexists. split; [done|]. split; [done|]. split; [done|].
  apply findById_Some in Hfind as [Hin <-].
  split; [by apply findById_save|]. split.
  - apply not_true_iff_false. intros (m & Hm & He)%isMember_spec.
    simpl in Hm. apply Hmem in Hm as [_ ?]. done.
  - by split; [exact Hmem|].
Qed.

Lemma removeMember_removes_only_target_witness :
  let out := ClassRoutes.removeMember Sample.world Sample.ada "c1" "u-bob" in
  status out.1 = 200
  ∧ ∃ c', ClassModel.findById (classes out.2) "c1" = Some c'
          ∧ Auth.isMember c' "u-bob" = false.
Proof.
  assert (H : status (ClassRoutes.removeMember Sample.world Sample.ada "c1" "u-bob").1 = 200)
    by reflexivity.
  split; [exact H|].
  destruct (removeMember_removes_only_target Sample.world Sample.ada "c1" "u-bob" H)
    as (c & c' & _ & _ & _ & Hc' & Hm & _).
  by exists c'.
Defined.

Lemma filter_all {A} (p : A → bool) (l : list A) :
  (∀ x, x ∈ l → p x = true) → List.filter p l = l.
Proof.
  induction l as [|x l IH]; intros Hall; simpl; [done|].
  rewrite (Hall x) by left. f_equal. apply IH. intros y Hy. apply Hall. by right.
Qed.

(** X9. Removing someone who is not a member: in a store the server has
    reached, a teacher's request to remove a user who is not in the class
    (and is not its creator) is answered 200, member removed, although the
    store is exactly as before. *)
Theorem removeMember_of_non_member :
  ∀ (rnd : nat → Q) (w : World) (u : UserModel.t) (id : ObjectId) (userId : string)
    (c : ClassModel.t),
    reachable rnd w →
    ClassModel.findById (classes w) id = Some c →
    Auth.isTeacher c (UserModel._id u) = true →
    Auth.isMember c userId = false →
    ClassRoutes.removeMember w u id userId
    = (respond 200 "Member removed successfully", w).
Proof.
  intros rnd w u id userId c Hreach Hfind Ht Hnot.
  destruct (reachable_classInv rnd (fun _ => true) (fun _ => eq_refl) w Hreach)
    as (Hcr & Hids & _).
  pose proof (findById_Some _ _ _ Hfind) as [Hin _].
  unfold ClassRoutes.removeMember, Auth.requireClassTeacher. rewrite Hfind, Ht.
  cbn [negb].
  destruct (String.eqb_spec (ClassModel.createdBy c) userId) as [He|_].
  { exfalso. apply not_true_iff_false in Hnot. apply Hnot, isMember_spec.
    destruct (proj1 (Forall_forall _ _) Hcr c Hin) as (m & Hm & Hu & _).
    exists m. split; [done | congruence]. }
  f_equal. rewrite filter_all.
  - replace (ClassModel.set_members c (ClassModel.members c)) with c by (by destruct c).
    rewrite save_same by done. by destruct w.
  - intros m Hm. apply negb_true_iff, String.eqb_neq. intros He.
    apply not_true_iff_false in Hnot. apply Hnot, isMember_spec. by exists m.
Qed.

Lemma removeMember_of_non_member_witness :
  reachable Sample.rnd Sample.world
  ∧ ClassRoutes.removeMember Sample.world Sample.ada "c1" "u-cyd"
    = (respond 200 "Member removed successfully", Sample.world).
Proof.
  split; [exact sample_world_reachable|].
  apply (removeMember_of_non_member Sample.rnd Sample.world Sample.ada "c1" "u-cyd"
           Sample2.algebra sample_world_reachable); reflexivity.
Defined.

(** X10. When the delete-class handler answers 200 the caller is the creator;
    the class can no longer be found by its id, every other id resolves as
    before, and no question or answer is removed or changed: the questions
    of the deleted class stay in the store. *)
Theorem delete_class_does_not_cascade :
  ∀ (w : World) (u : UserModel.t) (id : ObjectId),
    let out := ClassRoutes.delete w u id in
    status out.1 = 200 →
    (∃ c, ClassModel.findById (classes w) id = Some c
          ∧ ClassModel.createdBy c = UserModel._id u)
    ∧ ClassModel.findById (classes out.2) id = None
    ∧ (∀ id', id' ≠ id →
              ClassModel.findById (classes out.2) id'
              = ClassModel.findById (classes w) id')
    ∧ questions out.2 = questions w ∧ answers out.2 = answers w.
Proof.
  intros w u id out. subst out. unfold ClassRoutes.delete.
  destruct (ClassModel.findById (classes w) id) as [c|] eqn:Hfind; [|discriminate].
  destruct (String.eqb_spec (ClassModel.createdBy c) (UserModel._id u)) as [He|];
    [|discriminate].
  cbn [negb fst snd]. intros _. split; [by exists c|].
  cbn [classes with_classes]. rewrite findById_remove, String.eqb_refl.
  split; [done|]. split; [|done].
  intros id' Hne. rewrite findById_remove.
  by destruct (String.eqb_spec id' id).
Qed.

Lemma delete_class_does_not_cascade_witness :
  let out := ClassRoutes.delete Sample.world Sample.ada "c1" in
  status out.1 = 200 ∧ questions out.2 = questions Sample.world.
Proof.
  assert (H : status (ClassRoutes.delete Sample.world Sample.ada "c1").1 = 200)
    by reflexivity.
  split; [exact H|].
  apply (delete_class_does_not_cascade Sample.world Sample.ada "c1" H).
Defined.

(** X11. A question whose class is no longer stored cannot be served: the
    read, vote, update and delete handlers for it, and the handler that
    posts an answer to it, answer 500 for every caller and leave the store
    as it is. *)
Theorem orphaned_question_requests_fail :
  ∀ (w : World) (u : UserModel.t) (id : ObjectId) (q : QuestionModel.t),
    questions w !! id = Some q →
    ClassModel.findById (classes w) (QuestionModel.classId q) = None →
    QuestionRoutes.get w u id = (respond 500 "Server error fetching question", w)
    ∧ QuestionRoutes.delete w u id = (respond 500 "Server error deleting question", w)
    ∧ (∀ type, Votes.validType type = true →
               QuestionRoutes.vote w u id type
               = (respond 500 "Server error voting on question", w))
    ∧ (∀ title description,
         Validate.optLength 5 200 title = true →
         Validate.optLength 10 2000 description = true →
         QuestionRoutes.update w u id title description None
         = (respond 500 "Server error updating question", w))
    ∧ (∀ text newId,
         Validate.isLength 5 2000 (JS.trim text) = true →
         AnswerRoutes.create w u id text newId
         = (respond 500 "Server error creating answer", w)).
Proof.
  intros w u id q Hq Hc. repeat split.
  - unfold QuestionRoutes.get. by rewrite Hq, Hc.
  - unfold QuestionRoutes.delete. by rewrite Hq, Hc.
  - intros type Hv. unfold QuestionRoutes.vote. by rewrite Hv, Hq, Hc.
  - intros title description Ht Hd. unfold QuestionRoutes.update.
    by rewrite Ht, Hd, Hq, Hc.
  - intros text newId Hv. unfold AnswerRoutes.create. by rewrite Hv, Hq, Hc.
Qed.

Lemma orphaned_question_requests_fail_witness :
  questions Sample2.orphaned !! "q1" = Some Sample2.question
  ∧ QuestionRoutes.get Sample2.orphaned Sample.bob "q1"
    = (respond 500 "Server error fetching question", Sample2.orphaned).
Proof.
  assert (Hq : questions Sample2.orphaned !! "q1" = Some Sample2.question)
    by (vm_compute; reflexivity).
  split; [exact Hq|].
  apply (orphaned_question_requests_fail Sample2.orphaned Sample.bob "q1"
           Sample2.question Hq).
  reflexivity.
Defined.

(** ** Creating a class *)

Section FirstFree.

Variable rnd : nat → Q.
Variable store : list ClassModel.t.

Import ClassModel.




End FirstFree.



(** X13. A class that the create handler has just stored can be joined by
    its code: any other user who submits a 6-character string that
    uppercases to the code is answered 200, while the creator, who is
    already a member, is answered 400 and changes nothing. *)
Theorem created_class_can_be_joined :
  ∀ (rnd : nat → Q) (w w' : World) (u : UserModel.t) (name : string)
    (description : option string) (newId : ObjectId) (r : Response),
    ClassRoutes.create rnd w u name description newId = Some (r, w') →
    status r = 201 →
    ∃ c code,
      ClassModel.findById (classes w') newId = Some c
      ∧ ClassModel.classCode c = Some code
      ∧ (∀ v s, JS.toUpperCase (JS.trim s) = code →
                String.length (JS.trim s) = 6%nat →
                UserModel._id v ≠ UserModel._id u →
                status (ClassRoutes.join w' v s).1 = 200)
      ∧ (∀ s, JS.toUpperCase (JS.trim s) = code →
              String.length (JS.trim s) = 6%nat →
              ClassRoutes.join w' u s
              = (respond 400 "You are already a member of this class", w')).
Proof.
  intros rnd w w' u name description newId r Hc Hok.
  apply create_ok in Hc
    as (_ & _ & [(Hno & _)|(_ & code & pos & _ & Hfree & Hnew & Hw')]); [done|].
  assert (Hfind : ClassModel.findOne (classes w') code
                  = Some (Inv.created newId name description (UserModel._id u) code)).
  { rewrite Hw'. unfold ClassModel.findOne. rewrite find_app_None.
    - simpl. unfold ClassModel.has_code. simpl. by rewrite String.eqb_refl.
    - by apply findOne_None. }
  exists (Inv.created newId name description (UserModel._id u) code), code.
  split.
  { rewrite Hw'. unfold ClassModel.findById in *. rewrite find_app_None by done.
    simpl. by rewrite String.eqb_refl. }
  split; [done|]. split.
  - intros v s Hs Hlen Hv. unfold ClassRoutes.join, Validate.isLength.
    rewrite Hlen, Hs, Hfind. cbn.
    destruct (String.eqb_spec (UserModel._id u) (UserModel._id v)); [congruence | done].
  - intros s Hs Hlen. unfold ClassRoutes.join, Validate.isLength.
    rewrite Hlen, Hs, Hfind. cbn. by rewrite String.eqb_refl.
Qed.

Lemma created_class_can_be_joined_witness :
  ∃ c code,
    ClassModel.findById
      (classes (default emptyWorld
                  (snd <$> ClassRoutes.create Sample.rnd emptyWorld Sample.ada
                             "Algebra I" None "c1"))) "c1" = Some c
    ∧ ClassModel.classCode c = Some code.
Proof.
  destruct (created_class_can_be_joined Sample.rnd emptyWorld
              (default emptyWorld
                 (snd <$> ClassRoutes.create Sample.rnd emptyWorld Sample.ada
                            "Algebra I" None "c1"))
              Sample.ada "Algebra I" None "c1"
              (respond 201 "Class created successfully"))
    as (c & code & Hc & Hcode & _); [vm_compute; reflexivity | reflexivity |].
  by exists c, code.
Defined.

(** ** Questions and their answers *)

Lemma fmap_alter_commute {A B} (f : A → B) (g : A → A) (h : B → B)
    (m : gmap ObjectId A) (i : ObjectId) :
  (∀ x, f (g x) = h (f x)) → f <$> alter g i m = alter h i (f <$> m).
Proof.
  intros Hf. apply map_eq. intros j. rewrite lookup_fmap, !lookup_alter.
  case_decide; rewrite !lookup_fmap; [subst|done].
  destruct (m !! j); simpl; by rewrite ?Hf.
Qed.

Lemma posted_unacceptAll (q : ObjectId) (m : gmap ObjectId AnswerModel.t) :
  (fun a => (AnswerModel.questionId a, AnswerModel.isActive a))
    <$> AnswerRoutes.unacceptAll q m
  = (fun a => (AnswerModel.questionId a, AnswerModel.isActive a)) <$> m.
Proof.
  unfold AnswerRoutes.unacceptAll. rewrite <- map_fmap_compose.
  apply map_fmap_ext. intros i a _. simpl.
  by destruct (String.eqb (AnswerModel.questionId a) q).
Qed.

Lemma posted_lookup (w : World) (id q : ObjectId) (b : bool) :
  Inv.posted w !! id = Some (q, b) ↔
  ∃ a, answers w !! id = Some a
       ∧ AnswerModel.questionId a = q ∧ AnswerModel.isActive a = b.
Proof.
  unfold Inv.posted. rewrite lookup_fmap, fmap_Some. split.
  - intros (a & Ha & [= -> ->]). by exists a.
  - intros (a & Ha & <- & <-). by exists a.
Qed.

Section Threads.

Variable rnd : nat → Q.

Ltac same_thread :=
  solve [ apply Inv.thread_same; unfold Inv.posted, Inv.listed; simpl;
          first [ reflexivity | by eapply fmap_insert_same ] ].

Lemma class_handlers_thread (w : World) :
  (∀ u c, Inv.threadStep w (ClassRoutes.join w u c).2)
  ∧ (∀ u i n d s, Inv.threadStep w (ClassRoutes.update w u i n d s).2)
  ∧ (∀ u i x, Inv.threadStep w (ClassRoutes.removeMember w u i x).2)
  ∧ (∀ u i, Inv.threadStep w (ClassRoutes.delete w u i).2).
Proof.
  repeat split; intros.
  - unfold ClassRoutes.join. repeat case_match; same_thread.
  - unfold ClassRoutes.update. repeat case_match; same_thread.
  - unfold ClassRoutes.removeMember. repeat case_match; same_thread.
  - unfold ClassRoutes.delete. repeat case_match; same_thread.
Qed.

Lemma question_handlers_thread (w : World) (u : UserModel.t) (id : ObjectId) :
  (∀ c t d g, Inv.threadStep w (QuestionRoutes.create w u c t d g id).2)
  ∧ Inv.threadStep w (QuestionRoutes.get w u id).2
  ∧ (∀ t d g, Inv.threadStep w (QuestionRoutes.update w u id t d g).2)
  ∧ (∀ t, Inv.threadStep w (QuestionRoutes.vote w u id t).2)
  ∧ Inv.threadStep w (QuestionRoutes.delete w u id).2.
Proof.
  repeat split; intros.
  - unfold QuestionRoutes.create. repeat case_match; try same_thread.
    apply (Inv.thread_new_question _ _ id); [done | done |].
    unfold Inv.listed. simpl. by rewrite fmap_insert.
  - unfold QuestionRoutes.get. repeat case_match; same_thread.
  - unfold QuestionRoutes.update. repeat case_match; same_thread.
  - unfold QuestionRoutes.vote. repeat case_match; same_thread.
  - unfold QuestionRoutes.delete. repeat case_match; same_thread.
Qed.

Lemma answer_handlers_thread (w : World) (u : UserModel.t) (id : ObjectId) :
  (∀ q t, Inv.threadStep w (AnswerRoutes.create w u q t id).2)
  ∧ (∀ t, Inv.threadStep w (AnswerRoutes.update w u id t).2)
  ∧ (∀ t, Inv.threadStep w (AnswerRoutes.vote w u id t).2)
  ∧ Inv.threadStep w (AnswerRoutes.accept w u id).2
  ∧ Inv.threadStep w (AnswerRoutes.delete w u id).2.
Proof.
  repeat split; intros.
  - unfold AnswerRoutes.create. repeat case_match; try same_thread.
    match goal with
    | H : questions w !! ?q0 = Some ?qd |- _ =>
        apply (Inv.thread_new_answer _ _ id q0 (QuestionModel.answers qd));
          [done | unfold Inv.listed; rewrite lookup_fmap, H; done | idtac | idtac]
    end.
    + unfold Inv.posted. simpl. by rewrite fmap_insert.
    + unfold Inv.listed. simpl. by rewrite fmap_insert.
  - unfold AnswerRoutes.update. repeat case_match; same_thread.
  - unfold AnswerRoutes.vote. repeat case_match; same_thread.
  - unfold AnswerRoutes.accept. repeat case_match; try same_thread.
    apply Inv.thread_same; unfold Inv.posted, Inv.listed; simpl.
    + rewrite fmap_insert, posted_unacceptAll. apply insert_id.
      rewrite lookup_fmap.
      match goal with H : answers w !! id = Some _ |- _ => by rewrite H end.
    + by eapply fmap_insert_same.
  - unfold AnswerRoutes.delete. repeat case_match; try same_thread.
    match goal with
    | H : answers w !! id = Some ?a |- _ =>
        apply (Inv.thread_delete_answer _ _ id (AnswerModel.questionId a)
                 (AnswerModel.isActive a));
          [apply posted_lookup; eexists; split; [exact H | by split] | idtac | idtac]
    end.
    + unfold Inv.posted. simpl. by rewrite fmap_insert.
    + unfold Inv.listed. simpl. by apply fmap_alter_commute.
Qed.

Lemma handle_thread (w w' : World) (req : Request) (r : Response) :
  handle rnd w req = Some (r, w') → Inv.threadStep w w'.
Proof.
  destruct req; simpl; intros Hh;
    try (injection Hh as Hh; apply (f_equal snd) in Hh; cbn [snd] in Hh; subst w').
  - apply create_ok in Hh as (Hq & Ha & _).
    apply Inv.thread_same; unfold Inv.posted, Inv.listed; congruence.
  - apply class_handlers_thread.
  - apply class_handlers_thread.
  - apply class_handlers_thread.
  - apply class_handlers_thread.
  - apply question_handlers_thread.
  - apply question_handlers_thread.
  - apply question_handlers_thread.
  - apply question_handlers_thread.
  - apply question_handlers_thread.
  - apply answer_handlers_thread.
  - apply answer_handlers_thread.
  - apply answer_handlers_thread.
  - apply answer_handlers_thread.
  - apply answer_handlers_thread.
Qed.

End Threads.

Lemma lookup_alter_is_Some {A} (g : A → A) (m : gmap ObjectId A) (i j : ObjectId) :
  is_Some (m !! j) → is_Some (alter g i m !! j).
Proof.
  intros [x Hx]. rewrite lookup_alter. case_decide; [subst; rewrite Hx|rewrite Hx]; by eexists.
Qed.

Lemma lookup_insert_is_Some' {A} (x : A) (m : gmap ObjectId A) (i j : ObjectId) :
  is_Some (m !! j) → is_Some (<[i := x]> m !! j).
Proof.
  intros Hj. rewrite lookup_insert. case_decide; [by eexists | done].
Qed.

Lemma threadStep_threadInv (w w' : World) :
  Inv.threadStep w w' → Inv.threadInv w → Inv.threadInv w'.
Proof.
  intros Hstep [Hown Hlist].
  destruct Hstep as [Hp Hl|q0 Hnew Hp Hl|id0 q0 l0 Hnew Hl0 Hp Hl|id0 q0 b0 Hold Hp Hl];
    unfold Inv.threadInv; rewrite Hp, Hl.
  - by split.
  - assert (Hnone : Inv.listed w !! q0 = None)
      by (unfold Inv.listed; by rewrite lookup_fmap, Hnew).
    split.
    + intros id q b Hid. apply lookup_insert_is_Some'. by eapply Hown.
    + intros q l. rewrite lookup_insert. case_decide as Hq; [subst q|by apply Hlist].
      intros [= <-]. split; [constructor|]. intros id. split.
      * by intros ?%elem_of_nil.
      * intros Hid. apply Hown in Hid as [? Hid]. congruence.
  - assert (Hnone : Inv.posted w !! id0 = None)
      by (unfold Inv.posted; by rewrite lookup_fmap, Hnew).
    assert (Hfresh : ∀ q l, Inv.listed w !! q = Some l → id0 ∉ l).
    { intros q l Hq Hin. apply (Hlist q l Hq) in Hin. congruence. }
    split.
    + intros id q b. rewrite lookup_insert. case_decide as Hid.
      * intros [= <- <-]. rewrite lookup_insert_eq. by eexists.
      * intros Hp'. apply lookup_insert_is_Some'. by eapply Hown.
    + intros q l. rewrite lookup_insert. case_decide as Hq.
      * subst q. intros [= <-]. destruct (Hlist q0 l0 Hl0) as [Hnd Hiff]. split.
        { apply NoDup_app. split; [done|]. split; [|apply NoDup_singleton].
          intros x Hx ->%list_elem_of_singleton. by apply (Hfresh q0 l0). }
        intros id. rewrite elem_of_app, list_elem_of_singleton, lookup_insert.
        case_decide as Hid; [subst; by split; [|right]|].
        rewrite Hiff. split; [by intros [?|?] | by left].
      * intros Hq'. destruct (Hlist q l Hq') as [Hnd Hiff]. split; [done|].
        intros id. rewrite lookup_insert. case_decide as Hid; [subst id|by apply Hiff].
        split; [intros Hin; by apply (Hfresh q l) in Hin | intros [= ? ]; congruence].
  - split.
    + intros id q b. rewrite lookup_insert. case_decide as Hid.
      * intros [= <- <-]. apply lookup_alter_is_Some. by eapply Hown.
      * intros Hp'. apply lookup_alter_is_Some. by eapply Hown.
    + intros q l. rewrite lookup_alter. case_decide as Hq.
      * subst q. destruct (Inv.listed w !! q0) as [l1|] eqn:Hl1; simpl; [|done].
        intros [= <-]. destruct (Hlist q0 l1 Hl1) as [Hnd Hiff]. split.
        { apply (sublist_NoDup _ l1); [done | apply bool_filter_sublist]. }
        intros id. rewrite elem_of_bool_filter, negb_true_iff, String.eqb_neq, Hiff.
        rewrite lookup_insert. case_decide as Hid; [subst id|].
        { split; [by intros [_ ?] | discriminate]. }
        split; [by intros [? _] | by split].
      * intros Hq'. destruct (Hlist q l Hq') as [Hnd Hiff]. split; [done|].
        intros id. rewrite Hiff, lookup_insert. case_decide as Hid; [subst id|done].
        rewrite Hold. split; intros [= ?]; congruence.
Qed.

Lemma reachable_threadInv (rnd : nat → Q) (w : World) :
  reachable rnd w → Inv.threadInv w.
Proof.
  induction 1 as [|w req r w' _ IH Hh].
  - split.
    + intros id q b. unfold Inv.posted. simpl. by rewrite fmap_empty, lookup_empty.
    + intros q l. unfold Inv.listed. simpl. by rewrite fmap_empty, lookup_empty.
  - eapply threadStep_threadInv; [by eapply handle_thread | exact IH].
Qed.

(** X14. In every store the server reaches, the [answers] array of a
    question and the answers collection agree: the array lists, each once,
    exactly the ids of the stored answers that belong to the question and
    are active; and every stored answer belongs to a stored question. *)
Theorem question_lists_its_active_answers :
  ∀ (rnd : nat → Q) (w : World),
    reachable rnd w →
    (∀ qid q, questions w !! qid = Some q →
       NoDup (QuestionModel.answers q)
       ∧ ∀ id, id ∈ QuestionModel.answers q ↔
               ∃ a, answers w !! id = Some a
                    ∧ AnswerModel.questionId a = qid
                    ∧ AnswerModel.isActive a = true)
    ∧ (∀ id a, answers w !! id = Some a →
               is_Some (questions w !! AnswerModel.questionId a)).
Proof.
  intros rnd w Hreach. destruct (reachable_threadInv rnd w Hreach) as [Hown Hlist].
  split.
  - intros qid q Hq.
    destruct (Hlist qid (QuestionModel.answers q)) as [Hnd Hiff].
    { unfold Inv.listed. by rewrite lookup_fmap, Hq. }
    split; [done|]. intros id. by rewrite Hiff, posted_lookup.
  - intros id a Ha.
    destruct (Hown id (AnswerModel.questionId a) (AnswerModel.isActive a)) as [l Hl].
    { apply posted_lookup. by exists a. }
    unfold Inv.listed in Hl. rewrite lookup_fmap in Hl.
    destruct (questions w !! AnswerModel.questionId a); [by eexists | discriminate].
Qed.

Lemma question_lists_its_active_answers_witness :
  reachable Sample.rnd Sample.world
  ∧ questions Sample.world !! "q1" = Some Sample2.question
  ∧ NoDup (QuestionModel.answers Sample2.question).
Proof.
  assert (Hq : questions Sample.world !! "q1" = Some Sample2.question)
    by (vm_compute; reflexivity).
  split; [exact sample_world_reachable|]. split; [exact Hq|].
  destruct (question_lists_its_active_answers Sample.rnd Sample.world
              sample_world_reachable) as [H _].
  apply (H "q1" Sample2.question Hq).
Defined.

(** ** Soft deletion, authorship and views *)

(** X15. A soft-deleted question stays usable by its id. When the delete
    handler answers 200 the question is still stored, changed only in its
    [isActive] flag, and its answers are untouched; a member of its class
    who then reads it is answered 200, and a member who votes on it is
    answered 200 as well. *)
Theorem deleted_question_stays_usable :
  ∀ (w : World) (u : UserModel.t) (id : ObjectId),
    let out := QuestionRoutes.delete w u id in
    status out.1 = 200 →
    ∃ q c,
      questions w !! id = Some q
      ∧ ClassModel.findById (classes w) (QuestionModel.classId q) = Some c
      ∧ questions out.2 = <[id := QuestionModel.set_isActive q false]> (questions w)
      ∧ answers out.2 = answers w ∧ classes out.2 = classes w
      ∧ (∀ v, Auth.isMember c (UserModel._id v) = true →
              status (QuestionRoutes.get out.2 v id).1 = 200
              ∧ ∀ type, Votes.validType type = true →
                        status (QuestionRoutes.vote out.2 v id type).1 = 200).
Proof.
  intros w u id out. subst out. unfold QuestionRoutes.delete.
  destruct (questions w !! id) as [q|] eqn:Hq; [|discriminate].
  destruct (ClassModel.findById (classes w) (QuestionModel.classId q)) as [c|] eqn:Hc;
    [|discriminate].
  destruct (negb _ && negb _); [discriminate|]. cbn [fst snd]. intros _.
  exists q, c. do 5 (split; [done|]). intros v Hv. split.
  - unfold QuestionRoutes.get. cbn [questions with_questions classes].
    rewrite lookup_insert_eq. cbn [QuestionModel.classId QuestionModel.set_isActive].
    by rewrite Hc, Hv.
  - intros type Ht. unfold QuestionRoutes.vote. cbn [questions with_questions classes].
    rewrite Ht, lookup_insert_eq. cbn [QuestionModel.classId QuestionModel.set_isActive negb].
    by rewrite Hc, Hv.
Qed.

Lemma deleted_question_stays_usable_witness :
  let out := QuestionRoutes.delete Sample.world Sample.bob "q1" in
  status out.1 = 200 ∧ answers out.2 = answers Sample.world.
Proof.
  assert (H : status (QuestionRoutes.delete Sample.world Sample.bob "q1").1 = 200)
    by reflexivity.
  split; [exact H|].
  destruct (deleted_question_stays_usable Sample.world Sample.bob "q1" H)
    as (q & c & _ & _ & _ & Ha & _).
  exact Ha.
Defined.

(** X16. An author keeps the right to edit and delete a question without
    being a member of its class (for instance after being removed from it):
    update and delete check authorship or the teacher role, never
    membership, and answer 200; reading the question and voting on it check
    membership and answer 403. *)
Theorem author_rights_outlast_membership :
  ∀ (w : World) (u : UserModel.t) (id : ObjectId) (q : QuestionModel.t)
    (c : ClassModel.t),
    questions w !! id = Some q →
    ClassModel.findById (classes w) (QuestionModel.classId q) = Some c →
    QuestionModel.author q = UserModel._id u →
    Auth.isMember c (UserModel._id u) = false →
    status (QuestionRoutes.delete w u id).1 = 200
    ∧ (∀ title description,
         Validate.optLength 5 200 title = true →
         Validate.optLength 10 2000 description = true →
         status (QuestionRoutes.update w u id title description None).1 = 200)
    ∧ QuestionRoutes.get w u id = (respond 403 "Access denied", w)
    ∧ (∀ type, Votes.validType type = true →
               QuestionRoutes.vote w u id type = (respond 403 "Access denied", w)).
Proof.
  intros w u id q c Hq Hc Hauth Hnot. repeat split.
  - unfold QuestionRoutes.delete. by rewrite Hq, Hc, Hauth, String.eqb_refl.
  - intros title description Ht Hd. unfold QuestionRoutes.update.
    by rewrite Ht, Hd, Hq, Hc, Hauth, String.eqb_refl.
  - unfold QuestionRoutes.get. by rewrite Hq, Hc, Hnot.
  - intros type Ht. unfold QuestionRoutes.vote. by rewrite Ht, Hq, Hc, Hnot.
Qed.

Lemma author_rights_outlast_membership_witness :
  status (QuestionRoutes.delete Sample2.bob_removed Sample.bob "q1").1 = 200
  ∧ QuestionRoutes.get Sample2.bob_removed Sample.bob "q1"
    = (respond 403 "Access denied", Sample2.bob_removed).
Proof.
  destruct (author_rights_outlast_membership Sample2.bob_removed Sample.bob "q1"
              Sample2.question
              (ClassModel.set_members Sample2.algebra
                 [{| ClassModel.user := "u-ada"; ClassModel.role := ClassModel.teacher |}]))
    as (Hdel & _ & Hget & _);
    [vm_compute; reflexivity | vm_compute; reflexivity | reflexivity | reflexivity |].
  by split.
Defined.

(** X17. Who may change what. A caller who is neither the author of a
    question nor a teacher of its class cannot update or delete it; a
    caller who is neither the author of an answer nor a teacher cannot
    update or delete it; a caller who is neither the author of the question
    nor a teacher cannot accept an answer to it. Each such request is
    answered 403 and leaves the store as it is. *)
Theorem unauthorised_changes_refused :
  ∀ (w : World) (u : UserModel.t) (qid aid : ObjectId) (q : QuestionModel.t)
    (a : AnswerModel.t) (c : ClassModel.t),
    questions w !! qid = Some q →
    answers w !! aid = Some a →
    AnswerModel.questionId a = qid →
    ClassModel.findById (classes w) (QuestionModel.classId q) = Some c →
    Auth.isTeacher c (UserModel._id u) = false →
    (QuestionModel.author q ≠ UserModel._id u →
       QuestionRoutes.delete w u qid
       = (respond 403 "Not authorized to delete this question", w)
       ∧ (∀ title description tags,
            (QuestionRoutes.update w u qid title description tags).2 = w
            ∧ status (QuestionRoutes.update w u qid title description tags).1 ≠ 200)
       ∧ AnswerRoutes.accept w u aid
         = (respond 403 "Not authorized to accept this answer", w))
    ∧ (AnswerModel.author a ≠ UserModel._id u →
       AnswerRoutes.delete w u aid
       = (respond 403 "Not authorized to delete this answer", w)
       ∧ (∀ text, (AnswerRoutes.update w u aid text).2 = w
                  ∧ status (AnswerRoutes.update w u aid text).1 ≠ 200)).
Proof.
  intros w u qid aid q a c Hq Ha Hqa Hc Ht. split.
  - intros Hne. apply String.eqb_neq in Hne. repeat split.
    + unfold QuestionRoutes.delete. by rewrite Hq, Hc, Hne, Ht.
    + unfold QuestionRoutes.update. rewrite Hq, Hc, Hne, Ht.
      by destruct (negb _).
    + unfold QuestionRoutes.update. rewrite Hq, Hc, Hne, Ht.
      by destruct (negb _).
    + unfold AnswerRoutes.accept. by rewrite Ha, Hqa, Hq, Hc, Hne, Ht.
  - intros Hne. apply String.eqb_neq in Hne.
    assert (Hof : AnswerRoutes.classOf w a = Some (q, c)).
    { unfold AnswerRoutes.classOf. by rewrite Hqa, Hq, Hc. }
    repeat split.
    + unfold AnswerRoutes.delete. by rewrite Ha, Hof, Hne, Ht.
    + unfold AnswerRoutes.update. rewrite Ha, Hof, Hne, Ht. by destruct (negb _).
    + unfold AnswerRoutes.update. rewrite Ha, Hof, Hne, Ht. by destruct (negb _).
Qed.

Lemma unauthorised_changes_refused_witness :
  AnswerRoutes.accept Sample.world Sample.cyd "a2"
  = (respond 403 "Not authorized to accept this answer", Sample.world).
Proof.
  destruct (unauthorised_changes_refused Sample.world Sample.cyd "q1" "a2"
              Sample2.question Sample2.answer2 Sample2.algebra) as [H _];
    [vm_compute; reflexivity | vm_compute; reflexivity | reflexivity
    | reflexivity | reflexivity |].
  apply H. discriminate.
Defined.




(** ** What requests never change *)

Lemma answerCore_unacceptAll (q : ObjectId) (m : gmap ObjectId AnswerModel.t) :
  (fun a => (AnswerModel.questionId a, AnswerModel.author a))
    <$> AnswerRoutes.unacceptAll q m
  = (fun a => (AnswerModel.questionId a, AnswerModel.author a)) <$> m.
Proof.
  unfold AnswerRoutes.unacceptAll. rewrite <- map_fmap_compose.
  apply map_fmap_ext. intros i a _. simpl.
  by destruct (String.eqb (AnswerModel.questionId a) q).
Qed.

Section Cores.

Variable rnd : nat → Q.

Ltac same_core :=
  solve [ unfold Inv.coreStep; split; left;
          unfold Inv.questionCore, Inv.answerCore; simpl;
          first [ reflexivity | by eapply fmap_insert_same ] ].

Lemma class_handlers_core (w : World) :
  (∀ u c, Inv.coreStep w (ClassRoutes.join w u c).2)
  ∧ (∀ u i n d s, Inv.coreStep w (ClassRoutes.update w u i n d s).2)
  ∧ (∀ u i x, Inv.coreStep w (ClassRoutes.removeMember w u i x).2)
  ∧ (∀ u i, Inv.coreStep w (ClassRoutes.delete w u i).2).
Proof.
  split; [|split; [|split]]; intros.
  - unfold ClassRoutes.join. repeat case_match; same_core.
  - unfold ClassRoutes.update. repeat case_match; same_core.
  - unfold ClassRoutes.removeMember. repeat case_match; same_core.
  - unfold ClassRoutes.delete. repeat case_match; same_core.
Qed.

Lemma question_handlers_core (w : World) (u : UserModel.t) (id : ObjectId) :
  (∀ c t d g, Inv.coreStep w (QuestionRoutes.create w u c t d g id).2)
  ∧ Inv.coreStep w (QuestionRoutes.get w u id).2
  ∧ (∀ t d g, Inv.coreStep w (QuestionRoutes.update w u id t d g).2)
  ∧ (∀ t, Inv.coreStep w (QuestionRoutes.vote w u id t).2)
  ∧ Inv.coreStep w (QuestionRoutes.delete w u id).2.
Proof.
  split; [|split; [|split; [|split]]]; intros.
  - unfold QuestionRoutes.create. repeat case_match; try same_core.
    unfold Inv.coreStep. split; [right|by left]. eexists id, _, _. split; [done|].
    unfold Inv.questionCore. simpl. by rewrite fmap_insert.
  - unfold QuestionRoutes.get. repeat case_match; same_core.
  - unfold QuestionRoutes.update. repeat case_match; same_core.
  - unfold QuestionRoutes.vote. repeat case_match; same_core.
  - unfold QuestionRoutes.delete. repeat case_match; same_core.
Qed.

Lemma answer_handlers_core (w : World) (u : UserModel.t) (id : ObjectId) :
  (∀ q t, Inv.coreStep w (AnswerRoutes.create w u q t id).2)
  ∧ (∀ t, Inv.coreStep w (AnswerRoutes.update w u id t).2)
  ∧ (∀ t, Inv.coreStep w (AnswerRoutes.vote w u id t).2)
  ∧ Inv.coreStep w (AnswerRoutes.accept w u id).2
  ∧ Inv.coreStep w (AnswerRoutes.delete w u id).2.
Proof.
  split; [|split; [|split; [|split]]]; intros.
  - unfold AnswerRoutes.create. repeat case_match; try same_core. unfold Inv.coreStep. split.
    + left. unfold Inv.questionCore. simpl. by eapply fmap_insert_same.
    + right. eexists id, _, _. split; [done|].
      unfold Inv.answerCore. simpl. by rewrite fmap_insert.
  - unfold AnswerRoutes.update. repeat case_match; same_core.
  - unfold AnswerRoutes.vote. repeat case_match; same_core.
  - unfold AnswerRoutes.accept. repeat case_match; try same_core. unfold Inv.coreStep. split; left.
    + unfold Inv.questionCore. simpl. by eapply fmap_insert_same.
    + unfold Inv.answerCore. simpl. rewrite fmap_insert, answerCore_unacceptAll.
      apply insert_id. rewrite lookup_fmap.
      match goal with H : answers w !! _ = Some _ |- _ => by rewrite H end.
  - unfold AnswerRoutes.delete. repeat case_match; try same_core. unfold Inv.coreStep. split; left.
    + unfold Inv.questionCore. simpl. by apply fmap_alter_same.
    + unfold Inv.answerCore. simpl. by eapply fmap_insert_same.
Qed.

Lemma handle_core (w w' : World) (req : Request) (r : Response) :
  handle rnd w req = Some (r, w') → Inv.coreStep w w'.
Proof.
  destruct req; simpl; intros Hh;
    try (injection Hh as Hh; apply (f_equal snd) in Hh; cbn [snd] in Hh; subst w').
  - apply create_ok in Hh as (Hq & Ha & _).
    unfold Inv.coreStep. split; left; unfold Inv.questionCore, Inv.answerCore; congruence.
  - apply class_handlers_core.
  - apply class_handlers_core.
  - apply class_handlers_core.
  - apply class_handlers_core.
  - apply question_handlers_core.
  - apply question_handlers_core.
  - apply question_handlers_core.
  - apply question_handlers_core.
  - apply question_handlers_core.
  - apply answer_handlers_core.
  - apply answer_handlers_core.
  - apply answer_handlers_core.
  - apply answer_handlers_core.
  - apply answer_handlers_core.
Qed.

End Cores.

Lemma questionCore_lookup (w : World) (id u c : ObjectId) (p : bool) :
  Inv.questionCore w !! id = Some (u, c, p) ↔
  ∃ q, questions w !! id = Some q ∧ QuestionModel.author q = u
       ∧ QuestionModel.classId q = c ∧ QuestionModel.isPinned q = p.
Proof.
  unfold Inv.questionCore. rewrite lookup_fmap, fmap_Some. split.
  - intros (q & Hq & [= -> -> ->]). by exists q.
  - intros (q & Hq & <- & <- & <-). by exists q.
Qed.

Lemma answerCore_lookup (w : World) (id q u : ObjectId) :
  Inv.answerCore w !! id = Some (q, u) ↔
  ∃ a, answers w !! id = Some a ∧ AnswerModel.questionId a = q
       ∧ AnswerModel.author a = u.
Proof.
  unfold Inv.answerCore. rewrite lookup_fmap, fmap_Some. split.
  - intros (a & Ha & [= -> ->]). by exists a.
  - intros (a & Ha & <- & <-). by exists a.
Qed.

(** X19. No request removes a question or an answer from the store, and
    none changes the author, the class or the pinned flag of a question, or
    the author or the question of an answer: whatever the request, every
    stored question and answer is still stored after it with these fields
    as they were. *)
Theorem documents_keep_their_origin :
  ∀ (rnd : nat → Q) (w w' : World) (req : Request) (r : Response),
    handle rnd w req = Some (r, w') →
    (∀ id q, questions w !! id = Some q →
       ∃ q', questions w' !! id = Some q'
             ∧ QuestionModel.author q' = QuestionModel.author q
             ∧ QuestionModel.classId q' = QuestionModel.classId q
             ∧ QuestionModel.isPinned q' = QuestionModel.isPinned q)
    ∧ (∀ id a, answers w !! id = Some a →
         ∃ a', answers w' !! id = Some a'
               ∧ AnswerModel.questionId a' = AnswerModel.questionId a
               ∧ AnswerModel.author a' = AnswerModel.author a).
Proof.
  intros rnd w w' req r Hh. destruct (handle_core rnd w w' req r Hh) as [Hq Ha]. split.
  - intros id q Hid.
    assert (Hold : Inv.questionCore w !! id
                   = Some (QuestionModel.author q, QuestionModel.classId q,
                           QuestionModel.isPinned q))
      by (apply questionCore_lookup; by exists q).
    assert (Hnew : Inv.questionCore w' !! id
                   = Some (QuestionModel.author q, QuestionModel.classId q,
                           QuestionModel.isPinned q)).
    { destruct Hq as [->|(id0 & u & c & Hfresh & ->)]; [done|].
      rewrite lookup_insert_ne; [done|]. intros ->. congruence. }
    apply questionCore_lookup in Hnew as (q' & ? & ? & ? & ?). by exists q'.
  - intros id a Hid.
    assert (Hold : Inv.answerCore w !! id
                   = Some (AnswerModel.questionId a, AnswerModel.author a))
      by (apply answerCore_lookup; by exists a).
    assert (Hnew : Inv.answerCore w' !! id
                   = Some (AnswerModel.questionId a, AnswerModel.author a)).
    { destruct Ha as [->|(id0 & q & u & Hfresh & ->)]; [done|].
      rewrite lookup_insert_ne; [done|]. intros ->. congruence. }
    apply answerCore_lookup in Hnew as (a' & ? & ? & ?). by exists a'.
Qed.

Lemma documents_keep_their_origin_witness :
  ∃ q', questions (QuestionRoutes.delete Sample.world Sample.bob "q1").2 !! "q1" = Some q'
        ∧ QuestionModel.author q' = QuestionModel.author Sample2.question.
Proof.
  destruct (documents_keep_their_origin Sample.rnd Sample.world
              (QuestionRoutes.delete Sample.world Sample.bob "q1").2
              (QuestionDelete Sample.bob "q1")
              (QuestionRoutes.delete Sample.world Sample.bob "q1").1) as [H _];
    [vm_compute; reflexivity|].
  destruct (H "q1" Sample2.question) as (q' & Hq' & Hau & _); [vm_compute; reflexivity|].
  by exists q'.
Defined.

(** X20. No handler pins a question: in every store the server reaches,
    every question has [isPinned = false]. *)
Theorem questions_are_never_pinned :
  ∀ (rnd : nat → Q) (w : World) (id : ObjectId) (q : QuestionModel.t),
    reachable rnd w → questions w !! id = Some q → QuestionModel.isPinned q = false.
Proof.
  intros rnd w id q Hreach. revert id q.
  assert (Hall : ∀ (id u c : ObjectId) p,
            Inv.questionCore w !! id = Some (u, c, p) → p = false).
  { induction Hreach as [|w req r w' _ IH Hh].
    - intros id u c p. unfold Inv.questionCore. simpl.
      by rewrite fmap_empty, lookup_empty.
    - intros id u c p. destruct (handle_core rnd w w' req r Hh) as [Hq _].
      destruct Hq as [->|(id0 & u0 & c0 & Hfresh & ->)]; [by apply IH|].
      rewrite lookup_insert. case_decide; [by intros [= _ _ <-] | by apply IH]. }
  intros id q Hq. apply (Hall id (QuestionModel.author q) (QuestionModel.classId q)).
  apply questionCore_lookup. by exists q.
Qed.

Lemma questions_are_never_pinned_witness :
  reachable Sample.rnd Sample.world
  ∧ questions Sample.world !! "q1" = Some Sample2.question
  ∧ QuestionModel.isPinned Sample2.question = false.
Proof.
  assert (Hq : questions Sample.world !! "q1" = Some Sample2.question)
    by (vm_compute; reflexivity).
  split; [exact sample_world_reachable|]. split; [exact Hq|].
  exact (questions_are_never_pinned Sample.rnd Sample.world "q1" Sample2.question
           sample_world_reachable Hq).
Defined.

(** ** Activity counts *)

Section Counting.

Context {A : Type} (Q : ObjectId * A → Prop) `{!∀ p, Decision (Q p)}.

Lemma count_insert_fresh (m : gmap ObjectId A) (i : ObjectId) (x : A) :
  m !! i = None →
  size (filter Q (<[i := x]> m))
  = ((if decide (Q (i, x)) then 1 else 0) + size (filter Q m))%nat.
Proof.
  intros Hi. rewrite map_filter_insert. case_decide.
  - rewrite map_size_insert_None; [done|].
    apply map_lookup_filter_None_2. by left.
  - by rewrite delete_id.
Qed.

Lemma count_insert_over (m : gmap ObjectId A) (i : ObjectId) (x y : A) :
  m !! i = Some y → ¬ Q (i, x) →
  size (filter Q m)
  = ((if decide (Q (i, y)) then 1 else 0) + size (filter Q (<[i := x]> m)))%nat.
Proof.
  intros Hi Hx. rewrite map_filter_insert.
  destruct (decide (Q (i, x))) as [Hx'|_]; [by destruct Hx|].
  rewrite map_filter_delete. destruct (decide (Q (i, y))) as [Hy|Hy].
  - assert (Hf : filter Q m !! i = Some y) by (by apply map_lookup_filter_Some_2).
    rewrite <- (insert_delete_id (filter Q m) i y) at 1 by done.
    rewrite map_size_insert_None by apply lookup_delete_eq. done.
  - rewrite delete_id; [done|]. apply map_lookup_filter_None_2. right.
    intros z Hz. congruence.
Qed.

End Counting.

(** X21. The answer count of the stats route follows the handlers: posting
    an answer (201) raises the poster's count by one and no one else's, and
    a delete that is answered 200 lowers the count of the answer's author by
    one when the answer was active and changes no count otherwise. *)
Theorem answer_counts_follow_posts_and_deletes :
  ∀ (w : World) (u v : UserModel.t) (qid id : ObjectId) (text : string),
    (status (AnswerRoutes.create w u qid text id).1 = 201 →
     ReadRoutes.answerStats (AnswerRoutes.create w u qid text id).2 v
     = ((if decide (UserModel._id u = UserModel._id v) then 1 else 0)
        + ReadRoutes.answerStats w v)%nat)
    ∧ (status (AnswerRoutes.delete w u id).1 = 200 →
       ∃ a, answers w !! id = Some a
            ∧ ReadRoutes.answerStats w v
              = ((if decide (AnswerModel.author a = UserModel._id v
                             ∧ AnswerModel.isActive a = true) then 1 else 0)
                 + ReadRoutes.answerStats (AnswerRoutes.delete w u id).2 v)%nat).
Proof.
  intros w u v qid id text. split.
  - unfold AnswerRoutes.create.
    destruct (negb _); [discriminate|].
    destruct (questions w !! qid) as [q|]; [|discriminate].
    destruct (ClassModel.findById _ _) as [c|]; [|discriminate].
    destruct (negb _); [discriminate|].
    destruct (answers w !! id) eqn:Hid; [discriminate|]. intros _.
    unfold ReadRoutes.answerStats. cbn [snd answers with_answers with_questions].
    rewrite count_insert_fresh by done. cbn [snd AnswerModel.author AnswerModel.new
      AnswerModel.isActive].
    repeat case_decide; try done; exfalso; intuition congruence.
  - intros Hok. destruct (delete_answer_ok w u id Hok) as (a & Ha & ->).
    exists a. split; [done|]. unfold ReadRoutes.answerStats.
    cbn [answers with_answers with_questions].
    rewrite (count_insert_over _ (answers w) id (AnswerModel.set_isActive a false) a);
      [done | done |].
    cbn. intros [_ ?]. discriminate.
Qed.

Lemma answer_counts_follow_posts_and_deletes_witness :
  ReadRoutes.answerStats Sample.world Sample.ada
  = (1 + ReadRoutes.answerStats (AnswerRoutes.delete Sample.world Sample.ada "a1").2
           Sample.ada)%nat.
Proof.
  destruct (answer_counts_follow_posts_and_deletes Sample.world Sample.ada Sample.ada
              "q1" "a1" "") as [_ H].
  destruct H as (a & Ha & ->); [reflexivity|].
  assert (a = {| AnswerModel.text :=
                   "A set with an associative operation, a unit and inverses.";
                 AnswerModel.questionId := "q1"; AnswerModel.author := "u-ada";
                 AnswerModel.upvotes := []; AnswerModel.downvotes := [];
                 AnswerModel.isAccepted := true; AnswerModel.isActive := true |}) as ->.
  { vm_compute in Ha. by injection Ha. }
  reflexivity.
Defined.

Lemma count_insert_same {A} (P : ObjectId * A → Prop) `{!∀ p, Decision (P p)}
    (m : gmap ObjectId A) (i : ObjectId) (x y : A) :
  m !! i = Some y → (P (i, x) ↔ P (i, y)) →
  size (filter P (<[i := x]> m)) = size (filter P m).
Proof.
  intros Hi Hxy. rewrite map_filter_insert.
  destruct (decide (P (i, x))) as [Hx|Hx].
  - apply map_size_insert_Some. exists y.
    apply map_lookup_filter_Some_2; [exact Hi | tauto].
  - rewrite map_filter_delete, delete_id; [done|].
    apply map_lookup_filter_None_2. right. intros z Hz.
    assert (z = y) as -> by congruence. tauto.
Qed.

Lemma questionStats_activity (w w' : World) (v : UserModel.t) :
  Inv.questionActivity w' = Inv.questionActivity w →
  ReadRoutes.questionStats w' v = ReadRoutes.questionStats w v.
Proof.
  intros Hv.
  assert (Hs : ∀ w0, ReadRoutes.questionStats w0 v
               = size (filter (fun p : ObjectId * (ObjectId * bool) =>
                                 p.2.1 = UserModel._id v ∧ p.2.2 = true)
                              (Inv.questionActivity w0))).
  { intros w0. unfold Inv.questionActivity, ReadRoutes.questionStats.
    by rewrite map_filter_fmap, map_size_fmap. }
  by rewrite !Hs, Hv.
Qed.

Lemma answerStats_activity (w w' : World) (v : UserModel.t) :
  Inv.answerActivity w' = Inv.answerActivity w →
  ReadRoutes.answerStats w' v = ReadRoutes.answerStats w v.
Proof.
  intros Hv.
  assert (Hs : ∀ w0, ReadRoutes.answerStats w0 v
               = size (filter (fun p : ObjectId * (ObjectId * bool) =>
                                 p.2.1 = UserModel._id v ∧ p.2.2 = true)
                              (Inv.answerActivity w0))).
  { intros w0. unfold Inv.answerActivity, ReadRoutes.answerStats.
    by rewrite map_filter_fmap, map_size_fmap. }
  by rewrite !Hs, Hv.
Qed.

Lemma answerActivity_unacceptAll (q : ObjectId) (m : gmap ObjectId AnswerModel.t) :
  (fun a => (AnswerModel.author a, AnswerModel.isActive a))
    <$> AnswerRoutes.unacceptAll q m
  = (fun a => (AnswerModel.author a, AnswerModel.isActive a)) <$> m.
Proof.
  unfold AnswerRoutes.unacceptAll. rewrite <- map_fmap_compose.
  apply map_fmap_ext. intros i a _. simpl.
  by destruct (String.eqb (AnswerModel.questionId a) q).
Qed.

Section Activity.

Variable rnd : nat → Q.

Ltac same_activity :=
  solve [ unfold Inv.questionActivity, Inv.answerActivity; simpl;
          first [ reflexivity | by eapply fmap_insert_same ] ].

Lemma class_handlers_activity (w : World) :
  (∀ u c, Inv.questionActivity (ClassRoutes.join w u c).2 = Inv.questionActivity w
          ∧ Inv.answerActivity (ClassRoutes.join w u c).2 = Inv.answerActivity w)
  ∧ (∀ u i n d s,
       Inv.questionActivity (ClassRoutes.update w u i n d s).2 = Inv.questionActivity w
       ∧ Inv.answerActivity (ClassRoutes.update w u i n d s).2 = Inv.answerActivity w)
  ∧ (∀ u i x,
       Inv.questionActivity (ClassRoutes.removeMember w u i x).2 = Inv.questionActivity w
       ∧ Inv.answerActivity (ClassRoutes.removeMember w u i x).2 = Inv.answerActivity w)
  ∧ (∀ u i, Inv.questionActivity (ClassRoutes.delete w u i).2 = Inv.questionActivity w
            ∧ Inv.answerActivity (ClassRoutes.delete w u i).2 = Inv.answerActivity w).
Proof.
  split; [|split; [|split]]; intros.
  - unfold ClassRoutes.join. repeat case_match; split; same_activity.
  - unfold ClassRoutes.update. repeat case_match; split; same_activity.
  - unfold ClassRoutes.removeMember. repeat case_match; split; same_activity.
  - unfold ClassRoutes.delete. repeat case_match; split; same_activity.
Qed.

Lemma question_handlers_activity (w : World) (u : UserModel.t) (id : ObjectId) :
  (∀ c t d g, Inv.answerActivity (QuestionRoutes.create w u c t d g id).2
              = Inv.answerActivity w)
  ∧ (Inv.questionActivity (QuestionRoutes.get w u id).2 = Inv.questionActivity w
     ∧ Inv.answerActivity (QuestionRoutes.get w u id).2 = Inv.answerActivity w)
  ∧ (∀ t d g,
       Inv.questionActivity (QuestionRoutes.update w u id t d g).2 = Inv.questionActivity w
       ∧ Inv.answerActivity (QuestionRoutes.update w u id t d g).2 = Inv.answerActivity w)
  ∧ (∀ t, Inv.questionActivity (QuestionRoutes.vote w u id t).2 = Inv.questionActivity w
          ∧ Inv.answerActivity (QuestionRoutes.vote w u id t).2 = Inv.answerActivity w)
  ∧ Inv.answerActivity (QuestionRoutes.delete w u id).2 = Inv.answerActivity w.
Proof.
  split; [|split; [|split; [|split]]]; intros.
  - unfold QuestionRoutes.create. repeat case_match; same_activity.
  - unfold QuestionRoutes.get. repeat case_match; split; same_activity.
  - unfold QuestionRoutes.update. repeat case_match; split; same_activity.
  - unfold QuestionRoutes.vote. repeat case_match; split; same_activity.
  - unfold QuestionRoutes.delete. repeat case_match; same_activity.
Qed.

Lemma answer_handlers_activity (w : World) (u : UserModel.t) (id : ObjectId) :
  (∀ q t, Inv.questionActivity (AnswerRoutes.create w u q t id).2
          = Inv.questionActivity w)
  ∧ (∀ t, Inv.questionActivity (AnswerRoutes.update w u id t).2 = Inv.questionActivity w
          ∧ Inv.answerActivity (AnswerRoutes.update w u id t).2 = Inv.answerActivity w)
  ∧ (∀ t, Inv.questionActivity (AnswerRoutes.vote w u id t).2 = Inv.questionActivity w
          ∧ Inv.answerActivity (AnswerRoutes.vote w u id t).2 = Inv.answerActivity w)
  ∧ (Inv.questionActivity (AnswerRoutes.accept w u id).2 = Inv.questionActivity w
     ∧ Inv.answerActivity (AnswerRoutes.accept w u id).2 = Inv.answerActivity w)
  ∧ Inv.questionActivity (AnswerRoutes.delete w u id).2 = Inv.questionActivity w.
Proof.
  split; [|split; [|split; [|split]]]; intros.
  - unfold AnswerRoutes.create. repeat case_match; same_activity.
  - unfold AnswerRoutes.update. repeat case_match; split; same_activity.
  - unfold AnswerRoutes.vote. repeat case_match; split; same_activity.
  - unfold AnswerRoutes.accept. repeat case_match; split; try same_activity.
    unfold Inv.answerActivity. simpl. rewrite fmap_insert, answerActivity_unacceptAll.
    apply insert_id. rewrite lookup_fmap.
    match goal with H : answers w !! _ = Some _ |- _ => by rewrite H end.
  - unfold AnswerRoutes.delete. repeat case_match; try same_activity.
    unfold Inv.questionActivity. simpl. by apply fmap_alter_same.
Qed.

End Activity.

(** X22. The question count of the stats route follows the handlers:
    posting a question (201) raises the poster's count by one and no one
    else's, and a delete that is answered 200 lowers the count of the
    question's author by one when the question was active and changes no
    count otherwise (so a second delete changes nothing). *)
Theorem question_counts_follow_posts_and_deletes :
  ∀ (w : World) (u v : UserModel.t) (cid id : ObjectId) (title description : string)
    (tags : option QuestionRoutes.TagsInput),
    (status (QuestionRoutes.create w u cid title description tags id).1 = 201 →
     ReadRoutes.questionStats (QuestionRoutes.create w u cid title description tags id).2 v
     = ((if decide (UserModel._id u = UserModel._id v) then 1 else 0)
        + ReadRoutes.questionStats w v)%nat)
    ∧ (status (QuestionRoutes.delete w u id).1 = 200 →
       ∃ q, questions w !! id = Some q
            ∧ ReadRoutes.questionStats w v
              = ((if decide (QuestionModel.author q = UserModel._id v
                             ∧ QuestionModel.isActive q = true) then 1 else 0)
                 + ReadRoutes.questionStats (QuestionRoutes.delete w u id).2 v)%nat).
Proof.
  intros w u v cid id title description tags. split.
  - unfold QuestionRoutes.create.
    destruct (negb _); [discriminate|].
    destruct (ClassModel.findById _ _) as [c|]; [|discriminate].
    destruct (negb _); [discriminate|].
    destruct (QuestionRoutes.castTags _) as [ta|]; [|discriminate].
    destruct (questions w !! id) eqn:Hid; [discriminate|]. intros _.
    unfold ReadRoutes.questionStats. cbn [snd questions with_questions].
    rewrite count_insert_fresh by done.
    cbn [snd QuestionModel.author QuestionModel.new QuestionModel.isActive].
    repeat case_decide; try done; exfalso; intuition congruence.
  - unfold QuestionRoutes.delete.
    destruct (questions w !! id) as [q|] eqn:Hid; [|discriminate].
    destruct (ClassModel.findById _ _) as [c|]; [|discriminate].
    destruct (_ && _); [discriminate|]. intros _.
    exists q. split; [done|]. unfold ReadRoutes.questionStats.
    cbn [snd questions with_questions].
    rewrite (count_insert_over _ (questions w) id (QuestionModel.set_isActive q false) q);
      [done | done |].
    cbn. intros [_ ?]. discriminate.
Qed.

Lemma question_counts_follow_posts_and_deletes_witness :
  ReadRoutes.questionStats Sample.world Sample.bob
  = (1 + ReadRoutes.questionStats (QuestionRoutes.delete Sample.world Sample.ada "q1").2
           Sample.bob)%nat.
Proof.
  destruct (question_counts_follow_posts_and_deletes Sample.world Sample.ada Sample.bob
              "c1" "q1" "" "" None) as [_ H].
  destruct H as (q & Hq & ->); [reflexivity|].
  assert (q = Sample2.question) as ->.
  { vm_compute in Hq. injection Hq as <-. reflexivity. }
  reflexivity.
Defined.

(** X23. Only posts and deletes move the counts of the stats routes: a
    request that is neither a question post nor a question delete leaves
    every user's question count as it was, and a request that is neither an
    answer post nor an answer delete leaves every user's answer count as it
    was. Views, votes, edits, accepting an answer, and joining, changing or
    deleting a class count for nothing. *)
Theorem counts_move_only_on_posts_and_deletes :
  ∀ (rnd : nat → Q) (w w' : World) (req : Request) (r : Response) (v : UserModel.t),
    handle rnd w req = Some (r, w') →
    ((∀ u c t d g i, req ≠ QuestionCreate u c t d g i) →
     (∀ u i, req ≠ QuestionDelete u i) →
     ReadRoutes.questionStats w' v = ReadRoutes.questionStats w v)
    ∧ ((∀ u q t i, req ≠ AnswerCreate u q t i) →
       (∀ u i, req ≠ AnswerDelete u i) →
       ReadRoutes.answerStats w' v = ReadRoutes.answerStats w v).
Proof.
  intros rnd w w' req r v Hh.
  destruct req; simpl in Hh;
    try (injection Hh as Hh; apply (f_equal snd) in Hh; cbn [snd] in Hh; subst w').
  - apply create_ok in Hh as (Hq & Ha & _). split; intros _ _.
    + apply questionStats_activity. unfold Inv.questionActivity. by rewrite Hq.
    + apply answerStats_activity. unfold Inv.answerActivity. by rewrite Ha.
  - split; intros _ _; [apply questionStats_activity | apply answerStats_activity];
      apply class_handlers_activity.
  - split; intros _ _; [apply questionStats_activity | apply answerStats_activity];
      apply class_handlers_activity.
  - split; intros _ _; [apply questionStats_activity | apply answerStats_activity];
      apply class_handlers_activity.
  - split; intros _ _; [apply questionStats_activity | apply answerStats_activity];
      apply class_handlers_activity.
  - split; [intros Hc _; by destruct (Hc u classId title description tags newId)|].
    intros _ _. apply answerStats_activity, question_handlers_activity.
  - split; intros _ _; [apply questionStats_activity | apply answerStats_activity];
      apply question_handlers_activity.
  - split; intros _ _; [apply questionStats_activity | apply answerStats_activity];
      apply question_handlers_activity.
  - split; intros _ _; [apply questionStats_activity | apply answerStats_activity];
      apply question_handlers_activity.
  - split; [intros _ Hd; by destruct (Hd u id)|].
    intros _ _. apply answerStats_activity, question_handlers_activity.
  - split; [|intros Hc _; by destruct (Hc u questionId text newId)].
    intros _ _. apply questionStats_activity, answer_handlers_activity.
  - split; intros _ _; [apply questionStats_activity | apply answerStats_activity];
      apply answer_handlers_activity.
  - split; intros _ _; [apply questionStats_activity | apply answerStats_activity];
      apply answer_handlers_activity.
  - split; intros _ _; [apply questionStats_activity | apply answerStats_activity];
      apply answer_handlers_activity.
  - split; [|intros _ Hd; by destruct (Hd u id)].
    intros _ _. apply questionStats_activity, answer_handlers_activity.
Qed.

Lemma counts_move_only_on_posts_and_deletes_witness :
  ReadRoutes.questionStats (AnswerRoutes.accept Sample.world Sample.bob "a2").2 Sample.bob
  = ReadRoutes.questionStats Sample.world Sample.bob
  ∧ ReadRoutes.answerStats (AnswerRoutes.accept Sample.world Sample.bob "a2").2 Sample.bob
    = ReadRoutes.answerStats Sample.world Sample.bob.
Proof.
  destruct (counts_move_only_on_posts_and_deletes Sample.rnd Sample.world
              (AnswerRoutes.accept Sample.world Sample.bob "a2").2
              (AnswerAccept Sample.bob "a2")
              (AnswerRoutes.accept Sample.world Sample.bob "a2").1 Sample.bob)
    as [Hq Ha]; [vm_compute; reflexivity|].
  split; [apply Hq | apply Ha]; discriminate.
Defined.

(** ** setup.js *)






(** ** Reading a class *)

Lemma findById_stored (store : list ClassModel.t) (c : ClassModel.t) :
  NoDup (ClassModel._id <$> store) → c ∈ store →
  ClassModel.findById store (ClassModel._id c) = Some c.
Proof.
  intros Hnd Hin. destruct (ClassModel.findById store (ClassModel._id c)) as [d|] eqn:Hf.
  - apply findById_Some in Hf as [Hd Hid]. f_equal.
    by apply (same_id_same_doc store).
  - apply findById_None in Hf. destruct Hf. by apply list_elem_of_fmap_2.
Qed.

(** X25. Reading a class follows its member list: in every store the server
    reaches, [GET /api/classes/:id] on a stored class returns that class to
    a user on its member list and answers 403 to anyone else; the creator of
    the class is never refused. *)
Theorem class_read_follows_membership :
  ∀ (rnd : nat → Q) (w : World) (u : UserModel.t) (c : ClassModel.t),
    reachable rnd w → c ∈ classes w →
    ReadRoutes.getClass w u (ClassModel._id c)
    = (if Auth.isMember c (UserModel._id u)
       then (respond 200 "", Some c)
       else (respond 403 "You are not a member of this class", None))
    ∧ (UserModel._id u = ClassModel.createdBy c →
       ReadRoutes.getClass w u (ClassModel._id c) = (respond 200 "", Some c)).
Proof.
  intros rnd w u c Hreach Hin.
  destruct (reachable_classInv rnd (fun _ => true) (fun _ => eq_refl) w Hreach)
    as (Hcr & Hids & _).
  assert (Hget : ReadRoutes.getClass w u (ClassModel._id c)
                 = (if Auth.isMember c (UserModel._id u)
                    then (respond 200 "", Some c)
                    else (respond 403 "You are not a member of this class", None))).
  { unfold ReadRoutes.getClass, Auth.requireClassMember.
    rewrite (findById_stored _ _ Hids Hin).
    by destruct (Auth.isMember c (UserModel._id u)). }
  split; [exact Hget|]. intros Hu. rewrite Hget.
  destruct (proj1 (Forall_forall _ _) Hcr c Hin) as (m & Hm & Hmu & _).
  assert (Hmem : Auth.isMember c (UserModel._id u) = true).
  { apply isMember_spec. exists m. split; [done | congruence]. }
  by rewrite Hmem.
Qed.

Lemma class_read_follows_membership_witness :
  reachable Sample.rnd Sample.world ∧ Sample2.algebra ∈ classes Sample.world
  ∧ ReadRoutes.getClass Sample.world Sample.cyd "c1"
    = (respond 403 "You are not a member of this class", None).
Proof.
  assert (Hin : Sample2.algebra ∈ classes Sample.world) by (vm_compute; left).
  split; [exact sample_world_reachable|]. split; [exact Hin|].
  exact (proj1 (class_read_follows_membership Sample.rnd Sample.world Sample.cyd
                  Sample2.algebra sample_world_reachable Hin)).
Defined.

(** ** Repeated requests *)

Lemma bool_filter_idem {A} (f : A → bool) (l : list A) :
  List.filter f (List.filter f l) = List.filter f l.
Proof.
  induction l as [|x l IH]; [done|]. simpl.
  destruct (f x) eqn:Hx; [|done]. simpl. by rewrite Hx, IH.
Qed.

Lemma alter_pullAnswer_idem (id qid : ObjectId) (m : gmap ObjectId QuestionModel.t) :
  alter (AnswerRoutes.pullAnswer id) qid (alter (AnswerRoutes.pullAnswer id) qid m)
  = alter (AnswerRoutes.pullAnswer id) qid m.
Proof.
  apply map_eq. intros j.
  destruct (decide (qid = j)) as [<-|Hne]; [|by rewrite !lookup_alter_ne].
  rewrite !lookup_alter_eq.
  destruct (m !! qid) as [q|]; [|done]. simpl. f_equal.
  unfold AnswerRoutes.pullAnswer, QuestionModel.set_answers. simpl.
  by rewrite bool_filter_idem.
Qed.

Lemma save_idem (store : list ClassModel.t) (c : ClassModel.t) :
  ClassModel.save (ClassModel.save store c) c = ClassModel.save store c.
Proof.
  unfold ClassModel.save. rewrite <- list_fmap_compose.
  apply list_fmap_ext. intros i d _. simpl.
  destruct (String.eqb (ClassModel._id d) (ClassModel._id c)) eqn:Hd.
  - by rewrite String.eqb_refl.
  - by rewrite Hd.
Qed.

(** X26. Deletes can be repeated: sending the same delete of a question or
    of an answer a second time gets the same response as the first time (a
    second 200 after a 200, never a 404) and leaves the store exactly as the
    first delete left it. *)
Theorem deletes_are_idempotent :
  ∀ (w : World) (u : UserModel.t) (id : ObjectId),
    QuestionRoutes.delete (QuestionRoutes.delete w u id).2 u id
    = QuestionRoutes.delete w u id
    ∧ AnswerRoutes.delete (AnswerRoutes.delete w u id).2 u id
      = AnswerRoutes.delete w u id.
Proof.
  intros w u id. split.
  - destruct (questions w !! id) as [q|] eqn:Hq.
    2: { assert (Hd : QuestionRoutes.delete w u id = (respond 404 "Question not found", w))
           by (unfold QuestionRoutes.delete; by rewrite Hq).
         by rewrite !Hd. }
    destruct (ClassModel.findById (classes w) (QuestionModel.classId q)) as [c|] eqn:Hc.
    2: { assert (Hd : QuestionRoutes.delete w u id
                      = (respond 500 "Server error deleting question", w))
           by (unfold QuestionRoutes.delete; by rewrite Hq, Hc).
         by rewrite !Hd. }
    destruct (negb (String.eqb (QuestionModel.author q) (UserModel._id u))
              && negb (Auth.isTeacher c (UserModel._id u))) eqn:Hauth.
    { assert (Hd : QuestionRoutes.delete w u id
                   = (respond 403 "Not authorized to delete this question", w))
        by (unfold QuestionRoutes.delete; by rewrite Hq, Hc, Hauth).
      by rewrite !Hd. }
    assert (Hd : QuestionRoutes.delete w u id
                 = (respond 200 "Question deleted successfully",
                    with_questions w
                      (<[id := QuestionModel.set_isActive q false]> (questions w))))
      by (unfold QuestionRoutes.delete; by rewrite Hq, Hc, Hauth).
    rewrite Hd. cbn [snd]. unfold QuestionRoutes.delete.
    cbn [questions with_questions classes]. rewrite lookup_insert_eq.
    cbn [QuestionModel.classId QuestionModel.author QuestionModel.set_isActive].
    rewrite Hc, Hauth. unfold with_questions. cbn [classes questions answers random].
    by rewrite insert_insert_eq.
  - destruct (answers w !! id) as [a|] eqn:Ha.
    2: { assert (Hd : AnswerRoutes.delete w u id = (respond 404 "Answer not found", w))
           by (unfold AnswerRoutes.delete; by rewrite Ha).
         by rewrite !Hd. }
    destruct (AnswerRoutes.classOf w a) as [[q c]|] eqn:Hc.
    2: { assert (Hd : AnswerRoutes.delete w u id
                      = (respond 500 "Server error deleting answer", w))
           by (unfold AnswerRoutes.delete; by rewrite Ha, Hc).
         by rewrite !Hd. }
    destruct (negb (String.eqb (AnswerModel.author a) (UserModel._id u))
              && negb (Auth.isTeacher c (UserModel._id u))) eqn:Hauth.
    { assert (Hd : AnswerRoutes.delete w u id
                   = (respond 403 "Not authorized to delete this answer", w))
        by (unfold AnswerRoutes.delete; by rewrite Ha, Hc, Hauth).
      by rewrite !Hd. }
    assert (Hd : AnswerRoutes.delete w u id
                 = (respond 200 "Answer deleted successfully",
                    with_questions
                      (with_answers w
                         (<[id := AnswerModel.set_isActive a false]> (answers w)))
                      (alter (AnswerRoutes.pullAnswer id) (AnswerModel.questionId a)
                             (questions w))))
      by (unfold AnswerRoutes.delete; by rewrite Ha, Hc, Hauth).
    rewrite Hd. cbn [snd]. unfold AnswerRoutes.delete at 1.
    cbn [questions answers with_questions with_answers classes]. rewrite lookup_insert_eq.
    assert (Hc' : AnswerRoutes.classOf
                    (with_questions
                       (with_answers w
                          (<[id := AnswerModel.set_isActive a false]> (answers w)))
                       (alter (AnswerRoutes.pullAnswer id) (AnswerModel.questionId a)
                              (questions w)))
                    (AnswerModel.set_isActive a false)
                  = Some (AnswerRoutes.pullAnswer id q, c)).
    { unfold AnswerRoutes.classOf in *.
      cbn [questions answers with_questions with_answers classes
           AnswerModel.questionId AnswerModel.set_isActive].
      rewrite lookup_alter_eq.
      destruct (questions w !! AnswerModel.questionId a) as [q0|]; [|discriminate].
      cbn [fmap option_fmap option_map AnswerRoutes.pullAnswer QuestionModel.classId
           QuestionModel.set_answers].
      destruct (ClassModel.findById (classes w) (QuestionModel.classId q0));
        [|discriminate].
      by injection Hc as -> ->. }
    rewrite Hc'. cbn [AnswerModel.author AnswerModel.set_isActive AnswerModel.questionId].
    rewrite Hauth. unfold with_questions, with_answers.
    cbn [classes questions answers random AnswerModel.set_isActive].
    by rewrite insert_insert_eq, alter_pullAnswer_idem.
Qed.

Lemma mergeSettings_idem (s : ClassModel.Settings) (p : ClassRoutes.SettingsPatch) :
  ClassRoutes.mergeSettings (ClassRoutes.mergeSettings s p) p
  = ClassRoutes.mergeSettings s p.
Proof.
  unfold ClassRoutes.mergeSettings. simpl.
  by destruct (ClassRoutes.p_allowStudentQuestions p), (ClassRoutes.p_allowFileUploads p),
       (ClassRoutes.p_maxFileSize p), (ClassRoutes.p_allowedFileTypes p).
Qed.

(** X27. A class update can be repeated: sending the same update a second
    time gets the same response as the first time and leaves the store
    exactly as the first update left it. *)
Theorem class_update_is_idempotent :
  ∀ (w : World) (u : UserModel.t) (id : ObjectId) (name description : option string)
    (settings : option ClassRoutes.SettingsPatch),
    ClassRoutes.update (ClassRoutes.update w u id name description settings).2
                       u id name description settings
    = ClassRoutes.update w u id name description settings.
Proof.
  intros w u id name description settings.
  destruct (ClassModel.findById (classes w) id) as [c|] eqn:Hfind.
  2: { assert (Hd : ClassRoutes.update w u id name description settings
                    = (respond 404 "Class not found", w))
         by (unfold ClassRoutes.update, Auth.requireClassTeacher; by rewrite Hfind).
       by rewrite !Hd. }
  destruct (Auth.isTeacher c (UserModel._id u)) eqn:Ht.
  2: { assert (Hd : ClassRoutes.update w u id name description settings
                    = (respond 403 "Teacher access required", w))
         by (unfold ClassRoutes.update, Auth.requireClassTeacher; by rewrite Hfind, Ht).
       by rewrite !Hd. }
  destruct (Validate.optLength 3 100 name && Validate.optLength 0 500 description)
    eqn:Hv.
  2: { assert (Hd : ClassRoutes.update w u id name description settings
                    = (respond 400 "Validation failed", w))
         by (unfold ClassRoutes.update, Auth.requireClassTeacher;
             by rewrite Hfind, Ht, Hv).
       by rewrite !Hd. }
  pose proof (findById_Some _ _ _ Hfind) as [Hin Hid].
  set (c1 := if JS.truthy (JS.trim <$> name)
             then ClassModel.set_name c (default "" (JS.trim <$> name)) else c).
  set (c2 := match JS.trim <$> description with
             | Some d => ClassModel.set_description c1 (Some d)
             | None => c1
             end).
  set (c3 := match settings with
             | Some p => ClassModel.set_settings c2
                           (ClassRoutes.mergeSettings (ClassModel.settings c) p)
             | None => c2
             end).
  assert (Hid3 : ClassModel._id c3 = ClassModel._id c).
  { subst c3 c2 c1.
    by destruct settings, (JS.trim <$> description), (JS.truthy (JS.trim <$> name)). }
  assert (Hm3 : ClassModel.members c3 = ClassModel.members c).
  { subst c3 c2 c1.
    by destruct settings, (JS.trim <$> description), (JS.truthy (JS.trim <$> name)). }
  assert (Hd : ClassRoutes.update w u id name description settings
               = (respond 200 "Class updated successfully",
                  with_classes w (ClassModel.save (classes w) c3)))
    by (unfold ClassRoutes.update, Auth.requireClassTeacher; by rewrite Hfind, Ht, Hv).
  rewrite Hd. cbn [snd].
  unfold ClassRoutes.update, Auth.requireClassTeacher. cbn [classes with_classes].
  rewrite <- Hid at 1. rewrite (findById_save (classes w) c c3 Hin Hid3).
  assert (Ht3 : Auth.isTeacher c3 (UserModel._id u) = true)
    by (unfold Auth.isTeacher in *; by rewrite Hm3).
  rewrite Ht3, Hv. cbn [negb]. f_equal.
  unfold with_classes. cbn [classes questions answers random]. f_equal.
  assert (Hsame : match settings with
                  | Some p =>
                      ClassModel.set_settings
                        match JS.trim <$> description with
                        | Some d =>
                            ClassModel.set_description
                              (if JS.truthy (JS.trim <$> name)
                               then ClassModel.set_name c3 (default "" (JS.trim <$> name))
                               else c3) (Some d)
                        | None =>
                            if JS.truthy (JS.trim <$> name)
                            then ClassModel.set_name c3 (default "" (JS.trim <$> name))
                            else c3
                        end
                        (ClassRoutes.mergeSettings (ClassModel.settings c3) p)
                  | None =>
                      match JS.trim <$> description with
                      | Some d =>
                          ClassModel.set_description
                            (if JS.truthy (JS.trim <$> name)
                             then ClassModel.set_name c3 (default "" (JS.trim <$> name))
                             else c3) (Some d)
                      | None =>
                          if JS.truthy (JS.trim <$> name)
                          then ClassModel.set_name c3 (default "" (JS.trim <$> name))
                          else c3
                      end
                  end = c3).
  { subst c3 c2 c1. destruct c as [i n d k cb ms st act].
    destruct settings as [p|], (JS.trim <$> description) as [d'|],
      (JS.truthy (JS.trim <$> name));
      unfold ClassModel.set_settings, ClassModel.set_description, ClassModel.set_name;
      cbn; rewrite ?mergeSettings_idem; reflexivity. }
  rewrite Hsame. apply save_idem.
Qed.

(** ** Tags *)

Lemma rtrim_idem (s : string) : JS.rtrim (JS.rtrim s) = JS.rtrim s.
Proof.
  induction s as [|a s IH]; [done|]. simpl.
  destruct (JS.rtrim s) as [|b r] eqn:Hr.
  - destruct (JS.is_space a) eqn:Ha; [done|]. simpl. by rewrite Ha.
  - simpl. simpl in IH. by rewrite IH.
Qed.

Lemma rtrim_head (a : ascii) (s : string) :
  JS.is_space a = false → ∃ r, JS.rtrim (String a s) = String a r.
Proof.
  intros Ha. simpl. destruct (JS.rtrim s) as [|b r]; [|by eexists].
  rewrite Ha. by eexists.
Qed.

Lemma ltrim_head (s : string) :
  JS.ltrim s = EmptyString
  ∨ ∃ a s', JS.ltrim s = String a s' ∧ JS.is_space a = false.
Proof.
  induction s as [|a s IH]; [by left|]. simpl.
  destruct (JS.is_space a) eqn:Ha; [exact IH|]. right. by eexists _, _.
Qed.

Lemma trim_idem (s : string) : JS.trim (JS.trim s) = JS.trim s.
Proof.
  unfold JS.trim. destruct (ltrim_head s) as [->|(a & s' & -> & Ha)]; [done|].
  destruct (rtrim_head a s' Ha) as [r Hr].
  assert (Hl : JS.ltrim (JS.rtrim (String a s')) = JS.rtrim (String a s'))
    by (rewrite Hr; simpl; by rewrite Ha).
  by rewrite Hl, rtrim_idem.
Qed.

Lemma processTags_trimmed (tags : option QuestionRoutes.TagsInput) (x : string) :
  In x (QuestionRoutes.processTags tags) →
  (0 < String.length (JS.trim x))%nat.
Proof.
  destruct tags as [[l|s]|]; simpl; [| |done].
  - intros [_ Hx]%filter_In. unfold QuestionRoutes.nonblank in Hx.
    by apply Nat.ltb_lt in Hx.
  - intros [Hin Hx]%filter_In. apply in_map_iff in Hin as (y & <- & _).
    rewrite trim_idem. by apply Nat.ltb_lt in Hx.
Qed.

Lemma castTags_Some (l ta : list string) :
  QuestionRoutes.castTags l = Some ta →
  ta = List.map JS.trim l
  ∧ ∀ t, In t ta → (String.length t ≤ 20)%nat.
Proof.
  unfold QuestionRoutes.castTags.
  destruct (forallb _ _) eqn:Hall; [|discriminate]. intros [= <-].
  split; [done|]. intros t Ht.
  rewrite forallb_forall in Hall. by apply Nat.leb_le, Hall.
Qed.

(** X28. Tags of a new question. When the create handler answers 201, the
    stored question carries the submitted tags trimmed, in order, with the
    blank ones dropped: every stored tag is trimmed, non-empty and at most 20
    characters long. A request with a non-blank tag longer than 20 characters
    after trimming is never answered 201 and stores nothing. *)
Theorem created_question_tags :
  ∀ (w : World) (u : UserModel.t) (cid id : ObjectId) (title description : string)
    (tags : option QuestionRoutes.TagsInput),
    let out := QuestionRoutes.create w u cid title description tags id in
    (status out.1 = 201 →
     ∃ q, questions out.2 !! id = Some q
          ∧ QuestionModel.tags q = List.map JS.trim (QuestionRoutes.processTags tags)
          ∧ ∀ t, In t (QuestionModel.tags q) →
                 JS.trim t = t ∧ (1 ≤ String.length t ≤ 20)%nat)
    ∧ ((∃ t, In t (QuestionRoutes.processTags tags)
             ∧ (20 < String.length (JS.trim t))%nat) →
       status out.1 ≠ 201 ∧ out.2 = w).
Proof.
  intros w u cid id title description tags out. subst out.
  unfold QuestionRoutes.create.
  destruct (negb _); [split; [discriminate | by intros _]|].
  destruct (ClassModel.findById _ _) as [c|]; [|split; [discriminate | by intros _]].
  destruct (negb _); [split; [discriminate | by intros _]|].
  destruct (QuestionRoutes.castTags _) as [ta|] eqn:Hcast;
    [|split; [discriminate | by intros _]].
  apply castTags_Some in Hcast as [Hta Hlen].
  destruct (questions w !! id); [split; [discriminate | by intros _]|].
  cbn [fst snd status respond questions with_questions]. split.
  - intros _. eexists. split; [apply lookup_insert_eq|].
    cbn [QuestionModel.tags QuestionModel.new]. split; [done|].
    intros t Ht. pose proof (Hlen t Ht) as Hle. subst ta.
    apply in_map_iff in Ht as (x & <- & Hx).
    apply processTags_trimmed in Hx. rewrite trim_idem. split; [done | lia].
  - intros (t & Ht & Hlong). exfalso.
    assert (Hin : In (JS.trim t) ta) by (subst ta; by apply in_map).
    apply Hlen in Hin. lia.
Qed.

Lemma created_question_tags_witness :
  QuestionModel.tags
    <$> questions (QuestionRoutes.create Sample.world Sample.bob "c1"
                     "What is a coset?" "Please give an example of a coset."
                     (Some (QuestionRoutes.TagsString " groups, ,cosets ")) "q2").2
          !! "q2"
  = Some ["groups"; "cosets"].
Proof.
  destruct (created_question_tags Sample.world Sample.bob "c1" "q2"
              "What is a coset?" "Please give an example of a coset."
              (Some (QuestionRoutes.TagsString " groups, ,cosets "))) as [H _].
  destruct H as (q & Hq & Htags & _); [vm_compute; reflexivity|].
  etransitivity; [exact (f_equal (fmap QuestionModel.tags) Hq)|].
  cbn [fmap option_fmap option_map]. rewrite Htags. vm_compute. reflexivity.
Defined.
